(** * MIHCSME-py: metadata model, spreadsheet parser and annotation deletion

    A shallow embedding of [mihcsme_omero/models.py], [mihcsme_omero/parser.py]
    and [mihcsme_omero/omero_connection.py], and of the constructor of the
    client in [scripts/omero_forms_client.py], followed by the properties
    established about them.

    Conventions of the embedding.
    - Python [str] is [string]; the characters are ASCII (a code above 127 is
      kept as an opaque, uncased, non-blank, non-digit character).
    - A Python [dict] with [str] keys is an association list in insertion
      order ([dict V]), since the order of [data.items()] decides the order
      of the reference sheets; [dict_set] is [d[k] = v].  A list that
      stands for a real dict has pairwise distinct keys ([dict_wf]).
    - A raised exception is the [Raise] branch of [result]; the exception
      classes that the code can raise are the constructors of [exn].
    - A worksheet is given by the frames that [pd.read_excel] returns for
      it, with and without [dtype=str]; what pandas does to get there is
      not modelled.  NaN is [None]; cells hold text or whole numbers. *)

From Stdlib Require Import String Ascii List ZArith Lia Bool Arith DecimalString.
Import ListNotations.
Open Scope string_scope.

(* ================================================================== *)
(** ** Python layer: exceptions, strings, values, dicts *)

Module Py.

Inductive exn : Type :=
| ValueError (msg : string)
| ValidationError (title : string) (errors : list (string * string))
| FileNotFoundError (msg : string)
| AttributeError (msg : string)
| IndexError (msg : string).

Inductive result (A : Type) : Type :=
| Ok (a : A)
| Raise (e : exn).

Arguments Ok {A} a.
Arguments Raise {A} e.

Definition bind {A B : Type} (c : result A) (k : A -> result B) : result B :=
  match c with
  | Ok a => k a
  | Raise e => Raise e
  end.

Notation "x <- c ;; k" := (bind c (fun x => k))
  (at level 61, c at next level, right associativity).

(** [for x in l: acc.append(f x)], stopping at the first exception. *)
Fixpoint mapM {A B : Type} (f : A -> result B) (l : list A) : result (list B) :=
  match l with
  | [] => Ok []
  | x :: xs => y <- f x ;; ys <- mapM f xs ;; Ok (y :: ys)
  end.

(** *** Characters and strings *)

(** [str.isspace] on ASCII: TAB..CR, FS..US and the blank. *)
Definition py_isspace (c : ascii) : bool :=
  let n := nat_of_ascii c in
  ((9 <=? n)%nat && (n <=? 13)%nat) || ((28 <=? n)%nat && (n <=? 32)%nat).

Definition is_digit (c : ascii) : bool :=
  let n := nat_of_ascii c in (48 <=? n)%nat && (n <=? 57)%nat.

Definition digit_val (c : ascii) : Z := Z.of_nat (nat_of_ascii c) - 48.

Definition upper_char (c : ascii) : ascii :=
  let n := nat_of_ascii c in
  if (97 <=? n)%nat && (n <=? 122)%nat then ascii_of_nat (n - 32) else c.

Definition lower_char (c : ascii) : ascii :=
  let n := nat_of_ascii c in
  if (65 <=? n)%nat && (n <=? 90)%nat then ascii_of_nat (n + 32) else c.

Fixpoint upper (s : string) : string :=
  match s with
  | EmptyString => EmptyString
  | String c s' => String (upper_char c) (upper s')
  end.

Fixpoint lower (s : string) : string :=
  match s with
  | EmptyString => EmptyString
  | String c s' => String (lower_char c) (lower s')
  end.

Fixpoint lstrip (s : string) : string :=
  match s with
  | EmptyString => EmptyString
  | String c s' => if py_isspace c then lstrip s' else s
  end.

Fixpoint rstrip (s : string) : string :=
  match s with
  | EmptyString => EmptyString
  | String c s' =>
      match rstrip s' with
      | EmptyString => if py_isspace c then EmptyString else String c EmptyString
      | r => String c r
      end
  end.

Definition strip (s : string) : string := rstrip (lstrip s).

(** [s.startswith(p)] *)
Definition startswith (s p : string) : bool := String.prefix p s.

(** [sep.join(l)] *)
Fixpoint join (sep : string) (l : list string) : string :=
  match l with
  | [] => ""
  | [x] => x
  | x :: xs => x ++ sep ++ join sep xs
  end.

(** [x in l] for a list of strings. *)
Definition str_in (x : string) (l : list string) : bool :=
  existsb (String.eqb x) l.

(** [str(n)] for an [int]. *)
Definition str_of_int (n : Z) : string := NilZero.string_of_int (Z.to_int n).

(** [f"{n:02d}"]: sign-aware zero padding to width two. *)
Definition format_02d (n : Z) : string :=
  if (0 <=? n)%Z
  then let s := str_of_int n in
       if (String.length s <? 2)%nat then "0" ++ s else s
  else str_of_int n.

(** The digits of an [int] literal: one or more decimal digits, a single
    underscore allowed between two digits. *)
Fixpoint parse_digits (acc : Z) (after_digit : bool) (s : string) : option Z :=
  match s with
  | EmptyString => if after_digit then Some acc else None
  | String c s' =>
      if is_digit c then parse_digits (10 * acc + digit_val c)%Z true s'
      else if Ascii.eqb c "_" && after_digit then
        match s' with
        | EmptyString => None
        | String _ _ => parse_digits acc false s'
        end
      else None
  end.

(** The blanks that [int()] drops around a literal: TAB..CR and the blank.
    FS..US, which [str.strip] drops, are no blanks to [int()]. *)
Definition int_isspace (c : ascii) : bool :=
  let n := nat_of_ascii c in
  ((9 <=? n)%nat && (n <=? 13)%nat) || (n =? 32)%nat.

Fixpoint int_lstrip (s : string) : string :=
  match s with
  | EmptyString => EmptyString
  | String c s' => if int_isspace c then int_lstrip s' else s
  end.

Fixpoint int_rstrip (s : string) : string :=
  match s with
  | EmptyString => EmptyString
  | String c s' =>
      match int_rstrip s' with
      | EmptyString => if int_isspace c then EmptyString else String c EmptyString
      | r => String c r
      end
  end.

(** [int(s)] in base ten: surrounding blanks are dropped, one optional sign,
    then the digits; anything else is a [ValueError]. *)
Definition py_int (s : string) : result Z :=
  let t := int_rstrip (int_lstrip s) in
  let parsed :=
    match t with
    | String "+" r => parse_digits 0 false r
    | String "-" r => option_map Z.opp (parse_digits 0 false r)
    | _ => parse_digits 0 false t
    end in
  match parsed with
  | Some n => Ok n
  | None =>
      Raise (ValueError ("invalid literal for int() with base 10: '" ++ s ++ "'"))
  end.

(** [try: body except ValueError: handler].  pydantic's [ValidationError]
    is a subclass of [ValueError]. *)
Definition try_except_ValueError {A : Type}
    (body : result A) (handler : result A) : result A :=
  match body with
  | Raise (ValueError _) => handler
  | Raise (ValidationError _ _) => handler
  | r => r
  end.

(** *** Values and dicts *)

Definition dict (V : Type) : Type := list (string * V).

(** The values of the flat dict: [None], text, whole numbers, lists and
    dicts.  Floats and booleans are left out of the model. *)
#[warnings="-register-all"]
Inductive pyval : Type :=
| PNone
| PStr (s : string)
| PInt (n : Z)
| PList (l : list pyval)
| PDict (d : dict pyval).

Definition type_name (v : pyval) : string :=
  match v with
  | PNone => "NoneType"
  | PStr _ => "str"
  | PInt _ => "int"
  | PList _ => "list"
  | PDict _ => "dict"
  end.

Section Dict.
Context {V : Type}.

(** [d.get(k)] *)
Fixpoint dict_get (d : dict V) (k : string) : option V :=
  match d with
  | [] => None
  | (k', v) :: d' => if String.eqb k k' then Some v else dict_get d' k
  end.

(** [k in d] *)
Definition dict_mem (d : dict V) (k : string) : bool :=
  match dict_get d k with Some _ => true | None => false end.

(** [d.get(k, default)] *)
Definition dict_get_default (d : dict V) (k : string) (default : V) : V :=
  match dict_get d k with Some v => v | None => default end.

(** [d[k] = v]: an existing key keeps its position, a new key goes last. *)
Fixpoint dict_set (d : dict V) (k : string) (v : V) : dict V :=
  match d with
  | [] => [(k, v)]
  | (k', v') :: d' =>
      if String.eqb k k' then (k', v) :: d' else (k', v') :: dict_set d' k v
  end.

(** [d.update(e)], also [{**d, **e}] *)
Definition dict_update (d e : dict V) : dict V :=
  fold_left (fun acc kv => dict_set acc (fst kv) (snd kv)) e d.

Definition dict_keys (d : dict V) : list string := map fst d.

(** The keys of a real dict are pairwise distinct. *)
Definition dict_wf (d : dict V) : Prop := NoDup (dict_keys d).

End Dict.

End Py.

Import Py.

(* ================================================================== *)
(** ** models.py *)

Module Models.

Record InvestigationInformation : Type :=
  { inv_groups : dict (dict pyval) }.

Record StudyInformation : Type :=
  { study_groups : dict (dict pyval) }.

Record AssayInformation : Type :=
  { assay_groups : dict (dict pyval) }.

Record AssayCondition : Type :=
  { plate : string;
    well : string;
    conditions : dict pyval }.

Record ReferenceSheet : Type :=
  { name : string;
    data : dict pyval }.

Record MIHCSMEMetadata : Type :=
  { investigation_information : option InvestigationInformation;
    study_information : option StudyInformation;
    assay_information : option AssayInformation;
    assay_conditions : list AssayCondition;
    reference_sheets : list ReferenceSheet }.

(** [AssayCondition.normalize_well_name], the validator of field [well]. *)
Definition normalize_well_name (v : string) : result string :=
  let v := upper (strip v) in
  if (String.length v <? 2)%nat then
    Raise (ValueError ("Invalid well format: " ++ v))
  else
    let row_letter := substring 0 1 v in
    let col_part := substring 1 (String.length v - 1) v in
    if negb (String.leb "A" row_letter && String.leb row_letter "P") then
      Raise (ValueError ("Invalid row letter (must be A-P): " ++ row_letter))
    else
      try_except_ValueError
        (col_num <- py_int col_part ;;
         if negb ((1 <=? col_num)%Z && (col_num <=? 48)%Z) then
           Raise (ValueError ("Invalid column number (must be 1-48): "
                              ++ str_of_int col_num))
         else Ok (row_letter ++ format_02d col_num))
        (Raise (ValueError ("Invalid well format: " ++ v))).

(** *** pydantic field validation *)

(** A field annotated [str]. *)
Definition validate_str (loc : string) (v : pyval)
  : string * list (string * string) :=
  match v with
  | PStr s => (s, [])
  | _ => ("", [(loc, "Input should be a valid string")])
  end.

(** A field annotated [Dict[str, Any]]. *)
Definition validate_dict (loc : string) (v : pyval)
  : dict pyval * list (string * string) :=
  match v with
  | PDict d => (d, [])
  | _ => ([], [(loc, "Input should be a valid dictionary")])
  end.

(** A field annotated [Dict[str, Dict[str, Any]]]: every error is reported. *)
Fixpoint validate_group_items (loc : string) (d : dict pyval)
  : dict (dict pyval) * list (string * string) :=
  match d with
  | [] => ([], [])
  | (k, v) :: d' =>
      let '(g, e) := validate_dict (loc ++ "." ++ k) v in
      let '(gs, es) := validate_group_items loc d' in
      ((k, g) :: gs, (e ++ es)%list)
  end.

Definition validate_groups (loc : string) (v : pyval)
  : dict (dict pyval) * list (string * string) :=
  match v with
  | PDict d => validate_group_items loc d
  | _ => ([], [(loc, "Input should be a valid dictionary")])
  end.

Definition finish {A : Type} (title : string) (a : A)
    (errors : list (string * string)) : result A :=
  match errors with
  | [] => Ok a
  | _ => Raise (ValidationError title errors)
  end.

(** [InvestigationInformation(groups=v)] and its two siblings. *)
Definition new_InvestigationInformation (v : pyval)
  : result InvestigationInformation :=
  let '(g, e) := validate_groups "groups" v in
  finish "InvestigationInformation" {| inv_groups := g |} e.

Definition new_StudyInformation (v : pyval) : result StudyInformation :=
  let '(g, e) := validate_groups "groups" v in
  finish "StudyInformation" {| study_groups := g |} e.

Definition new_AssayInformation (v : pyval) : result AssayInformation :=
  let '(g, e) := validate_groups "groups" v in
  finish "AssayInformation" {| assay_groups := g |} e.

(** The [well] field: the type check, then the validator; a [ValueError]
    of the validator becomes one error line of the model. *)
Definition validate_well (v : pyval) : string * list (string * string) :=
  match v with
  | PStr s =>
      match normalize_well_name s with
      | Ok w => (w, [])
      | Raise (ValueError msg) => ("", [("well", "Value error, " ++ msg)])
      | Raise _ => ("", [("well", "Value error")])
      end
  | _ => ("", [("well", "Input should be a valid string")])
  end.

(** [AssayCondition(plate=p, well=w, conditions=c)] *)
Definition new_AssayCondition (p w : pyval) (c : dict pyval)
  : result AssayCondition :=
  let '(p', e1) := validate_str "plate" p in
  let '(w', e2) := validate_well w in
  finish "AssayCondition"
    {| plate := p'; well := w'; conditions := c |} (e1 ++ e2)%list.

(** [ReferenceSheet(name=n, data=d)]: two typed fields, no validator. *)
Definition new_ReferenceSheet (n d : pyval) : result ReferenceSheet :=
  let '(n', e1) := validate_str "name" n in
  let '(d', e2) := validate_dict "data" d in
  finish "ReferenceSheet" {| name := n'; data := d' |} (e1 ++ e2)%list.

(** *** MIHCSMEMetadata.to_omero_dict *)

Definition groups_value (g : dict (dict pyval)) : pyval :=
  PDict (map (fun kv => (fst kv, PDict (snd kv))) g).

(** [{"Plate": c.plate, "Well": c.well, **c.conditions}] *)
Definition condition_dict (c : AssayCondition) : dict pyval :=
  dict_update [("Plate", PStr (plate c)); ("Well", PStr (well c))]
              (conditions c).

Definition to_omero_dict (self : MIHCSMEMetadata) : dict pyval :=
  let result : dict pyval := [] in
  let result :=
    match investigation_information self with
    | Some i => dict_set result "InvestigationInformation"
                         (groups_value (inv_groups i))
    | None => result
    end in
  let result :=
    match study_information self with
    | Some s => dict_set result "StudyInformation"
                         (groups_value (study_groups s))
    | None => result
    end in
  let result :=
    match assay_information self with
    | Some a => dict_set result "AssayInformation"
                         (groups_value (assay_groups a))
    | None => result
    end in
  let result :=
    match assay_conditions self with
    | [] => result
    | cs => dict_set result "AssayConditions"
                     (PList (map (fun c => PDict (condition_dict c)) cs))
    end in
  fold_left (fun r ref_sheet => dict_set r (name ref_sheet)
                                         (PDict (data ref_sheet)))
            (reference_sheets self) result.

(** *** MIHCSMEMetadata.from_omero_dict *)

Definition is_plate_or_well (k : string) : bool := str_in k ["Plate"; "Well"].

(** One turn of the loop over [data["AssayConditions"]]. *)
Definition condition_of_entry (entry : pyval) : result AssayCondition :=
  match entry with
  | PDict condition_dict =>
      let p := dict_get_default condition_dict "Plate" (PStr "") in
      let w := dict_get_default condition_dict "Well" (PStr "") in
      let conds :=
        filter (fun kv => negb (is_plate_or_well (fst kv))) condition_dict in
      new_AssayCondition p w conds
  | v => Raise (AttributeError
                  ("'" ++ type_name v ++ "' object has no attribute 'get'"))
  end.

(** The loop over [data.items()] that collects the reference sheets. *)
Fixpoint reference_sheets_of (items : dict pyval) : list ReferenceSheet :=
  match items with
  | [] => []
  | (key, value) :: rest =>
      match value with
      | PDict d =>
          if startswith key "_"
          then {| name := key; data := d |} :: reference_sheets_of rest
          else reference_sheets_of rest
      | _ => reference_sheets_of rest
      end
  end.

Definition from_omero_dict (data : dict pyval) : result MIHCSMEMetadata :=
  investigation_info <-
    match dict_get data "InvestigationInformation" with
    | Some v => i <- new_InvestigationInformation v ;; Ok (Some i)
    | None => Ok None
    end ;;
  study_info <-
    match dict_get data "StudyInformation" with
    | Some v => s <- new_StudyInformation v ;; Ok (Some s)
    | None => Ok None
    end ;;
  assay_info <-
    match dict_get data "AssayInformation" with
    | Some v => a <- new_AssayInformation v ;; Ok (Some a)
    | None => Ok None
    end ;;
  conds <-
    match dict_get data "AssayConditions" with
    | Some (PList l) => mapM condition_of_entry l
    | _ => Ok []
    end ;;
  Ok {| investigation_information := investigation_info;
        study_information := study_info;
        assay_information := assay_info;
        assay_conditions := conds;
        reference_sheets := reference_sheets_of data |}.

End Models.

Import Models.

(* ================================================================== *)
(** ** pandas, as far as parser.py uses it *)

Module Pandas.

(** A cell of a frame holds text or a whole number; [None] is NaN.
    Frames with floats, dates or booleans are outside the model. *)
Inductive scalar : Type :=
| SStr (s : string)
| SInt (n : Z).

Definition cell : Type := option scalar.

Definition isna (c : cell) : bool :=
  match c with None => true | Some _ => false end.

Definition str_of_scalar (x : scalar) : string :=
  match x with SStr s => s | SInt n => str_of_int n end.

(** [str(c)], also one element of [.astype(str)] *)
Definition str_of_cell (c : cell) : string :=
  match c with Some x => str_of_scalar x | None => "nan" end.

Definition scalar_eqb (x y : scalar) : bool :=
  match x, y with
  | SStr a, SStr b => String.eqb a b
  | SInt a, SInt b => Z.eqb a b
  | _, _ => false
  end.

Definition value_of_scalar (x : scalar) : pyval :=
  match x with SStr s => PStr s | SInt n => PInt n end.

(** [None if pd.isna(value) else value] *)
Definition value_of_cell (c : cell) : pyval :=
  match c with Some x => value_of_scalar x | None => PNone end.

(** Rows carry their index label, which filtering keeps. *)
Record DataFrame : Type :=
  { ncols : nat;
    rows : list (nat * list cell) }.

(** A worksheet as pandas hands it to the parser.  [pd.read_excel] is
    library code: what it makes of the cells of the file (the first row of
    the sheet taken for the column labels, empty and NA-like cells read as
    NaN, numbers recognised column by column) is not part of the model,
    which starts from the frames it returns.  [sheet_width] is the number
    of columns of the frame of the sheet, [sheet_rows] the rows of
    [pd.read_excel(xls, sheet_name=...)] and [sheet_rows_str] the rows of
    the same call with [dtype=str], in which a cell is a [str] or NaN. *)
Record Worksheet : Type :=
  { sheet_width : nat;
    sheet_rows : list (list cell);
    sheet_rows_str : list (list (option string)) }.

(** [pd.ExcelFile]: the sheets by name, in workbook order. *)
Definition ExcelFile : Type := dict Worksheet.

(** A row of the frame's width: cut, or NaN-padded. *)
Fixpoint fit (n : nat) (r : list cell) : list cell :=
  match n with
  | O => []
  | S n' =>
      match r with
      | [] => None :: fit n' []
      | c :: r' => c :: fit n' r'
      end
  end.

(** The frame of [n] columns with the rows [rs], labelled 0, 1, 2, ... *)
Definition frame_of (n : nat) (rs : list (list cell)) : DataFrame :=
  {| ncols := n;
     rows := combine (seq 0 (List.length rs)) (map (fit n) rs) |}.

Definition sheet_named (xls : ExcelFile) (sheet_name : string) : result Worksheet :=
  match dict_get xls sheet_name with
  | Some ws => Ok ws
  | None => Raise (ValueError ("Worksheet named '" ++ sheet_name ++ "' not found"))
  end.

(** [pd.read_excel(xls, sheet_name=sheet_name)] *)
Definition read_excel (xls : ExcelFile) (sheet_name : string) : result DataFrame :=
  sh <- sheet_named xls sheet_name ;;
  Ok (frame_of (sheet_width sh) (sheet_rows sh)).

(** A cell of the frame read with [dtype=str]. *)
Definition str_cell (c : option string) : cell := option_map SStr c.

(** [pd.read_excel(xls, sheet_name=sheet_name, dtype=str)] *)
Definition read_excel_str (xls : ExcelFile) (sheet_name : string)
  : result DataFrame :=
  sh <- sheet_named xls sheet_name ;;
  Ok (frame_of (sheet_width sh) (map (map str_cell) (sheet_rows_str sh))).

(** [row.iloc[i]] *)
Definition iloc (row : list cell) (i : nat) : cell := nth i row None.

(** One element of [df.iloc[:, 0].astype(str).str.startswith("#")] *)
Definition is_comment_row (r : list cell) : bool :=
  startswith (str_of_cell (iloc r 0)) "#".

(** [df[~df.iloc[:, 0].astype(str).str.startswith("#")]] *)
Definition drop_comment_rows (df : DataFrame) : result DataFrame :=
  if (ncols df =? 0)%nat then
    Raise (IndexError "single positional indexer is out-of-bounds")
  else
    Ok {| ncols := ncols df;
          rows := filter (fun r => negb (is_comment_row (snd r))) (rows df) |}.

(** [df.dropna(how="all")] *)
Definition dropna_all (df : DataFrame) : DataFrame :=
  {| ncols := ncols df;
     rows := filter (fun r => negb (forallb isna (snd r))) (rows df) |}.

(** What [row[label]] and [row.get(label)] give on a row whose labels may
    repeat: the cell of the one column so labelled, or a Series of all of
    them.  A label that is absent gives [None], which [pd.isna] takes as
    missing. *)
Inductive selection : Type :=
| One (c : cell)
| Series (cs : list cell).

Definition row_get (row : list (string * cell)) (label : string) : selection :=
  match filter (fun lc => String.eqb label (fst lc)) row with
  | [] => One None
  | [(_, c)] => One c
  | l => Series (map snd l)
  end.

End Pandas.

Import Pandas.

(* ================================================================== *)
(** ** parser.py *)

Module Parser.

Definition SHEET_INVESTIGATION : string := "InvestigationInformation".
Definition SHEET_STUDY : string := "StudyInformation".
Definition SHEET_ASSAY : string := "AssayInformation".
Definition SHEET_CONDITIONS : string := "AssayConditions".

(** The file behind [excel_path]: whether it exists, its extension
    ([Path.suffix]) and the workbook [pd.ExcelFile] opens. *)
Record ExcelPath : Type :=
  { path : string;
    path_exists : bool;
    suffix : string;
    workbook : ExcelFile }.

(** *** _parse_key_value_sheet *)

(** [sheet_data] is keyed by whatever the cells hold. *)
Definition sdict (V : Type) : Type := list (scalar * V).

Section ScalarKeys.
Context {V : Type}.

Fixpoint sdict_get (d : sdict V) (k : scalar) : option V :=
  match d with
  | [] => None
  | (k', v) :: d' => if scalar_eqb k k' then Some v else sdict_get d' k
  end.

Fixpoint sdict_set (d : sdict V) (k : scalar) (v : V) : sdict V :=
  match d with
  | [] => [(k, v)]
  | (k', v') :: d' =>
      if scalar_eqb k k' then (k', v) :: d' else (k', v') :: sdict_set d' k v
  end.

End ScalarKeys.

(** One turn of the loop over [df.iterrows()]; [n] is [len(row)]. *)
Definition key_value_row (n : nat) (sheet_data : sdict (sdict pyval))
    (row : nat * list cell) : sdict (sdict pyval) :=
  match iloc (snd row) 0 with
  | None => sheet_data
  | Some group =>
      if scalar_eqb group (SStr "Annotation_groups")
         || startswith (str_of_scalar group) "#"
      then sheet_data
      else if (2 <? n)%nat then
        match iloc (snd row) 1 with
        | None => sheet_data
        | Some key =>
            let value := iloc (snd row) 2 in
            let fields :=
              match sdict_get sheet_data group with
              | Some fields => fields
              | None => []
              end in
            sdict_set sheet_data group (sdict_set fields key (value_of_cell value))
        end
      else sheet_data
  end.

Definition _parse_key_value_sheet (xls : ExcelFile) (sheet_name : string)
  : result (sdict (sdict pyval)) :=
  df <- read_excel xls sheet_name ;;
  df <- drop_comment_rows df ;;
  Ok (fold_left (key_value_row (ncols df)) (rows df) []).

(** pydantic on a [Dict[str, Dict[str, Any]]] field handed [sheet_data]:
    every key has to be a [str]. *)
Definition validate_key (loc : string) (k : scalar)
  : string * list (string * string) :=
  match k with
  | SStr s => (s, [])
  | SInt n => (str_of_int n,
               [(loc ++ "." ++ str_of_int n ++ ".[key]",
                 "Input should be a valid string")])
  end.

Fixpoint validate_fields (loc : string) (d : sdict pyval)
  : dict pyval * list (string * string) :=
  match d with
  | [] => ([], [])
  | (k, v) :: d' =>
      let '(k', e) := validate_key loc k in
      let '(fs, es) := validate_fields loc d' in
      ((k', v) :: fs, (e ++ es)%list)
  end.

Fixpoint validate_sheet_data (loc : string) (d : sdict (sdict pyval))
  : dict (dict pyval) * list (string * string) :=
  match d with
  | [] => ([], [])
  | (k, fields) :: d' =>
      let '(k', e1) := validate_key loc k in
      let '(fs, e2) := validate_fields (loc ++ "." ++ k') fields in
      let '(gs, es) := validate_sheet_data loc d' in
      ((k', fs) :: gs, (e1 ++ e2 ++ es)%list)
  end.

(** [info = _parse_key_value_sheet(..); if info: info = Tier(groups=info)],
    then the field of [MIHCSMEMetadata(..)]: a non-empty [sheet_data] goes
    through the tier's constructor, the empty one is handed over as [{}],
    from which pydantic builds the tier with its default [groups]. *)
Definition tier_of_sheet {M : Type} (title : string)
    (make : dict (dict pyval) -> M) (sheet_data : sdict (sdict pyval))
  : result M :=
  match sheet_data with
  | [] => Ok (make [])
  | _ =>
      let '(g, e) := validate_sheet_data "groups" sheet_data in
      finish title (make g) e
  end.

(** *** _parse_assay_conditions *)

Definition ambiguous_truth : exn :=
  ValueError ("The truth value of a Series is ambiguous. "
              ++ "Use a.empty, a.bool(), a.item(), a.any() or a.all().").

(** [name in headers] *)
Definition in_headers (label : string) (headers : list cell) : bool :=
  existsb (fun h => match h with
                    | Some (SStr s) => String.eqb label s
                    | _ => false
                    end) headers.

(** [data_rows.columns = headers] followed by
    [data_rows.loc[:, ~pd.isna(headers)]], seen from one row: the cells
    under a header that is not NaN, each with its label. *)
Fixpoint label_row (headers row : list cell) : list (string * cell) :=
  match headers, row with
  | h :: hs, c :: cs =>
      match h with
      | Some x => (str_of_scalar x, c) :: label_row hs cs
      | None => label_row hs cs
      end
  | _, _ => []
  end.

(** The loop [for col in data_rows.columns] that fills [conditions]. *)
Fixpoint row_conditions (columns : list string) (row : list (string * cell))
    (conditions : dict pyval) : result (dict pyval) :=
  match columns with
  | [] => Ok conditions
  | col :: rest =>
      if is_plate_or_well col then row_conditions rest row conditions
      else
        match row_get row col with
        | Series _ => Raise ambiguous_truth
        | One None => row_conditions rest row conditions
        | One (Some x) =>
            row_conditions rest row (dict_set conditions col (value_of_scalar x))
        end
  end.

(** The loop [for _, row in data_rows.iterrows()]. *)
Fixpoint conditions_of_rows (headers : list cell)
    (data_rows : list (nat * list cell)) : result (list AssayCondition) :=
  match data_rows with
  | [] => Ok []
  | (_, cells) :: rest =>
      let row := label_row headers cells in
      match row_get row "Plate" with
      | Series _ => Raise ambiguous_truth
      | One None => conditions_of_rows headers rest
      | One (Some plate) =>
          match row_get row "Well" with
          | Series _ => Raise ambiguous_truth
          | One None => conditions_of_rows headers rest
          | One (Some well) =>
              conds <- row_conditions (map fst row) row [] ;;
              c <- new_AssayCondition (PStr (str_of_scalar plate))
                                      (PStr (str_of_scalar well)) conds ;;
              cs <- conditions_of_rows headers rest ;;
              Ok (c :: cs)
          end
      end
  end.

Definition _parse_assay_conditions (xls : ExcelFile) (sheet_name : string)
  : result (list AssayCondition) :=
  df <- read_excel_str xls sheet_name ;;
  df <- drop_comment_rows df ;;
  match rows df with
  | [] => Ok []
  | (_, headers) :: data_rows =>
      if negb (in_headers "Plate" headers) || negb (in_headers "Well" headers)
      then Raise (ValueError ("Missing required 'Plate' or 'Well' column in "
                              ++ sheet_name))
      else conditions_of_rows headers data_rows
  end.

(** *** _parse_reference_sheet *)

Definition reference_row (ref_data : dict pyval) (row : nat * list cell)
  : dict pyval :=
  match iloc (snd row) 0 with
  | None => ref_data
  | Some key => dict_set ref_data (str_of_scalar key) (value_of_cell (iloc (snd row) 1))
  end.

(** The body of the [try]. [header_row_idx] is an index label, which
    [df.iloc] then takes as a position. *)
Definition reference_sheet_body (xls : ExcelFile) (sheet_name : string)
  : result (dict pyval) :=
  df <- read_excel xls sheet_name ;;
  df <- drop_comment_rows df ;;
  let df := dropna_all df in
  match rows df with
  | [] => Ok []
  | _ =>
      let valid_rows :=
        map fst (filter (fun r => negb (forallb isna (snd r))) (rows df)) in
      match valid_rows with
      | [] => Ok []
      | header_row_idx :: _ =>
          match nth_error (rows df) header_row_idx with
          | None => Raise (IndexError "single positional indexer is out-of-bounds")
          | Some _ =>
              if (ncols df <? 2)%nat then Ok []
              else
                let data_rows := skipn (header_row_idx + 1) (rows df) in
                Ok (fold_left reference_row data_rows [])
          end
      end
  end.

(** [except Exception: return {}] *)
Definition _parse_reference_sheet (xls : ExcelFile) (sheet_name : string)
  : dict pyval :=
  match reference_sheet_body xls sheet_name with
  | Ok ref_data => ref_data
  | Raise _ => []
  end.

(** *** parse_excel_to_model *)

Definition required_sheets : list string :=
  [SHEET_INVESTIGATION; SHEET_STUDY; SHEET_ASSAY; SHEET_CONDITIONS].

(** [[s for s in required_sheets if s not in available_sheets]] *)
Definition missing_sheets (available_sheets : list string) : list string :=
  filter (fun s => negb (str_in s available_sheets)) required_sheets.

(** The loop over [available_sheets] that collects the reference sheets. *)
Fixpoint parse_reference_sheets (xls : ExcelFile) (names : list string)
  : list ReferenceSheet :=
  match names with
  | [] => []
  | sheet_name :: rest =>
      if startswith sheet_name "_" then
        match _parse_reference_sheet xls sheet_name with
        | [] => parse_reference_sheets xls rest
        | ref_data =>
            {| name := sheet_name; data := ref_data |}
              :: parse_reference_sheets xls rest
        end
      else parse_reference_sheets xls rest
  end.

Definition parse_excel_to_model (excel_path : ExcelPath) : result MIHCSMEMetadata :=
  if negb (path_exists excel_path) then
    Raise (FileNotFoundError ("Excel file not found: " ++ path excel_path))
  else if negb (str_in (lower (suffix excel_path)) [".xlsx"; ".xls"]) then
    Raise (ValueError ("File must be Excel format (.xlsx/.xls): " ++ path excel_path))
  else
    let xls := workbook excel_path in
    let available_sheets := dict_keys xls in
    match missing_sheets available_sheets with
    | (_ :: _) as missing =>
        Raise (ValueError ("Missing required sheets: " ++ join ", " missing))
    | [] =>
        investigation_info <-
          (if str_in SHEET_INVESTIGATION available_sheets then
             sheet_data <- _parse_key_value_sheet xls SHEET_INVESTIGATION ;;
             i <- tier_of_sheet "InvestigationInformation"
                    (fun g => {| inv_groups := g |}) sheet_data ;;
             Ok (Some i)
           else Ok None) ;;
        study_info <-
          (if str_in SHEET_STUDY available_sheets then
             sheet_data <- _parse_key_value_sheet xls SHEET_STUDY ;;
             s <- tier_of_sheet "StudyInformation"
                    (fun g => {| study_groups := g |}) sheet_data ;;
             Ok (Some s)
           else Ok None) ;;
        assay_info <-
          (if str_in SHEET_ASSAY available_sheets then
             sheet_data <- _parse_key_value_sheet xls SHEET_ASSAY ;;
             a <- tier_of_sheet "AssayInformation"
                    (fun g => {| assay_groups := g |}) sheet_data ;;
             Ok (Some a)
           else Ok None) ;;
        conds <-
          (if str_in SHEET_CONDITIONS available_sheets then
             _parse_assay_conditions xls SHEET_CONDITIONS
           else Ok []) ;;
        Ok {| investigation_information := investigation_info;
              study_information := study_info;
              assay_information := assay_info;
              assay_conditions := conds;
              reference_sheets := parse_reference_sheets xls available_sheets |}
    end.

End Parser.

Import Parser.

(* ================================================================== *)
(** ** omero_connection.py: delete_annotations_from_object *)

Module OmeroConnection.

(** An annotation wrapper: its id and, when it has a [getNs] method, the
    namespace that method returns ([None] for Python's [None]). *)
Record Annotation : Type :=
  { getId : Z;
    getNs : option (option string) }.

(** The server as the function sees it: the objects by type and id, each
    with the annotations linked to it. *)
Record BlitzGateway : Type :=
  { objects : list ((string * Z) * list Annotation) }.

Definition same_object (a b : string * Z) : bool :=
  String.eqb (fst a) (fst b) && Z.eqb (snd a) (snd b).

(** [conn.getObject(object_type, object_id)] and [obj.listAnnotations()] *)
Definition getObject (conn : BlitzGateway) (object_type : string) (object_id : Z)
  : option (list Annotation) :=
  option_map snd
    (find (fun o => same_object (fst o) (object_type, object_id)) (objects conn)).

(** [conn.deleteObjects("Annotation", ids, wait=True)] *)
Definition deleteObjects (conn : BlitzGateway) (ids : list Z) : BlitzGateway :=
  {| objects :=
       map (fun o => (fst o,
                      filter (fun a => negb (existsb (Z.eqb (getId a)) ids)) (snd o)))
           (objects conn) |}.

(** Truth value of an optional string: [None] and [""] are false. *)
Definition truthy (s : option string) : bool :=
  match s with
  | Some (String _ _) => true
  | _ => false
  end.

(** Whether the loop reaches [continue] for [ann]. *)
Definition skipped (namespace : option string) (ann : Annotation) : bool :=
  match namespace, getNs ann with
  | Some prefix, Some ann_ns =>
      truthy namespace
      && (truthy ann_ns
          && negb (match ann_ns with
                   | Some ns => startswith ns prefix
                   | None => false
                   end))
  | _, _ => false
  end.

Definition annotations_to_delete (namespace : option string)
    (anns : list Annotation) : list Z :=
  map getId (filter (fun ann => negb (skipped namespace ann)) anns).

(** Returns the count and the server afterwards. *)
Definition delete_annotations_from_object (conn : BlitzGateway)
    (object_type : string) (object_id : Z) (namespace : option string)
  : nat * BlitzGateway :=
  match getObject conn object_type object_id with
  | None => (0%nat, conn)
  | Some anns =>
      let to_delete := annotations_to_delete namespace anns in
      match to_delete with
      | [] => (List.length to_delete, conn)
      | _ => (List.length to_delete, deleteObjects conn to_delete)
      end
  end.

(** What the docstring promises for a given prefix: the annotation carries
    a namespace and that namespace starts with the prefix. *)
Definition has_prefix (prefix : string) (ann : Annotation) : bool :=
  match getNs ann with
  | Some (Some ns) => startswith ns prefix
  | _ => false
  end.

End OmeroConnection.

Import OmeroConnection.

(* ================================================================== *)
(** ** The grouping of flat annotation fields *)

Module Grouping.

Section Taxonomy.

(** The table of known groups, each with the test that tells whether a
    field name belongs to it (a fixed set of names, or a pattern). *)
Variable known_groups : list (string * (string -> bool)).

(** Modelled from the spec: the downward mapping of a field name, which
    [_organize_into_groups] of [mihcsme_py/uploader.py] (not among the
    sources) applies to every key.  The first known group that claims the
    field takes it; a field that no known group claims goes to the
    catch-all group [Metadata]. *)
Definition group_of (field : string) : string :=
  match find (fun g => snd g field) known_groups with
  | Some g => fst g
  | None => "Metadata"
  end.

(** Modelled from the spec: [_organize_into_groups] of
    [mihcsme_py/uploader.py], which is not among the sources; its tests
    are.  Each key of the flat dict is put, with its value, under the group
    its name maps to: [result[group][field] = value]. *)
Definition _organize_into_groups {V : Type} (flat_dict : dict V)
  : dict (dict V) :=
  fold_left
    (fun result kv =>
       let g := group_of (fst kv) in
       dict_set result g
                (dict_set (dict_get_default result g []) (fst kv) (snd kv)))
    flat_dict [].

End Taxonomy.

(** [result[g][field]] when both keys are present. *)
Definition lookup2 {V : Type} (result : dict (dict V)) (g field : string)
  : option V :=
  match dict_get result g with
  | Some fields => dict_get fields field
  | None => None
  end.

Definition one_of (names : list string) (field : string) : bool :=
  str_in field names.

(** Modelled from the spec: the part of the table that the spec and the
    tests of [_organize_into_groups] spell out. *)
Definition example_groups : list (string * (string -> bool)) :=
  [ ("DataOwner",
     fun f => one_of ["First Name"; "Last Name"; "E-Mail Address"] f
              || startswith f "ORCID investigator");
    ("DataCollaborator", fun f => startswith f "ORCID  Data Collaborator_");
    ("InvestigationInfo", one_of ["Project ID"; "Investigation Title"]);
    ("Study", one_of ["Study Title"; "Study internal ID"]);
    ("Biosample", one_of ["Biosample Taxon"; "Biosample Organism";
                          "Cell lines storage location"]);
    ("Library", one_of ["Library File Name"; "Library Type"]);
    ("Protocols", one_of ["HCS library protocol"]);
    ("Plate", one_of ["Plate type"]);
    ("Assay", one_of ["Assay Title"; "Assay internal ID"; "Number of plates"]);
    ("AssayComponent", one_of ["Imaging protocol"; "Sample preparation protocol"]);
    ("ImageData", one_of ["Image number of pixelsX"; "Image number of pixelsY";
                          "Image number of channels"; "Image sites per well"]);
    ("ImageAcquisition", one_of ["Microscope id"]);
    ("Specimen", one_of ["Channel Transmission id";
                         "Channel 1 visualization method"]) ].

End Grouping.

Import Grouping.

(* ================================================================== *)
(** ** omero_connection.py: create_map_annotation *)

Module OmeroAnnotate.

(** The server as [create_map_annotation] changes it: the links that
    [BlitzGateway] holds, and the map annotations saved so far, each with
    its id, its namespace and its list of key-value pairs. *)
Record Server : Type :=
  { gateway : BlitzGateway;
    saved : list (Z * (string * list (string * string))) }.

(** [obj.linkAnnotation(map_ann)], on the object that [getObject] finds. *)
Fixpoint linkAnnotation (objs : list ((string * Z) * list Annotation))
    (key : string * Z) (map_ann : Annotation)
  : list ((string * Z) * list Annotation) :=
  match objs with
  | [] => []
  | o :: rest =>
      if same_object (fst o) key
      then (fst o, (snd o ++ [map_ann])%list) :: rest
      else o :: linkAnnotation rest key map_ann
  end.

Section CreateMapAnnotation.

(** Python's [str] on a value of the dict. *)
Variable str_of_value : pyval -> string.

(** [[[str(k), str(v)] for k, v in key_value_pairs.items()]] *)
Definition key_value_list (key_value_pairs : dict pyval) : list (string * string) :=
  map (fun kv => (fst kv, str_of_value (snd kv))) key_value_pairs.

(** [new_id] is the id the server gives the annotation when it is saved.
    Returns what the function returns or raises, and the server
    afterwards. *)
Definition create_map_annotation (srv : Server) (new_id : Z)
    (object_type : string) (object_id : Z)
    (key_value_pairs : dict pyval) (namespace : string)
  : result (option Z) * Server :=
  match key_value_pairs with
  | [] => (Ok None, srv)
  | _ =>
      match getObject (gateway srv) object_type object_id with
      | None =>
          (Raise (ValueError (object_type ++ " with ID " ++ str_of_int object_id
                              ++ " not found")), srv)
      | Some _ =>
          let map_ann := {| getId := new_id; getNs := Some (Some namespace) |} in
          (Ok (Some new_id),
           {| gateway :=
                {| objects := linkAnnotation (objects (gateway srv))
                                             (object_type, object_id) map_ann |};
              saved := (saved srv
                        ++ [(new_id, (namespace, key_value_list key_value_pairs))])%list |})
      end
  end.

End CreateMapAnnotation.

End OmeroAnnotate.

Import OmeroAnnotate.

(* ================================================================== *)
(** ** scripts/omero_forms_client.py: OMEROFormsClient *)

Module OmeroForms.

(** [s.rstrip('/')] *)
Fixpoint rstrip_slash (s : string) : string :=
  match s with
  | EmptyString => EmptyString
  | String c s' =>
      match rstrip_slash s' with
      | EmptyString => if Ascii.eqb c "/" then EmptyString else String c EmptyString
      | r => String c r
      end
  end.

(** The fields that [__init__] sets, the HTTP session apart. *)
Record OMEROFormsClient : Type :=
  { base_url : string;
    username : string;
    password : string;
    server_id : Z;
    api_version : string }.

(** [OMEROFormsClient(base_url, username, password, server_id)] *)
Definition __init__ (base_url username password : string) (server_id : Z)
  : OMEROFormsClient :=
  {| base_url := rstrip_slash base_url;
     username := username;
     password := password;
     server_id := server_id;
     api_version := "0" |}.

End OmeroForms.

Import OmeroForms.

(* ================================================================== *)
(** * Definitions used in the statements *)

(** ** Well labels *)

Definition is_row_letter (c : ascii) : bool :=
  let n := nat_of_ascii c in
  ((65 <=? n)%nat && (n <=? 80)%nat) || ((97 <=? n)%nat && (n <=? 112)%nat).

(** [^[A-Pa-p][0-9]{1,2}$] *)
Definition well_pattern (s : string) : bool :=
  match s with
  | String r (String d1 EmptyString) => is_row_letter r && is_digit d1
  | String r (String d1 (String d2 EmptyString)) =>
      is_row_letter r && is_digit d1 && is_digit d2
  | _ => false
  end.

Fixpoint digits_value (acc : Z) (ds : string) : Z :=
  match ds with
  | EmptyString => acc
  | String c ds' => digits_value (10 * acc + digit_val c) ds'
  end.

(** The number written after the row letter. *)
Definition numeric_part (s : string) : Z :=
  match s with
  | EmptyString => 0
  | String _ ds => digits_value 0 ds
  end.

(** [^[A-P][0-9]{2}$] with the column in 01..48 *)
Definition canonical_well (w : string) : bool :=
  match w with
  | String r (String d1 (String d2 EmptyString)) =>
      (String.leb "A" (String r "") && String.leb (String r "") "P")
      && is_digit d1 && is_digit d2
      && (1 <=? numeric_part w)%Z && (numeric_part w <=? 48)%Z
  | _ => false
  end.

Definition all_ascii : list ascii :=
  map ascii_of_nat (seq 0 256).

Definition row_letters : list ascii := filter is_row_letter all_ascii.
Definition digit_chars : list ascii := filter is_digit all_ascii.

(** A letter of [rs] followed by one or two characters of [ds]. *)
Definition strings_over (rs ds : list ascii) : list string :=
  flat_map (fun r =>
    flat_map (fun d1 =>
      String r (String d1 "")
        :: map (fun d2 => String r (String d1 (String d2 ""))) ds)
      ds)
    rs.

(** Every string of the pattern, listed. *)
Definition pattern_strings : list string := strings_over row_letters digit_chars.

(** Normalizing [s] gives a canonical label which normalizes to itself. *)
Definition settles (s : string) : bool :=
  match normalize_well_name s with
  | Ok w =>
      canonical_well w
      && match normalize_well_name w with
         | Ok w' => String.eqb w' w
         | Raise _ => false
         end
  | Raise _ => false
  end.

Definition in_range (s : string) : bool :=
  (1 <=? numeric_part s)%Z && (numeric_part s <=? 48)%Z.

Definition upper_row (c : ascii) : bool :=
  String.leb "A" (String c "") && String.leb (String c "") "P".

Definition upper_rows : list ascii := filter upper_row all_ascii.

Definition columns : list Z := map Z.of_nat (seq 1 48).

(** [w] is canonical and the validator returns it unchanged. *)
Definition fixed (w : string) : bool :=
  canonical_well w
  && match normalize_well_name w with
     | Ok w' => String.eqb w' w
     | Raise _ => false
     end.

(** ** The flat dict *)

Definition is_validation_error (e : exn) : Prop :=
  match e with ValidationError _ _ => True | _ => False end.

Definition is_dict (v : pyval) : Prop :=
  match v with PDict _ => True | _ => False end.

(** The entry has no ['Well'] key, or its ['Well'] is a string of fewer than
    two characters after trimming. *)
Definition unusable_well (d : dict pyval) : Prop :=
  dict_get d "Well" = None
  \/ exists s, dict_get d "Well" = Some (PStr s) /\ (String.length (strip s) < 2)%nat.

Definition reserved_keys : list string :=
  ["InvestigationInformation"; "StudyInformation"; "AssayInformation";
   "AssayConditions"].

(** The dict before the loop over the reference sheets. *)
Definition base_dict (self : MIHCSMEMetadata) : dict pyval :=
  let result : dict pyval := [] in
  let result :=
    match investigation_information self with
    | Some i => dict_set result "InvestigationInformation"
                         (groups_value (inv_groups i))
    | None => result
    end in
  let result :=
    match study_information self with
    | Some s => dict_set result "StudyInformation"
                         (groups_value (study_groups s))
    | None => result
    end in
  let result :=
    match assay_information self with
    | Some a => dict_set result "AssayInformation"
                         (groups_value (assay_groups a))
    | None => result
    end in
  match assay_conditions self with
  | [] => result
  | cs => dict_set result "AssayConditions"
                   (PList (map (fun c => PDict (condition_dict c)) cs))
  end.

Definition set_reference (r : dict pyval) (ref_sheet : ReferenceSheet) : dict pyval :=
  dict_set r (name ref_sheet) (PDict (data ref_sheet)).

Definition reference_entry (ref_sheet : ReferenceSheet) : string * pyval :=
  (name ref_sheet, PDict (data ref_sheet)).

Ltac each_shape m :=
  destruct m as [[i|] [s|] [a|] [|c cs] rs]; cbn.

Definition metadata_of_test : MIHCSMEMetadata :=
  {| investigation_information :=
       Some {| inv_groups := [("Investigation", [("ID", PStr "INV-001")])] |};
     study_information := None;
     assay_information := None;
     assay_conditions :=
       [{| plate := "Plate1"; well := "A01";
           conditions := [("Compound", PStr "DMSO")] |}];
     reference_sheets :=
       [{| name := "_Organisms"; data := [("Human", PStr "Homo sapiens")] |}] |}.

(** What every condition built by [from_omero_dict] satisfies. *)
Definition condition_ok (c : AssayCondition) : Prop :=
  normalize_well_name (well c) = Ok (well c)
  /\ dict_wf (conditions c)
  /\ Forall (fun kv => is_plate_or_well (fst kv) = false) (conditions c).

(** What the reference sheets built by [from_omero_dict] satisfy. *)
Definition references_ok (rs : list ReferenceSheet) : Prop :=
  NoDup (map name rs) /\ Forall (fun r => startswith (name r) "_" = true) rs.

(** The condition came out of the constructor [AssayCondition(...)], as
    every condition of a metadata did. *)
Definition constructed_condition (c : AssayCondition) : Prop :=
  exists p w, new_AssayCondition p w (conditions c) = Ok c.

(** The metadata is within the grammar of the flat dict.  Its conditions
    were constructed; the fields of a condition are a real dict, and none is
    named ["Plate"] or ["Well"], the keys under which the entry of the
    condition holds its plate and its well; the reference sheets have names
    that start with ['_'] and differ from one another, being keys of the
    flat dict.  The tiers are free. *)
Definition in_flat_dict_grammar (m : MIHCSMEMetadata) : Prop :=
  Forall (fun c => constructed_condition c
                   /\ dict_wf (conditions c)
                   /\ Forall (fun kv => is_plate_or_well (fst kv) = false)
                             (conditions c))
         (assay_conditions m)
  /\ references_ok (reference_sheets m).

(** The metadata of [test_round_trip_conversion], with a reference sheet
    added; the wells were given as ["A1"] and ["B2"]. *)
Definition metadata_of_round_trip_test : MIHCSMEMetadata :=
  {| investigation_information :=
       Some {| inv_groups :=
                 [("Investigation", [("ID", PStr "INV-001"); ("Title", PStr "Test")])] |};
     study_information :=
       Some {| study_groups := [("Study", [("ID", PStr "STD-001")])] |};
     assay_information :=
       Some {| assay_groups := [("Assay", [("Type", PStr "HCS")])] |};
     assay_conditions :=
       [{| plate := "P1"; well := "A01"; conditions := [("Drug", PStr "Aspirin")] |};
        {| plate := "P1"; well := "B02"; conditions := [("Drug", PStr "Control")] |}];
     reference_sheets :=
       [{| name := "_Organisms"; data := [("Human", PStr "Homo sapiens")] |}] |}.

(** The input is a real dict, and so is every entry of its list of
    conditions: keys are pairwise distinct. *)
Definition flat_dict_wf (data : dict pyval) : Prop :=
  dict_wf data
  /\ forall l d, dict_get data "AssayConditions" = Some (PList l) ->
                 In (PDict d) l -> dict_wf d.

Definition flat_dict_of_test : dict pyval :=
  [("InvestigationInformation",
    PDict [("Investigation", PDict [("ID", PStr "INV-001")])]);
   ("StudyInformation", PDict [("Study", PDict [("Title", PStr "Test Study")])]);
   ("AssayInformation", PDict [("Assay", PDict [("Type", PStr "Microscopy")])]);
   ("AssayConditions",
    PList [PDict [("Plate", PStr "Plate1"); ("Well", PStr "a1");
                  ("Compound", PStr "DMSO")];
           PDict [("Plate", PStr "Plate1"); ("Well", PStr "A02");
                  ("Compound", PStr "Drug1")]]);
   ("_Organisms", PDict [("Human", PStr "Homo sapiens")])].

Definition metadata_of_flat_dict : MIHCSMEMetadata :=
  {| investigation_information :=
       Some {| inv_groups := [("Investigation", [("ID", PStr "INV-001")])] |};
     study_information :=
       Some {| study_groups := [("Study", [("Title", PStr "Test Study")])] |};
     assay_information :=
       Some {| assay_groups := [("Assay", [("Type", PStr "Microscopy")])] |};
     assay_conditions :=
       [{| plate := "Plate1"; well := "A01";
           conditions := [("Compound", PStr "DMSO")] |};
        {| plate := "Plate1"; well := "A02";
           conditions := [("Compound", PStr "Drug1")] |}];
     reference_sheets :=
       [{| name := "_Organisms"; data := [("Human", PStr "Homo sapiens")] |}] |}.

(** ** Workbooks *)

(** [s] occurs in [msg]. *)
Definition occurs_in (s msg : string) : Prop :=
  exists pre post, msg = pre ++ s ++ post.

(** A sheet on which both reads give the same rows, of text and NaN;
    [n] is its number of columns. *)
Definition text_only (n : nat) (rs : list (list (option string))) : Worksheet :=
  {| sheet_width := n;
     sheet_rows := map (map str_cell) rs;
     sheet_rows_str := rs |}.

Definition workbook_without_study_and_conditions : ExcelPath :=
  {| path := "metadata.XLSX";
     path_exists := true;
     suffix := ".XLSX";
     workbook := [("InvestigationInformation", text_only 1 []);
                  ("AssayInformation", text_only 1 [])] |}.

Definition prefixed (r : ReferenceSheet) : Prop := startswith (name r) "_" = true.

Definition text (s : string) : cell := Some (SStr s).

(** The frame of a conditions sheet as the specification's example has
    it, under a comment row, with one more row that lacks its plate. *)
Definition example_sheet : Worksheet :=
  text_only 3
    [[Some "# One row per well"];
     [Some "Plate"; Some "Well"; Some "Compound"];
     [Some "PlateA"; Some "a1"; Some "DMSO"];
     [None; Some "a2"; Some "DMSO"]].

Definition example_conditions : ExcelFile := [("AssayConditions", example_sheet)].

(** The frames of a small workbook.  The project identifier is a number,
    which [dtype=str] reads as text. *)
Definition small_workbook : ExcelPath :=
  {| path := "screen.xlsx";
     path_exists := true;
     suffix := ".xlsx";
     workbook :=
       [("InvestigationInformation",
         {| sheet_width := 3;
            sheet_rows :=
              [[text "Annotation_groups"; text "Key"; text "Value"];
               [text "DataOwner"; text "First Name"; text "Jane"];
               [text "DataOwner"; text "Last Name"; None];
               [text "# a comment"];
               [text "InvestigationInfo"; text "Project ID"; Some (SInt 7)]];
            sheet_rows_str :=
              [[Some "Annotation_groups"; Some "Key"; Some "Value"];
               [Some "DataOwner"; Some "First Name"; Some "Jane"];
               [Some "DataOwner"; Some "Last Name"; None];
               [Some "# a comment"];
               [Some "InvestigationInfo"; Some "Project ID"; Some "7"]] |});
        ("StudyInformation", text_only 1 []);
        ("AssayInformation",
         text_only 3 [[Some "Assay"; Some "Assay Title"; Some "HCS"]]);
        ("AssayConditions", example_sheet);
        ("_Organisms",
         text_only 2 [[Some "Key"; Some "Value"];
                      [Some "Human"; Some "Homo sapiens"]])] |}.

Definition metadata_of_small_workbook : MIHCSMEMetadata :=
  {| investigation_information :=
       Some {| inv_groups :=
                 [("DataOwner", [("First Name", PStr "Jane"); ("Last Name", PNone)]);
                  ("InvestigationInfo", [("Project ID", PInt 7)])] |};
     study_information := Some {| study_groups := [] |};
     assay_information :=
       Some {| assay_groups := [("Assay", [("Assay Title", PStr "HCS")])] |};
     assay_conditions :=
       [{| plate := "PlateA"; well := "A01";
           conditions := [("Compound", PStr "DMSO")] |}];
     reference_sheets :=
       [{| name := "_Organisms"; data := [("Human", PStr "Homo sapiens")] |}] |}.










(** ** Grouping *)

(** The value a sequence of assignments leaves under [k]: the last one. *)
Definition last_value {V : Type} (l : dict V) (k : string) : option V :=
  dict_get (rev l) k.

(** ** Definitions for the further properties *)

(** The last reference sheet named [k]. *)
Definition last_reference (rs : list ReferenceSheet) (k : string)
  : option ReferenceSheet :=
  find (fun r => String.eqb k (name r)) (rev rs).

Definition is_dictb (v : pyval) : bool :=
  match v with PDict _ => true | _ => false end.

(** The entries that [from_omero_dict] reads: the four reserved keys, and
    the keys that start with ['_'] and hold a dict. *)
Definition read_by_from_omero_dict (kv : string * pyval) : bool :=
  str_in (fst kv) reserved_keys || (startswith (fst kv) "_" && is_dictb (snd kv)).

(** The condition [c] is what [from_omero_dict] makes of the list entry
    [entry]. *)
Definition condition_read_from (entry : pyval) (c : AssayCondition) : Prop :=
  exists d,
    entry = PDict d
    /\ dict_get_default d "Plate" (PStr "") = PStr (plate c)
    /\ (exists ws, dict_get_default d "Well" (PStr "") = PStr ws
                   /\ normalize_well_name ws = Ok (well c))
    /\ conditions c = filter (fun kv => negb (is_plate_or_well (fst kv))) d.

(** The three keys under which a tier is written. *)
Definition tier_keys : list string :=
  ["InvestigationInformation"; "StudyInformation"; "AssayInformation"].

(** The entries from which [from_omero_dict] makes reference sheets. *)
Definition is_reference_entry (kv : string * pyval) : bool :=
  startswith (fst kv) "_" && is_dictb (snd kv).

(** A group that [_parse_key_value_sheet] may create: not the header word,
    not a comment. *)
Definition group_allowed (g : scalar) : bool :=
  negb (scalar_eqb g (SStr "Annotation_groups"))
  && negb (startswith (str_of_scalar g) "#").

(** What every condition made by [_parse_assay_conditions] satisfies. *)
Definition parsed_condition_ok (c : AssayCondition) : Prop :=
  canonical_well (well c) = true
  /\ normalize_well_name (well c) = Ok (well c)
  /\ dict_wf (conditions c)
  /\ Forall (fun kv => is_plate_or_well (fst kv) = false
                       /\ exists s, snd kv = PStr s) (conditions c).

(** A cell that is empty or holds text. *)
Definition textual (c : cell) : Prop :=
  match c with
  | Some (SInt _) => False
  | _ => True
  end.

(** The group, the key and the value that a row of a tier sheet gives, if
    it gives any; [n] is the number of columns of the sheet. *)
Definition entry_of_row (n : nat) (cells : list cell)
  : option (scalar * scalar * pyval) :=
  match iloc cells 0 with
  | None => None
  | Some group =>
      if group_allowed group && (2 <? n)%nat then
        match iloc cells 1 with
        | Some key => Some (group, key, value_of_cell (iloc cells 2))
        | None => None
        end
      else None
  end.

(** The rows of a tier sheet that the parser walks through: the rows of
    its frame without the comment rows. *)
Definition tier_rows (ws : Worksheet) : list (list cell) :=
  filter (fun r => negb (is_comment_row r))
         (map (fit (sheet_width ws)) (sheet_rows ws)).

(** The entries of a tier sheet, in row order. *)
Definition tier_entries (ws : Worksheet) : list (scalar * scalar * pyval) :=
  flat_map (fun cells => match entry_of_row (sheet_width ws) cells with
                         | Some e => [e]
                         | None => []
                         end) (tier_rows ws).

(** [sheet_data[group][key] = value], the group made when it is new. *)
Definition put_entry (sheet_data : sdict (sdict pyval))
    (e : scalar * scalar * pyval) : sdict (sdict pyval) :=
  let '(group, key, value) := e in
  sdict_set sheet_data group
            (sdict_set (match sdict_get sheet_data group with
                        | Some fields => fields
                        | None => []
                        end) key value).

(** [sheet_data[g][k]] when both keys are there. *)
Definition slookup2 (sheet_data : sdict (sdict pyval)) (g k : scalar)
  : option pyval :=
  match sdict_get sheet_data g with
  | Some fields => sdict_get fields k
  | None => None
  end.

(** The value of the last entry for group [g] and key [k]. *)
Definition last_entry (entries : list (scalar * scalar * pyval)) (g k : scalar)
  : option pyval :=
  option_map snd
    (find (fun e => scalar_eqb g (fst (fst e)) && scalar_eqb k (snd (fst e)))
          (rev entries)).

Definition is_text (x : scalar) : bool :=
  match x with SStr _ => true | SInt _ => false end.

(** Every group and every key of [sheet_data] is text. *)
Definition all_text_keys (sheet_data : sdict (sdict pyval)) : bool :=
  forallb (fun g => is_text (fst g) && forallb (fun f => is_text (fst f)) (snd g))
          sheet_data.

(** [sheet_data] with its groups and keys as the strings they hold. *)
Definition text_groups (sheet_data : sdict (sdict pyval)) : dict (dict pyval) :=
  map (fun g => (str_of_scalar (fst g),
                 map (fun f => (str_of_scalar (fst f), snd f)) (snd g)))
      sheet_data.

(** A group of a parsed tier: not the label row of the sheet, not a
    comment, and with a field. *)
Definition tier_group_ok (g : string * dict pyval) : Prop :=
  fst g <> "Annotation_groups" /\ startswith (fst g) "#" = false /\ snd g <> [].

Definition tier_groups_ok (groups : option (dict (dict pyval))) : Prop :=
  match groups with
  | Some gs => Forall tier_group_ok gs
  | None => True
  end.





(** An annotation out of the reach of a delete with the prefix
    [namespace]: the prefix is not empty, and the annotation carries a
    namespace that is not empty and does not start with it. *)
Definition foreign (namespace : option string) (ann : Annotation) : bool :=
  match namespace, getNs ann with
  | Some (String c p), Some (Some (String c' ns)) =>
      negb (startswith (String c' ns) (String c p))
  | _, _ => false
  end.

(** The string ends with ['/']. *)
Fixpoint ends_with_slash (s : string) : bool :=
  match s with
  | EmptyString => false
  | String c EmptyString => Ascii.eqb c "/"
  | String _ s' => ends_with_slash s'
  end.

(** [n] times ['/']. *)
Fixpoint slashes (n : nat) : string :=
  match n with
  | O => EmptyString
  | S n' => String "/" (slashes n')
  end.

(* ================================================================== *)
(** * Properties *)

(** ** The examples of the tests and of the specification *)

Example organize_spec_example :
  _organize_into_groups example_groups
    [("First Name", PStr "John"); ("Project ID", PStr "EuTOX")]
  = [("DataOwner", [("First Name", PStr "John")]);
     ("InvestigationInfo", [("Project ID", PStr "EuTOX")])].
Proof. reflexivity. Qed.

Example organize_unknown_fields :
  _organize_into_groups example_groups
    [("Unknown Field 1", PStr "value1"); ("Random Key", PStr "value2")]
  = [("Metadata", [("Unknown Field 1", PStr "value1");
                   ("Random Key", PStr "value2")])].
Proof. reflexivity. Qed.

(* ================================================================== *)
(** ** Well labels *)

Lemma in_all_ascii (c : ascii) : In c all_ascii.
Proof.
  unfold all_ascii. rewrite <- (ascii_nat_embedding c).
  apply in_map, in_seq. pose proof (nat_ascii_bounded c). lia.
Qed.

Lemma in_row_letters (c : ascii) : is_row_letter c = true -> In c row_letters.
Proof.
  intros H. unfold row_letters. apply filter_In. split; [apply in_all_ascii | exact H].
Qed.

Lemma in_digit_chars (c : ascii) : is_digit c = true -> In c digit_chars.
Proof.
  intros H. unfold digit_chars. apply filter_In. split; [apply in_all_ascii | exact H].
Qed.

Lemma strings_over_short (rs ds : list ascii) (r d1 : ascii) :
  In r rs -> In d1 ds -> In (String r (String d1 "")) (strings_over rs ds).
Proof.
  intros Hr H1. unfold strings_over.
  apply in_flat_map. exists r. split; [exact Hr|].
  apply in_flat_map. exists d1. split; [exact H1|].
  left. reflexivity.
Qed.

Lemma strings_over_long (rs ds : list ascii) (r d1 d2 : ascii) :
  In r rs -> In d1 ds -> In d2 ds ->
  In (String r (String d1 (String d2 ""))) (strings_over rs ds).
Proof.
  intros Hr H1 H2. unfold strings_over.
  apply in_flat_map. exists r. split; [exact Hr|].
  apply in_flat_map. exists d1. split; [exact H1|].
  right. apply in_map_iff. exists d2. split; [reflexivity | exact H2].
Qed.

Lemma pattern_listed (s : string) : well_pattern s = true -> In s pattern_strings.
Proof.
  destruct s as [|r [|d1 [|d2 [|? ?]]]]; cbn [well_pattern];
    try discriminate; intros H.
  - apply andb_true_iff in H as [Hr H1].
    apply strings_over_short; [now apply in_row_letters | now apply in_digit_chars].
  - apply andb_true_iff in H as [H H2]. apply andb_true_iff in H as [Hr H1].
    apply strings_over_long;
      [now apply in_row_letters | now apply in_digit_chars | now apply in_digit_chars].
Qed.

Lemma pattern_strings_settle :
  forallb (fun s => implb (in_range s) (settles s)) pattern_strings = true.
Proof. vm_compute. reflexivity. Qed.

Lemma settles_spec (s : string) :
  settles s = true ->
  exists w, normalize_well_name s = Ok w
            /\ canonical_well w = true
            /\ normalize_well_name w = Ok w.
Proof.
  unfold settles. destruct (normalize_well_name s) as [w|]; [|discriminate].
  intros H. apply andb_true_iff in H as [Hc H]. exists w.
  destruct (normalize_well_name w) as [w'|]; [|discriminate].
  apply String.eqb_eq in H. subst. auto.
Qed.

(** C7. For every string of the form [^[A-Pa-p][0-9]{1,2}$] whose number
    lies in 1..48, normalizing succeeds with a canonical [LetterNN] label,
    and normalizing that label returns it unchanged; and ["a1"] normalizes
    to ["A01"]. *)
Theorem normalize_well_name_idempotent (s : string) :
  well_pattern s = true ->
  (1 <= numeric_part s <= 48)%Z ->
  (exists w, normalize_well_name s = Ok w
             /\ canonical_well w = true
             /\ normalize_well_name w = Ok w)
  /\ normalize_well_name "a1" = Ok "A01".
Proof.
  intros Hp Hr. split; [|reflexivity].
  apply settles_spec.
  pose proof pattern_strings_settle as Hall.
  rewrite forallb_forall in Hall.
  specialize (Hall s (pattern_listed s Hp)).
  assert (Hin : in_range s = true).
  { unfold in_range. apply andb_true_iff. split; apply Z.leb_le; lia. }
  rewrite Hin in Hall. exact Hall.
Qed.

Lemma normalize_well_name_idempotent_witness :
  (exists w, normalize_well_name "p48" = Ok w
             /\ canonical_well w = true
             /\ normalize_well_name w = Ok w)
  /\ normalize_well_name "a1" = Ok "A01".
Proof.
  apply (normalize_well_name_idempotent "p48"); [reflexivity | vm_compute; split; discriminate].
Defined.

(** *** The errors of the validator *)

Lemma length_upper (s : string) : String.length (upper s) = String.length s.
Proof. induction s as [|c s IH]; simpl; [reflexivity | now rewrite IH]. Qed.

(** The validator ends in one of three ways: a label, the format error or
    the row error. *)
Lemma normalize_well_name_outcomes (v : string) :
  (exists w, normalize_well_name v = Ok w)
  \/ normalize_well_name v
     = Raise (ValueError ("Invalid well format: " ++ upper (strip v)))
  \/ normalize_well_name v
     = Raise (ValueError ("Invalid row letter (must be A-P): "
                          ++ substring 0 1 (upper (strip v)))).
Proof.
  unfold normalize_well_name.
  destruct (String.length (upper (strip v)) <? 2)%nat; [right; left; reflexivity|].
  destruct (negb _); [right; right; reflexivity|].
  destruct (py_int _) as [n|e] eqn:Hint; cbn [bind].
  - destruct (negb _); cbn [try_except_ValueError].
    + right; left; reflexivity.
    + left; eexists; reflexivity.
  - unfold py_int in Hint.
    destruct (match int_rstrip _ with EmptyString => _ | String _ _ => _ end);
      inversion Hint; subst.
    right; left; reflexivity.
Qed.

(** No input makes the validator report the column message. *)
Lemma normalize_well_name_never_column_message (v msg : string) :
  normalize_well_name v = Raise (ValueError msg) ->
  startswith msg "Invalid column number" = false.
Proof.
  intros H.
  destruct (normalize_well_name_outcomes v) as [[w Hw] | [Hf | Hr]].
  - rewrite Hw in H. discriminate.
  - rewrite Hf in H. inversion H. reflexivity.
  - rewrite Hr in H. inversion H. reflexivity.
Qed.

(** A stripped input of fewer than two characters: the format error. *)
Lemma normalize_well_name_short (v : string) :
  (String.length (strip v) < 2)%nat ->
  normalize_well_name v
  = Raise (ValueError ("Invalid well format: " ++ upper (strip v))).
Proof.
  intros H. unfold normalize_well_name. rewrite length_upper.
  destruct (Nat.ltb_spec (String.length (strip v)) 2); [reflexivity | lia].
Qed.

(** The row letter lies outside A-P: the row error. *)
Lemma normalize_well_name_bad_row (v : string) :
  (2 <= String.length (strip v))%nat ->
  String.leb "A" (substring 0 1 (upper (strip v)))
  && String.leb (substring 0 1 (upper (strip v))) "P" = false ->
  normalize_well_name v
  = Raise (ValueError ("Invalid row letter (must be A-P): "
                       ++ substring 0 1 (upper (strip v)))).
Proof.
  intros Hlen Hrow. unfold normalize_well_name. rewrite length_upper.
  destruct (Nat.ltb_spec (String.length (strip v)) 2); [lia|].
  rewrite Hrow. reflexivity.
Qed.

(** The row letter is fine and the rest is an integer outside 1..48: the
    column error is raised inside the [try] and replaced by the format
    error. *)
Lemma normalize_well_name_bad_column (v : string) (n : Z) :
  (2 <= String.length (strip v))%nat ->
  String.leb "A" (substring 0 1 (upper (strip v)))
  && String.leb (substring 0 1 (upper (strip v))) "P" = true ->
  py_int (substring 1 (String.length (upper (strip v)) - 1) (upper (strip v))) = Ok n ->
  (n < 1 \/ 48 < n)%Z ->
  normalize_well_name v
  = Raise (ValueError ("Invalid well format: " ++ upper (strip v))).
Proof.
  intros Hlen Hrow Hint Hn. unfold normalize_well_name.
  destruct (Nat.ltb_spec (String.length (upper (strip v))) 2) as [Hlt|_].
  { rewrite length_upper in Hlt. lia. }
  rewrite Hrow, Hint. cbn [negb bind].
  assert (Hrange : (1 <=? n)%Z && (n <=? 48)%Z = false).
  { apply andb_false_iff. destruct Hn; [left | right]; apply Z.leb_gt; lia. }
  rewrite Hrange. reflexivity.
Qed.

(** C2. On ["A50"] (row letter fine, column 50 outside 1..48) the validator
    raises the format message, not the column message: the column error
    raised inside the [try] is caught by its own [except ValueError]. *)
Theorem normalize_well_name_masks_column_error :
  normalize_well_name "A50" = Raise (ValueError "Invalid well format: A50")
  /\ normalize_well_name "Z1"
     = Raise (ValueError "Invalid row letter (must be A-P): Z")
  /\ normalize_well_name "Invalid"
     = Raise (ValueError "Invalid well format: INVALID").
Proof. repeat split; reflexivity. Qed.

(* ================================================================== *)
(** ** Dicts *)

Section DictFacts.
Context {V : Type}.
Implicit Types (d e : dict V) (k : string) (v : V).

Lemma dict_get_none_iff d k : dict_get d k = None <-> ~ In k (dict_keys d).
Proof.
  induction d as [|[k' v'] d IH]; simpl.
  - tauto.
  - destruct (String.eqb_spec k k') as [->|Hne].
    + split; [discriminate | intros H; exfalso; apply H; now left].
    + rewrite IH. split; intros H; [intros [E|I]; [congruence | tauto] | tauto].
Qed.

Lemma dict_get_app d e k :
  dict_get (d ++ e)%list k
  = match dict_get d k with Some v => Some v | None => dict_get e k end.
Proof.
  induction d as [|[k' v'] d IH]; simpl; [reflexivity|].
  destruct (String.eqb k k'); [reflexivity | exact IH].
Qed.

Lemma dict_get_in d k v : dict_wf d -> In (k, v) d -> dict_get d k = Some v.
Proof.
  unfold dict_wf, dict_keys.
  induction d as [|[k' v'] d IH]; simpl; intros Hnd Hin; [contradiction|].
  inversion Hnd as [|? ? Hnotin Hnd']; subst.
  destruct Hin as [E|Hin].
  - inversion E; subst. now rewrite String.eqb_refl.
  - destruct (String.eqb_spec k k') as [->|_].
    + exfalso. apply Hnotin. apply in_map_iff. now exists (k', v).
    + now apply IH.
Qed.

Lemma dict_get_some_in d k v : dict_get d k = Some v -> In (k, v) d.
Proof.
  induction d as [|[k' v'] d IH]; simpl; [discriminate|].
  destruct (String.eqb_spec k k') as [->|_]; intros H.
  - inversion H; subst. now left.
  - right. now apply IH.
Qed.

(** Setting a key that is not there appends it. *)
Lemma dict_set_fresh d k v : ~ In k (dict_keys d) -> dict_set d k v = (d ++ [(k, v)])%list.
Proof.
  induction d as [|[k' v'] d IH]; simpl; intros H; [reflexivity|].
  destruct (String.eqb_spec k k') as [->|_]; [tauto|].
  rewrite IH; [reflexivity | tauto].
Qed.

Lemma dict_get_set d k v k' :
  dict_get (dict_set d k v) k'
  = if String.eqb k' k then Some v else dict_get d k'.
Proof.
  induction d as [|[k0 v0] d IH]; simpl.
  - destruct (String.eqb k' k); reflexivity.
  - destruct (String.eqb_spec k k0) as [->|Hne]; simpl.
    + destruct (String.eqb k' k0); reflexivity.
    + destruct (String.eqb_spec k' k0) as [->|Hne'].
      * destruct (String.eqb_spec k0 k); [congruence | reflexivity].
      * exact IH.
Qed.

(** Merging a dict whose keys are new and distinct appends it. *)
Lemma dict_update_fresh d e :
  dict_wf e ->
  (forall k, In k (dict_keys e) -> ~ In k (dict_keys d)) ->
  dict_update d e = (d ++ e)%list.
Proof.
  unfold dict_update, dict_wf, dict_keys. revert d.
  induction e as [|[k v] e IH]; simpl; intros d Hnd Hfresh.
  - now rewrite app_nil_r.
  - inversion Hnd as [|? ? Hnotin Hnd']; subst.
    rewrite dict_set_fresh by (apply Hfresh; now left).
    rewrite IH; [now rewrite <- app_assoc | exact Hnd' |].
    intros k' Hk'. unfold dict_keys. rewrite map_app, in_app_iff. simpl.
    intros [Hd | [E | []]].
    + apply (Hfresh k'); [now right | exact Hd].
    + subst. contradiction.
Qed.

Lemma dict_wf_filter (f : string * V -> bool) d : dict_wf d -> dict_wf (filter f d).
Proof.
  unfold dict_wf, dict_keys.
  induction d as [|[k v] d IH]; simpl; intros Hnd; [constructor|].
  inversion Hnd as [|? ? Hnotin Hnd']; subst.
  destruct (f (k, v)); simpl; [|now apply IH].
  constructor; [|now apply IH].
  intros Hin. apply Hnotin. apply in_map_iff in Hin as [[k' v'] [E Hin]].
  simpl in E; subst. apply filter_In in Hin as [Hin _].
  apply in_map_iff. now exists (k, v').
Qed.

End DictFacts.

(* ================================================================== *)
(** ** Every label the validator returns is a fixed point *)

Lemma labels_fixed :
  forallb (fun c => forallb (fun n => fixed (String c "" ++ format_02d n)) columns)
          upper_rows = true.
Proof. vm_compute. reflexivity. Qed.

Lemma in_columns (n : Z) : (1 <= n <= 48)%Z -> In n columns.
Proof.
  intros H. unfold columns. apply in_map_iff. exists (Z.to_nat n).
  split; [lia | apply in_seq; lia].
Qed.

Lemma substring_0_1 (c : ascii) (s : string) :
  substring 0 1 (String c s) = String c "".
Proof. simpl. now destruct s. Qed.

(** The shape of a returned label: a row letter of A-P and a column of
    1..48 written with two digits. *)
Lemma normalize_well_name_shape (v w : string) :
  normalize_well_name v = Ok w ->
  exists c n, w = String c "" ++ format_02d n
              /\ upper_row c = true /\ (1 <= n <= 48)%Z.
Proof.
  unfold normalize_well_name.
  destruct (upper (strip v)) as [|c s] eqn:Hv; [discriminate|].
  destruct (String.length (String c s) <? 2)%nat; [discriminate|].
  rewrite substring_0_1.
  destruct (String.leb "A" (String c "") && String.leb (String c "") "P") eqn:Hrow;
    cbn [negb]; [|discriminate].
  destruct (py_int _) as [n|e]; cbn [bind].
  - destruct ((1 <=? n)%Z && (n <=? 48)%Z) eqn:Hn; cbn [negb try_except_ValueError].
    + intros H. inversion H; subst. exists c, n.
      apply andb_true_iff in Hn as [H1 H2].
      apply Z.leb_le in H1. apply Z.leb_le in H2. auto.
    + discriminate.
  - destruct e; discriminate.
Qed.

(** A returned label is canonical and normalizes to itself. *)
Lemma normalize_well_name_fixed (v w : string) :
  normalize_well_name v = Ok w ->
  canonical_well w = true /\ normalize_well_name w = Ok w.
Proof.
  intros H. apply normalize_well_name_shape in H as (c & n & -> & Hc & Hn).
  pose proof labels_fixed as Hall. rewrite forallb_forall in Hall.
  assert (Hin : In c upper_rows).
  { unfold upper_rows. apply filter_In. split; [apply in_all_ascii | exact Hc]. }
  specialize (Hall c Hin). rewrite forallb_forall in Hall.
  specialize (Hall n (in_columns n Hn)). unfold fixed in Hall.
  apply andb_true_iff in Hall as [Hcan Hfix]. split; [exact Hcan|].
  destruct (normalize_well_name (String c "" ++ format_02d n)) as [w'|]; [|discriminate].
  apply String.eqb_eq in Hfix. now subst.
Qed.

(* ================================================================== *)
(** ** The constructors of the model classes *)

Lemma bind_ok {A B : Type} (c : result A) (k : A -> result B) (b : B) :
  bind c k = Ok b -> exists a, c = Ok a /\ k a = Ok b.
Proof. destruct c as [a|e]; simpl; [eauto | discriminate]. Qed.

Lemma mapM_ok {A B : Type} (f : A -> result B) (l : list A) (ys : list B) :
  mapM f l = Ok ys -> Forall2 (fun x y => f x = Ok y) l ys.
Proof.
  revert ys. induction l as [|x l IH]; simpl; intros ys H.
  - inversion H. constructor.
  - apply bind_ok in H as (y & Hy & H).
    apply bind_ok in H as (ys' & Hys & H). inversion H; subst.
    constructor; auto.
Qed.

Lemma mapM_all_ok {A B : Type} (f : A -> result B) (g : B -> A) (ys : list B) :
  Forall (fun y => f (g y) = Ok y) ys -> mapM f (map g ys) = Ok ys.
Proof.
  induction 1 as [|y ys Hy _ IH]; simpl; [reflexivity|].
  rewrite Hy. cbn [bind]. rewrite IH. reflexivity.
Qed.

Lemma finish_cases {A : Type} (title : string) (a : A) (errors : list (string * string)) :
  (errors = [] /\ finish title a errors = Ok a)
  \/ (errors <> [] /\ finish title a errors = Raise (ValidationError title errors)).
Proof. destruct errors; [left | right]; split; auto; discriminate. Qed.

Lemma finish_raises_validation {A : Type} (title : string) (a : A)
    (errors : list (string * string)) (e : exn) :
  finish title a errors = Raise e -> is_validation_error e.
Proof.
  destruct (finish_cases title a errors) as [[_ H] | [_ H]]; rewrite H; intros E;
    inversion E; exact I.
Qed.

Lemma validate_group_items_value (loc : string) (g : dict (dict pyval)) :
  validate_group_items loc (map (fun kv => (fst kv, PDict (snd kv))) g) = (g, []).
Proof.
  induction g as [|[k d] g IH]; simpl; [reflexivity|].
  rewrite IH. reflexivity.
Qed.

Lemma validate_group_items_inv (loc : string) (d : dict pyval) (g : dict (dict pyval)) :
  validate_group_items loc d = (g, []) ->
  d = map (fun kv => (fst kv, PDict (snd kv))) g.
Proof.
  revert g. induction d as [|[k v] d IH]; simpl; intros g H.
  - inversion H. reflexivity.
  - destruct (validate_dict _ v) as [fs e] eqn:Hv.
    destruct (validate_group_items loc d) as [gs es] eqn:Hd.
    inversion H; subst. apply app_eq_nil in H2 as [-> ->].
    rewrite (IH gs eq_refl). simpl.
    destruct v; simpl in Hv; inversion Hv; subst. reflexivity.
Qed.

Lemma new_InvestigationInformation_value (i : InvestigationInformation) :
  new_InvestigationInformation (groups_value (inv_groups i)) = Ok i.
Proof.
  destruct i as [g]. unfold new_InvestigationInformation, groups_value, validate_groups.
  simpl. rewrite validate_group_items_value. reflexivity.
Qed.

Lemma new_StudyInformation_value (s : StudyInformation) :
  new_StudyInformation (groups_value (study_groups s)) = Ok s.
Proof.
  destruct s as [g]. unfold new_StudyInformation, groups_value, validate_groups.
  simpl. rewrite validate_group_items_value. reflexivity.
Qed.

Lemma new_AssayInformation_value (a : AssayInformation) :
  new_AssayInformation (groups_value (assay_groups a)) = Ok a.
Proof.
  destruct a as [g]. unfold new_AssayInformation, groups_value, validate_groups.
  simpl. rewrite validate_group_items_value. reflexivity.
Qed.

Lemma new_InvestigationInformation_raises (v : pyval) (e : exn) :
  new_InvestigationInformation v = Raise e -> is_validation_error e.
Proof.
  unfold new_InvestigationInformation.
  destruct (validate_groups "groups" v) as [g errs]. apply finish_raises_validation.
Qed.

Lemma new_StudyInformation_raises (v : pyval) (e : exn) :
  new_StudyInformation v = Raise e -> is_validation_error e.
Proof.
  unfold new_StudyInformation.
  destruct (validate_groups "groups" v) as [g errs]. apply finish_raises_validation.
Qed.

Lemma new_AssayInformation_raises (v : pyval) (e : exn) :
  new_AssayInformation v = Raise e -> is_validation_error e.
Proof.
  unfold new_AssayInformation.
  destruct (validate_groups "groups" v) as [g errs]. apply finish_raises_validation.
Qed.

(** A well label the validator accepts: the instance carries the label the
    validator returned. *)
Lemma new_AssayCondition_ok (p w w' : string) (c : dict pyval) :
  normalize_well_name w = Ok w' ->
  new_AssayCondition (PStr p) (PStr w) c
  = Ok {| plate := p; well := w'; conditions := c |}.
Proof.
  intros H. unfold new_AssayCondition, validate_well. simpl. rewrite H. reflexivity.
Qed.

(** What a successful construction tells about its arguments. *)
Lemma new_AssayCondition_inv (p w : pyval) (c : dict pyval) (a : AssayCondition) :
  new_AssayCondition p w c = Ok a ->
  exists ps ws, p = PStr ps /\ w = PStr ws
                /\ normalize_well_name ws = Ok (well a)
                /\ plate a = ps /\ conditions a = c.
Proof.
  unfold new_AssayCondition.
  destruct (validate_str "plate" p) as [p' e1] eqn:Hp.
  destruct (validate_well w) as [w' e2] eqn:Hw.
  destruct (finish_cases "AssayCondition"
              {| plate := p'; well := w'; conditions := c |} (e1 ++ e2)%list)
    as [[He H] | [_ H]]; rewrite H; intros E; inversion E; subst; clear E.
  apply app_eq_nil in He as [-> ->].
  destruct p as [|ps| | |]; simpl in Hp; inversion Hp; subst.
  destruct w as [|ws| | |]; simpl in Hw; try (inversion Hw; fail).
  destruct (normalize_well_name ws) as [w''|[]] eqn:Hn; inversion Hw; subst.
  simpl. eauto 10.
Qed.

Lemma new_AssayCondition_raises_validation (p w : pyval) (c : dict pyval) (e : exn) :
  new_AssayCondition p w c = Raise e -> is_validation_error e.
Proof.
  unfold new_AssayCondition.
  destruct (validate_str "plate" p) as [p' e1].
  destruct (validate_well w) as [w' e2].
  apply finish_raises_validation.
Qed.

(** A well label of fewer than two characters after trimming: the
    construction fails with pydantic's error, which carries the message of
    the validator. *)
Lemma new_AssayCondition_short_well (p : pyval) (s : string) (c : dict pyval) :
  (String.length (strip s) < 2)%nat ->
  exists errors,
    new_AssayCondition p (PStr s) c = Raise (ValidationError "AssayCondition" errors)
    /\ In ("well", "Value error, Invalid well format: " ++ upper (strip s)) errors.
Proof.
  intros H. unfold new_AssayCondition, validate_well.
  rewrite (normalize_well_name_short s H).
  destruct (validate_str "plate" p) as [p' e1].
  eexists. split.
  - destruct e1; reflexivity.
  - apply in_or_app. right. left. reflexivity.
Qed.

(* ================================================================== *)
(** ** from_omero_dict on a conditions entry without a usable well *)

Lemma condition_of_entry_unusable_well (d : dict pyval) :
  unusable_well d ->
  exists errors,
    condition_of_entry (PDict d) = Raise (ValidationError "AssayCondition" errors).
Proof.
  intros [Hnone | (s & Hs & Hlen)]; unfold condition_of_entry, dict_get_default.
  - rewrite Hnone.
    destruct (new_AssayCondition_short_well
                (match dict_get d "Plate" with Some v => v | None => PStr "" end) ""
                (filter (fun kv => negb (is_plate_or_well (fst kv))) d))
      as (errors & H & _); [simpl; lia|].
    eauto.
  - rewrite Hs.
    destruct (new_AssayCondition_short_well
                (match dict_get d "Plate" with Some v => v | None => PStr "" end) s
                (filter (fun kv => negb (is_plate_or_well (fst kv))) d) Hlen)
      as (errors & H & _).
    eauto.
Qed.

Lemma condition_of_entry_dict_raises (v : pyval) (e : exn) :
  is_dict v -> condition_of_entry v = Raise e -> is_validation_error e.
Proof.
  destruct v; simpl; try contradiction. intros _.
  apply new_AssayCondition_raises_validation.
Qed.

(** The loop stops at the first entry that raises. *)
Lemma mapM_raises_at {A B : Type} (P : exn -> Prop) (f : A -> result B)
    (l1 : list A) (x : A) (l2 : list A) (e : exn) :
  f x = Raise e -> P e ->
  exists e', mapM f (l1 ++ x :: l2) = Raise e'
             /\ (Forall (fun y => forall e0, f y = Raise e0 -> P e0) l1 -> P e').
Proof.
  intros Hx HP. induction l1 as [|y l1 IH]; simpl.
  - rewrite Hx. simpl. eauto.
  - destruct (f y) as [b|e0] eqn:Hy; simpl.
    + destruct IH as (e' & -> & Himp). simpl. exists e'. split; [reflexivity|].
      intros Hall. inversion Hall; subst. auto.
    + exists e0. split; [reflexivity|].
      intros Hall. inversion Hall as [|? ? Hy0 _]; subst. now apply Hy0.
Qed.

Lemma bind_raises {A B : Type} (P : exn -> Prop) (c : result A) (k : A -> result B) :
  (forall e, c = Raise e -> P e) ->
  (forall a, exists e, k a = Raise e /\ P e) ->
  exists e, bind c k = Raise e /\ P e.
Proof.
  intros Hc Hk. destruct c as [a|e]; simpl; [apply Hk | eauto].
Qed.

(** C9, in the form the code satisfies.  When the ['AssayConditions'] list
    holds a dict without a ['Well'] key, or whose ['Well'] has fewer than
    two characters after trimming, [from_omero_dict] raises: it neither
    skips the entry nor returns.  The exception is pydantic's validation
    error whenever the entries before that one are dicts. *)
Theorem from_omero_dict_unusable_well_raises
    (data : dict pyval) (before : list pyval) (d : dict pyval) (after : list pyval) :
  dict_get data "AssayConditions" = Some (PList (before ++ PDict d :: after)) ->
  unusable_well d ->
  exists e, from_omero_dict data = Raise e
            /\ (Forall is_dict before -> is_validation_error e).
Proof.
  intros Hget Hbad. unfold from_omero_dict.
  set (P := fun e => Forall is_dict before -> is_validation_error e).
  assert (Htier : forall e, is_validation_error e -> P e) by (intros e He _; exact He).
  apply (bind_raises P).
  { destruct (dict_get data "InvestigationInformation") as [v|]; [|discriminate].
    intros e H. destruct (new_InvestigationInformation v) as [i|e0] eqn:Hv;
      simpl in H; inversion H; subst.
    apply Htier. exact (new_InvestigationInformation_raises v e Hv). }
  intros investigation_info. cbv beta. apply (bind_raises P).
  { destruct (dict_get data "StudyInformation") as [v|]; [|discriminate].
    intros e H. destruct (new_StudyInformation v) as [i|e0] eqn:Hv;
      simpl in H; inversion H; subst.
    apply Htier. exact (new_StudyInformation_raises v e Hv). }
  intros study_info. cbv beta. apply (bind_raises P).
  { destruct (dict_get data "AssayInformation") as [v|]; [|discriminate].
    intros e H. destruct (new_AssayInformation v) as [i|e0] eqn:Hv;
      simpl in H; inversion H; subst.
    apply Htier. exact (new_AssayInformation_raises v e Hv). }
  intros assay_info. cbv beta. rewrite Hget.
  destruct (condition_of_entry_unusable_well d Hbad) as (errors & Herr).
  destruct (mapM_raises_at is_validation_error condition_of_entry before (PDict d) after
              _ Herr I) as (e' & He' & Himp).
  rewrite He'. simpl. exists e'. split; [reflexivity|].
  intros Hall. apply Himp.
  eapply Forall_impl; [|exact Hall].
  intros y Hy e0. now apply condition_of_entry_dict_raises.
Qed.

Lemma from_omero_dict_unusable_well_raises_witness :
  exists e,
    from_omero_dict
      [("AssayConditions",
        PList [PDict [("Plate", PStr "P1"); ("Well", PStr "A1")];
               PDict [("Plate", PStr "P1"); ("Compound", PStr "DMSO")]])]
    = Raise e
    /\ (Forall is_dict [PDict [("Plate", PStr "P1"); ("Well", PStr "A1")]]
        -> is_validation_error e).
Proof.
  apply (from_omero_dict_unusable_well_raises _
           [PDict [("Plate", PStr "P1"); ("Well", PStr "A1")]]
           [("Plate", PStr "P1"); ("Compound", PStr "DMSO")] []).
  - reflexivity.
  - left. reflexivity.
Defined.

(** With an entry that is not a dict ahead of it, the dict without a
    ['Well'] key is never reached: [.get] fails on the earlier entry, and
    the exception is an [AttributeError], not a validation error. *)
Lemma from_omero_dict_non_dict_entry_first :
  let data := [("AssayConditions", PList [PStr "x"; PDict [("Plate", PStr "P1")]])] in
  dict_get data "AssayConditions" = Some (PList [PStr "x"; PDict [("Plate", PStr "P1")]])
  /\ dict_get [("Plate", PStr "P1")] "Well" = None
  /\ from_omero_dict data = Raise (AttributeError "'str' object has no attribute 'get'")
  /\ ~ (exists title errors,
          from_omero_dict data = Raise (ValidationError title errors)).
Proof.
  repeat split. intros (title & errors & H). discriminate H.
Qed.

(* ================================================================== *)
(** ** to_omero_dict *)

Lemma to_omero_dict_base (m : MIHCSMEMetadata) :
  to_omero_dict m = fold_left set_reference (reference_sheets m) (base_dict m).
Proof. reflexivity. Qed.

Lemma base_dict_investigation (m : MIHCSMEMetadata) :
  dict_get (base_dict m) "InvestigationInformation"
  = option_map (fun i => groups_value (inv_groups i)) (investigation_information m).
Proof. each_shape m; reflexivity. Qed.

Lemma base_dict_study (m : MIHCSMEMetadata) :
  dict_get (base_dict m) "StudyInformation"
  = option_map (fun s => groups_value (study_groups s)) (study_information m).
Proof. each_shape m; reflexivity. Qed.

Lemma base_dict_assay (m : MIHCSMEMetadata) :
  dict_get (base_dict m) "AssayInformation"
  = option_map (fun a => groups_value (assay_groups a)) (assay_information m).
Proof. each_shape m; reflexivity. Qed.

Lemma base_dict_conditions (m : MIHCSMEMetadata) :
  dict_get (base_dict m) "AssayConditions"
  = match assay_conditions m with
    | [] => None
    | cs => Some (PList (map (fun c => PDict (condition_dict c)) cs))
    end.
Proof. each_shape m; reflexivity. Qed.

Lemma base_dict_keys (m : MIHCSMEMetadata) (k : string) :
  In k (dict_keys (base_dict m)) -> In k reserved_keys.
Proof.
  each_shape m; intros H;
    repeat (destruct H as [<- | H]; [simpl; tauto|]); contradiction.
Qed.

Lemma reserved_not_reference (k : string) :
  In k reserved_keys -> startswith k "_" = false.
Proof.
  intros H. repeat (destruct H as [<- | H]; [reflexivity|]). contradiction.
Qed.

(** After the loop: a key is present when it was before or when a
    reference sheet carries it as its name. *)
Lemma fold_set_reference_mem (rs : list ReferenceSheet) (base : dict pyval) (k : string) :
  dict_mem (fold_left set_reference rs base) k
  = dict_mem base k || existsb (fun r => String.eqb k (name r)) rs.
Proof.
  revert base. induction rs as [|r rs IH]; intros base; simpl.
  - now rewrite orb_false_r.
  - rewrite IH. unfold dict_mem at 1, set_reference. rewrite dict_get_set.
    unfold dict_mem. destruct (String.eqb k (name r)); simpl.
    + now rewrite orb_true_r.
    + reflexivity.
Qed.

(** Names that are new and distinct: the loop appends one entry a sheet. *)
Lemma fold_set_reference_fresh (rs : list ReferenceSheet) (base : dict pyval) :
  NoDup (map name rs) ->
  (forall r, In r rs -> ~ In (name r) (dict_keys base)) ->
  fold_left set_reference rs base = (base ++ map reference_entry rs)%list.
Proof.
  revert base. induction rs as [|r rs IH]; intros base Hnd Hfresh; simpl.
  - now rewrite app_nil_r.
  - inversion Hnd as [|? ? Hnotin Hnd']; subst.
    unfold set_reference at 2.
    rewrite dict_set_fresh by (apply Hfresh; now left).
    rewrite IH; [now rewrite <- app_assoc | exact Hnd' |].
    intros r' Hr'. unfold dict_keys. rewrite map_app, in_app_iff. simpl.
    intros [Hb | [E | []]].
    + apply (Hfresh r'); [now right | exact Hb].
    + apply Hnotin. rewrite E. now apply in_map.
Qed.

(** C10, in the form the code satisfies.  When no reference sheet is named
    like one of the four reserved keys, the output of [to_omero_dict] has a
    tier's key exactly when that tier is set, and the key
    ['AssayConditions'] exactly when the list of conditions is not empty;
    with an empty list the key is absent. *)
Theorem to_omero_dict_keys (m : MIHCSMEMetadata) :
  (forall r, In r (reference_sheets m) -> ~ In (name r) reserved_keys) ->
  (dict_mem (to_omero_dict m) "InvestigationInformation" = true
   <-> investigation_information m <> None)
  /\ (dict_mem (to_omero_dict m) "StudyInformation" = true
      <-> study_information m <> None)
  /\ (dict_mem (to_omero_dict m) "AssayInformation" = true
      <-> assay_information m <> None)
  /\ (dict_mem (to_omero_dict m) "AssayConditions" = true
      <-> assay_conditions m <> [])
  /\ (assay_conditions m = [] -> dict_get (to_omero_dict m) "AssayConditions" = None).
Proof.
  intros Hnames.
  assert (Hno : forall k, In k reserved_keys ->
                existsb (fun r => String.eqb k (name r)) (reference_sheets m) = false).
  { intros k Hk. apply not_true_is_false. intros H.
    apply existsb_exists in H as (r & Hr & E). apply String.eqb_eq in E.
    apply (Hnames r Hr). now rewrite <- E. }
  assert (Hmem : forall k, In k reserved_keys ->
                 dict_mem (to_omero_dict m) k = dict_mem (base_dict m) k).
  { intros k Hk. rewrite to_omero_dict_base, fold_set_reference_mem, (Hno k Hk).
    apply orb_false_r. }
  repeat split.
  - rewrite Hmem by (simpl; tauto). unfold dict_mem. rewrite base_dict_investigation.
    destruct (investigation_information m); simpl; congruence.
  - rewrite Hmem by (simpl; tauto). unfold dict_mem. rewrite base_dict_investigation.
    destruct (investigation_information m); simpl; congruence.
  - rewrite Hmem by (simpl; tauto). unfold dict_mem. rewrite base_dict_study.
    destruct (study_information m); simpl; congruence.
  - rewrite Hmem by (simpl; tauto). unfold dict_mem. rewrite base_dict_study.
    destruct (study_information m); simpl; congruence.
  - rewrite Hmem by (simpl; tauto). unfold dict_mem. rewrite base_dict_assay.
    destruct (assay_information m); simpl; congruence.
  - rewrite Hmem by (simpl; tauto). unfold dict_mem. rewrite base_dict_assay.
    destruct (assay_information m); simpl; congruence.
  - rewrite Hmem by (simpl; tauto). unfold dict_mem. rewrite base_dict_conditions.
    destruct (assay_conditions m); simpl; congruence.
  - rewrite Hmem by (simpl; tauto). unfold dict_mem. rewrite base_dict_conditions.
    destruct (assay_conditions m); simpl; congruence.
  - intros Hnil.
    assert (H : dict_mem (to_omero_dict m) "AssayConditions" = false).
    { rewrite Hmem by (simpl; tauto). unfold dict_mem. rewrite base_dict_conditions, Hnil.
      reflexivity. }
    unfold dict_mem in H. destruct (dict_get (to_omero_dict m) "AssayConditions");
      [discriminate | reflexivity].
Qed.

Lemma to_omero_dict_keys_witness :
  (dict_mem (to_omero_dict metadata_of_test) "InvestigationInformation" = true
   <-> investigation_information metadata_of_test <> None)
  /\ (dict_mem (to_omero_dict metadata_of_test) "StudyInformation" = true
      <-> study_information metadata_of_test <> None)
  /\ (dict_mem (to_omero_dict metadata_of_test) "AssayInformation" = true
      <-> assay_information metadata_of_test <> None)
  /\ (dict_mem (to_omero_dict metadata_of_test) "AssayConditions" = true
      <-> assay_conditions metadata_of_test <> [])
  /\ (assay_conditions metadata_of_test = []
      -> dict_get (to_omero_dict metadata_of_test) "AssayConditions" = None).
Proof.
  apply (to_omero_dict_keys metadata_of_test).
  intros r [<- | []]. simpl.
  intros [H | [H | [H | [H | []]]]]; discriminate H.
Defined.

(** A reference sheet may carry any name.  Named like a reserved key, it
    puts that key into the output although the tier is unset and the list
    of conditions is empty. *)
Lemma to_omero_dict_reference_named_like_key :
  let m := {| investigation_information := None;
              study_information := None;
              assay_information := None;
              assay_conditions := [];
              reference_sheets :=
                [{| name := "InvestigationInformation"; data := [] |};
                 {| name := "AssayConditions"; data := [] |}] |} in
  new_ReferenceSheet (PStr "InvestigationInformation") (PDict [])
  = Ok {| name := "InvestigationInformation"; data := [] |}
  /\ new_ReferenceSheet (PStr "AssayConditions") (PDict [])
     = Ok {| name := "AssayConditions"; data := [] |}
  /\ investigation_information m = None
  /\ dict_mem (to_omero_dict m) "InvestigationInformation" = true
  /\ assay_conditions m = []
  /\ dict_mem (to_omero_dict m) "AssayConditions" = true.
Proof. repeat split. Qed.

(* ================================================================== *)
(** ** The round trip through the flat dict *)

Lemma filter_all {A : Type} (f : A -> bool) (l : list A) :
  Forall (fun x => f x = true) l -> filter f l = l.
Proof.
  induction 1 as [|x l Hx _ IH]; simpl; [reflexivity|]. now rewrite Hx, IH.
Qed.

Lemma condition_dict_fresh (c : AssayCondition) :
  condition_ok c ->
  condition_dict c
  = (("Plate", PStr (plate c)) :: ("Well", PStr (well c)) :: conditions c).
Proof.
  intros (_ & Hwf & Hkeys). unfold condition_dict.
  rewrite dict_update_fresh; [reflexivity | exact Hwf |].
  intros k Hk Hin. unfold dict_keys in Hk. apply in_map_iff in Hk as (kv & <- & Hkv).
  rewrite Forall_forall in Hkeys. specialize (Hkeys kv Hkv).
  simpl in Hin. destruct Hin as [E | [E | []]]; rewrite <- E in Hkeys; discriminate.
Qed.

Lemma condition_of_entry_condition_dict (c : AssayCondition) :
  condition_ok c -> condition_of_entry (PDict (condition_dict c)) = Ok c.
Proof.
  intros Hok. rewrite (condition_dict_fresh c Hok).
  destruct Hok as (Hwell & _ & Hkeys). destruct c as [p w cs]. simpl in *.
  unfold condition_of_entry, dict_get_default. cbn [dict_get String.eqb Ascii.eqb Bool.eqb].
  cbn [filter fst is_plate_or_well str_in existsb String.eqb Ascii.eqb Bool.eqb orb negb].
  rewrite filter_all.
  - apply new_AssayCondition_ok. exact Hwell.
  - eapply Forall_impl; [|exact Hkeys]. intros kv H. cbv beta in H.
    unfold is_plate_or_well, str_in in H. cbn [existsb] in H. rewrite H. reflexivity.
Qed.

Lemma reference_sheets_of_app (d e : dict pyval) :
  (forall k, In k (dict_keys d) -> startswith k "_" = false) ->
  reference_sheets_of (d ++ e)%list = reference_sheets_of e.
Proof.
  induction d as [|[k v] d IH]; simpl; intros H; [reflexivity|].
  rewrite (H k) by now left.
  rewrite IH by (intros k' Hk'; apply H; now right).
  now destruct v.
Qed.

Lemma reference_sheets_of_entries (rs : list ReferenceSheet) :
  Forall (fun r => startswith (name r) "_" = true) rs ->
  reference_sheets_of (map reference_entry rs) = rs.
Proof.
  induction 1 as [|r rs Hr _ IH]; simpl; [reflexivity|].
  rewrite Hr, IH. now destruct r.
Qed.

Lemma reference_entries_get (rs : list ReferenceSheet) (k : string) :
  Forall (fun r => startswith (name r) "_" = true) rs ->
  startswith k "_" = false ->
  dict_get (map reference_entry rs) k = None.
Proof.
  intros Hrs Hk. induction Hrs as [|r rs Hr _ IH]; simpl; [reflexivity|].
  destruct (String.eqb_spec k (name r)) as [->|_]; [congruence | exact IH].
Qed.

(** The serialized form, when the reference sheets are in order. *)
Lemma to_omero_dict_app (m : MIHCSMEMetadata) :
  references_ok (reference_sheets m) ->
  to_omero_dict m = (base_dict m ++ map reference_entry (reference_sheets m))%list.
Proof.
  intros [Hnd Hnames]. rewrite to_omero_dict_base.
  apply fold_set_reference_fresh; [exact Hnd|].
  intros r Hr Hin. apply base_dict_keys, reserved_not_reference in Hin.
  rewrite Forall_forall in Hnames. rewrite (Hnames r Hr) in Hin. discriminate.
Qed.

Lemma option_match_id {A : Type} (o : option A) :
  match o with Some v => Some v | None => None end = o.
Proof. now destruct o. Qed.

Lemma investigation_back (o : option InvestigationInformation) :
  match option_map (fun i => groups_value (inv_groups i)) o with
  | Some v => i <- new_InvestigationInformation v ;; Ok (Some i)
  | None => Ok None
  end = Ok o.
Proof.
  destruct o as [i|]; simpl; [|reflexivity].
  now rewrite new_InvestigationInformation_value.
Qed.

Lemma study_back (o : option StudyInformation) :
  match option_map (fun s => groups_value (study_groups s)) o with
  | Some v => s <- new_StudyInformation v ;; Ok (Some s)
  | None => Ok None
  end = Ok o.
Proof.
  destruct o as [s|]; simpl; [|reflexivity].
  now rewrite new_StudyInformation_value.
Qed.

Lemma assay_back (o : option AssayInformation) :
  match option_map (fun a => groups_value (assay_groups a)) o with
  | Some v => a <- new_AssayInformation v ;; Ok (Some a)
  | None => Ok None
  end = Ok o.
Proof.
  destruct o as [a|]; simpl; [|reflexivity].
  now rewrite new_AssayInformation_value.
Qed.

Lemma conditions_back (cs : list AssayCondition) :
  Forall condition_ok cs ->
  match
    match cs with
    | [] => None
    | c :: cs' => Some (PList (map (fun c => PDict (condition_dict c)) (c :: cs')))
    end
  with
  | Some (PList l) => mapM condition_of_entry l
  | _ => Ok []
  end = Ok cs.
Proof.
  intros H. destruct cs as [|c cs]; [reflexivity|].
  apply mapM_all_ok. eapply Forall_impl; [|exact H].
  intros c0 Hc0. now apply condition_of_entry_condition_dict.
Qed.

(** Reading back what was written gives the same metadata. *)
Lemma from_to_omero_dict (m : MIHCSMEMetadata) :
  Forall condition_ok (assay_conditions m) ->
  references_ok (reference_sheets m) ->
  from_omero_dict (to_omero_dict m) = Ok m.
Proof.
  intros Hconds Hrefs. rewrite (to_omero_dict_app m Hrefs).
  destruct Hrefs as [Hnd Hnames].
  unfold from_omero_dict. rewrite !dict_get_app.
  rewrite base_dict_investigation, base_dict_study, base_dict_assay, base_dict_conditions.
  rewrite !(reference_entries_get _ _ Hnames) by reflexivity.
  rewrite !option_match_id.
  rewrite investigation_back, study_back, assay_back, (conditions_back _ Hconds).
  cbn [bind].
  rewrite reference_sheets_of_app
    by (intros k Hk; now apply reserved_not_reference, (base_dict_keys m)).
  rewrite (reference_sheets_of_entries _ Hnames).
  now destruct m.
Qed.

(** *** What from_omero_dict builds *)

Lemma from_omero_dict_inv (data : dict pyval) (m : MIHCSMEMetadata) :
  from_omero_dict data = Ok m ->
  match dict_get data "AssayConditions" with
  | Some (PList l) => mapM condition_of_entry l
  | _ => Ok []
  end = Ok (assay_conditions m)
  /\ reference_sheets m = reference_sheets_of data.
Proof.
  unfold from_omero_dict. intros H.
  apply bind_ok in H as (inv & _ & H).
  apply bind_ok in H as (st & _ & H).
  apply bind_ok in H as (asy & _ & H).
  apply bind_ok in H as (cs & Hcs & H).
  inversion H; subst. simpl. auto.
Qed.

Lemma condition_of_entry_inv (v : pyval) (c : AssayCondition) :
  condition_of_entry v = Ok c ->
  exists d, v = PDict d
            /\ normalize_well_name (well c) = Ok (well c)
            /\ canonical_well (well c) = true
            /\ conditions c = filter (fun kv => negb (is_plate_or_well (fst kv))) d.
Proof.
  destruct v as [| | | |d]; simpl; try discriminate. intros H.
  apply new_AssayCondition_inv in H as (ps & ws & _ & _ & Hn & _ & Hc).
  apply normalize_well_name_fixed in Hn as [Hcan Hfix].
  exists d. auto.
Qed.

Lemma filtered_conditions_keys (d : dict pyval) :
  Forall (fun kv => is_plate_or_well (fst kv) = false)
         (filter (fun kv => negb (is_plate_or_well (fst kv))) d).
Proof.
  apply Forall_forall. intros kv H. apply filter_In in H as [_ H].
  now apply negb_true_iff in H.
Qed.

Lemma conditions_built_ok (l : list pyval) (cs : list AssayCondition) :
  (forall d, In (PDict d) l -> dict_wf d) ->
  mapM condition_of_entry l = Ok cs ->
  Forall condition_ok cs /\ Forall (fun c => canonical_well (well c) = true) cs.
Proof.
  intros Hwf H. apply mapM_ok in H.
  induction H as [|v c l cs Hvc _ IH]; [split; constructor|].
  destruct IH as [IH1 IH2]; [intros d Hd; apply Hwf; now right|].
  apply condition_of_entry_inv in Hvc as (d & -> & Hfix & Hcan & Hc).
  split; constructor; auto.
  repeat split; [exact Hfix | |]; rewrite Hc.
  - apply dict_wf_filter, Hwf. now left.
  - apply filtered_conditions_keys.
Qed.

Lemma reference_sheets_of_names (d : dict pyval) (n : string) :
  In n (map name (reference_sheets_of d)) -> In n (dict_keys d).
Proof.
  induction d as [|[k v] d IH]; simpl; [tauto|].
  destruct v; try (intros H; right; now apply IH).
  destruct (startswith k "_"); simpl; intros H; [|right; now apply IH].
  destruct H as [H | H]; [now left | right; now apply IH].
Qed.

Lemma reference_sheets_of_ok (d : dict pyval) :
  dict_wf d -> references_ok (reference_sheets_of d).
Proof.
  unfold dict_wf, references_ok.
  induction d as [|[k v] d IH]; simpl; intros Hnd; [split; constructor|].
  inversion Hnd as [|? ? Hnotin Hnd']; subst.
  destruct (IH Hnd') as [IH1 IH2].
  destruct v; try (split; assumption).
  destruct (startswith k "_") eqn:Hk; [|split; assumption].
  split; simpl; constructor; auto.
  intros Hin. apply Hnotin. now apply reference_sheets_of_names.
Qed.

Lemma constructed_condition_ok (c : AssayCondition) :
  constructed_condition c ->
  normalize_well_name (well c) = Ok (well c) /\ canonical_well (well c) = true.
Proof.
  intros (p & w & H).
  apply new_AssayCondition_inv in H as (ps & ws & _ & _ & Hn & _).
  apply normalize_well_name_fixed in Hn as [Hcan Hfix]. now split.
Qed.

(** What [from_omero_dict] builds from a real dict is within the grammar. *)
Lemma from_omero_dict_in_grammar (data : dict pyval) (m : MIHCSMEMetadata) :
  flat_dict_wf data ->
  from_omero_dict data = Ok m ->
  in_flat_dict_grammar m.
Proof.
  intros [Hwf Hconds] H.
  apply from_omero_dict_inv in H as [Hcs Hrs]. split.
  - assert (Hok : Forall condition_ok (assay_conditions m)).
    { destruct (dict_get data "AssayConditions") as [[| | |l|]|] eqn:Hget;
        try (inversion Hcs; constructor).
      apply (conditions_built_ok l); [|exact Hcs].
      intros d Hd. now apply (Hconds l d). }
    eapply Forall_impl; [|exact Hok].
    intros c (Hfix & Hd & Hkeys). split; [|now split].
    exists (PStr (plate c)), (PStr (well c)).
    rewrite (new_AssayCondition_ok _ _ _ _ Hfix). now destruct c.
  - rewrite Hrs. now apply reference_sheets_of_ok.
Qed.

(** C1. For every metadata [m] within the grammar of the flat dict,
    [from_omero_dict (to_omero_dict m)] returns [m] itself: the same tiers
    with their groups, fields and values, the same conditions (plate,
    condition fields, and the well label, which is in its normalized
    form) and the same reference sheets with their names and data. *)
Theorem omero_dict_round_trip (m : MIHCSMEMetadata) :
  in_flat_dict_grammar m ->
  from_omero_dict (to_omero_dict m) = Ok m
  /\ Forall (fun c => canonical_well (well c) = true) (assay_conditions m).
Proof.
  intros [Hconds Hrefs]. split.
  - apply from_to_omero_dict; [|exact Hrefs].
    eapply Forall_impl; [|exact Hconds].
    intros c (Hc & Hd & Hkeys). split; [|now split].
    now apply constructed_condition_ok.
  - eapply Forall_impl; [|exact Hconds].
    intros c (Hc & _). now apply constructed_condition_ok.
Qed.

Lemma flat_dict_of_test_wf : flat_dict_wf flat_dict_of_test.
Proof.
  split.
  - unfold dict_wf. simpl. repeat constructor; simpl; intuition discriminate.
  - intros l d H Hin. simpl in H. inversion H; subst. simpl in Hin.
    destruct Hin as [E | [E | []]]; inversion E; subst; unfold dict_wf; simpl;
      repeat constructor; simpl; intuition discriminate.
Defined.

Lemma omero_dict_round_trip_witness :
  from_omero_dict (to_omero_dict metadata_of_round_trip_test)
  = Ok metadata_of_round_trip_test
  /\ Forall (fun c => canonical_well (well c) = true)
            (assay_conditions metadata_of_round_trip_test).
Proof.
  apply (omero_dict_round_trip metadata_of_round_trip_test). split.
  - repeat constructor; simpl;
      try (exists (PStr "P1"), (PStr "A1"); reflexivity);
      try (exists (PStr "P1"), (PStr "B2"); reflexivity);
      intuition discriminate.
  - split; [repeat constructor; simpl; intuition | repeat constructor].
Defined.

(* ================================================================== *)
(** ** parse_excel_to_model: the required sheets *)

Lemma append_assoc (a b c : string) : (a ++ b) ++ c = a ++ (b ++ c).
Proof. induction a as [|x a IH]; simpl; [reflexivity | now rewrite IH]. Qed.

Lemma append_nil_r (a : string) : a ++ "" = a.
Proof. induction a as [|x a IH]; simpl; [reflexivity | now rewrite IH]. Qed.

Lemma occurs_in_append_l (s a msg : string) : occurs_in s msg -> occurs_in s (a ++ msg).
Proof.
  intros (pre & post & ->). exists (a ++ pre), post. now rewrite append_assoc.
Qed.

Lemma str_in_In (x : string) (l : list string) : str_in x l = true <-> In x l.
Proof.
  unfold str_in. rewrite existsb_exists. split.
  - intros (y & Hy & E). apply String.eqb_eq in E. now subst.
  - intros H. exists x. split; [exact H | apply String.eqb_refl].
Qed.

Lemma missing_sheets_spec (l : list string) (x : string) :
  In x (missing_sheets l) <-> In x required_sheets /\ ~ In x l.
Proof.
  unfold missing_sheets. rewrite filter_In, negb_true_iff.
  split; intros [H1 H2]; split; auto.
  - rewrite <- str_in_In. now rewrite H2.
  - apply not_true_is_false. now rewrite str_in_In.
Qed.

Lemma join_occurs (sep : string) (l : list string) (s : string) :
  In s l -> occurs_in s (join sep l).
Proof.
  induction l as [|x [|y l] IH]; intros H.
  - contradiction.
  - destruct H as [<- | []]. exists "", "". simpl. now rewrite append_nil_r.
  - destruct H as [<- | H].
    + exists "", (sep ++ join sep (y :: l)). reflexivity.
    + change (join sep (x :: y :: l)) with (x ++ sep ++ join sep (y :: l)).
      apply occurs_in_append_l, occurs_in_append_l, IH, H.
Qed.

(** C4. A workbook that lacks one or more of the four required sheets makes
    [parse_excel_to_model] fail with one error whose message lists the
    missing sheets, all of them and only them, in the order of the
    required names. *)
Theorem parse_excel_to_model_missing_sheets (p : ExcelPath) :
  path_exists p = true ->
  str_in (lower (suffix p)) [".xlsx"; ".xls"] = true ->
  (exists s, In s required_sheets /\ ~ In s (dict_keys (workbook p))) ->
  let missing := missing_sheets (dict_keys (workbook p)) in
  parse_excel_to_model p
  = Raise (ValueError ("Missing required sheets: " ++ join ", " missing))
  /\ (forall s, In s missing <-> In s required_sheets /\ ~ In s (dict_keys (workbook p)))
  /\ (forall s, In s required_sheets -> ~ In s (dict_keys (workbook p)) ->
                occurs_in s ("Missing required sheets: " ++ join ", " missing)).
Proof.
  intros Hexists Hsuffix (s0 & Hreq & Habsent) missing.
  assert (Hspec : forall s, In s missing
                            <-> In s required_sheets /\ ~ In s (dict_keys (workbook p))).
  { intros s. apply missing_sheets_spec. }
  split; [|split].
  - unfold parse_excel_to_model. rewrite Hexists, Hsuffix. cbn [negb].
    fold missing. destruct missing as [|x xs] eqn:Hm; [|reflexivity].
    exfalso. apply (proj2 (Hspec s0)). now split.
  - exact Hspec.
  - intros s Hs Hno. apply occurs_in_append_l, join_occurs, Hspec. now split.
Qed.

Lemma parse_excel_to_model_missing_sheets_witness :
  parse_excel_to_model workbook_without_study_and_conditions
  = Raise (ValueError "Missing required sheets: StudyInformation, AssayConditions").
Proof.
  apply (parse_excel_to_model_missing_sheets workbook_without_study_and_conditions).
  - reflexivity.
  - reflexivity.
  - exists "StudyInformation". split; [simpl; tauto|].
    simpl. intros [H | [H | []]]; discriminate H.
Defined.

(* ================================================================== *)
(** ** The names of reference sheets *)

Lemma reference_sheets_of_prefixed (d : dict pyval) :
  Forall prefixed (reference_sheets_of d).
Proof.
  induction d as [|[k v] d IH]; simpl; [constructor|].
  destruct v; try exact IH.
  destruct (startswith k "_") eqn:Hk; [|exact IH].
  constructor; [exact Hk | exact IH].
Qed.

Lemma parse_reference_sheets_prefixed (xls : ExcelFile) (names : list string) :
  Forall prefixed (parse_reference_sheets xls names).
Proof.
  induction names as [|n names IH]; simpl; [constructor|].
  destruct (startswith n "_") eqn:Hn; [|exact IH].
  destruct (_parse_reference_sheet xls n); [exact IH|].
  constructor; [exact Hn | exact IH].
Qed.

Lemma parse_excel_to_model_references (p : ExcelPath) (m : MIHCSMEMetadata) :
  parse_excel_to_model p = Ok m ->
  reference_sheets m = parse_reference_sheets (workbook p) (dict_keys (workbook p)).
Proof.
  unfold parse_excel_to_model.
  destruct (negb (path_exists p)); [discriminate|].
  destruct (negb (str_in _ _)); [discriminate|].
  destruct (missing_sheets _); [|discriminate].
  intros H.
  apply bind_ok in H as (inv & _ & H).
  apply bind_ok in H as (st & _ & H).
  apply bind_ok in H as (asy & _ & H).
  apply bind_ok in H as (cs & _ & H).
  inversion H. reflexivity.
Qed.

(** C8, in the form the code satisfies.  Every reference sheet of a
    metadata that [parse_excel_to_model] or [from_omero_dict] returns has a
    name that starts with ['_']. *)
Theorem built_reference_sheets_prefixed (m : MIHCSMEMetadata) :
  (exists p, parse_excel_to_model p = Ok m) \/ (exists d, from_omero_dict d = Ok m) ->
  Forall prefixed (reference_sheets m).
Proof.
  intros [[p H] | [d H]].
  - rewrite (parse_excel_to_model_references p m H).
    apply parse_reference_sheets_prefixed.
  - apply from_omero_dict_inv in H as [_ ->].
    apply reference_sheets_of_prefixed.
Qed.

Example parse_small_workbook :
  parse_excel_to_model small_workbook = Ok metadata_of_small_workbook.
Proof. reflexivity. Qed.

Lemma built_reference_sheets_prefixed_witness :
  Forall prefixed (reference_sheets metadata_of_small_workbook).
Proof.
  apply (built_reference_sheets_prefixed metadata_of_small_workbook).
  left. exists small_workbook. reflexivity.
Defined.

(** The class itself checks no name: constructing a reference sheet whose
    name lacks the prefix succeeds. *)
Lemma new_ReferenceSheet_any_name :
  new_ReferenceSheet (PStr "Organisms") (PDict [("Human", PStr "Homo sapiens")])
  = Ok {| name := "Organisms"; data := [("Human", PStr "Homo sapiens")] |}
  /\ startswith "Organisms" "_" = false.
Proof. split; reflexivity. Qed.

(* ================================================================== *)
(** ** _parse_assay_conditions *)


Lemma map_snd_combine {A B : Type} (l1 : list A) (l2 : list B) :
  List.length l1 = List.length l2 -> map snd (combine l1 l2) = l2.
Proof.
  revert l2. induction l1 as [|a l1 IH]; intros [|b l2] H; simpl in *;
    try discriminate; [reflexivity|].
  injection H as H. now rewrite IH.
Qed.

Lemma map_snd_filter {A B : Type} (f : B -> bool) (l : list (A * B)) :
  map snd (filter (fun r => f (snd r)) l) = filter f (map snd l).
Proof.
  induction l as [|[a b] l IH]; simpl; [reflexivity|].
  destruct (f b); simpl; now rewrite IH.
Qed.

Lemma frame_of_cells (n : nat) (rs : list (list cell)) :
  map snd (rows (frame_of n rs)) = map (fit n) rs.
Proof.
  unfold frame_of. cbn [rows]. apply map_snd_combine.
  now rewrite length_seq, length_map.
Qed.













Example parse_example_conditions :
  _parse_assay_conditions example_conditions "AssayConditions"
  = Ok [{| plate := "PlateA"; well := "A01";
           conditions := [("Compound", PStr "DMSO")] |}].
Proof. reflexivity. Qed.



(* ================================================================== *)
(** ** The grouping of flat fields is total *)

Section GroupingFacts.

Variable known_groups : list (string * (string -> bool)).
Context {V : Type}.

Lemma organize_snoc (l : dict V) (k : string) (v : V) :
  _organize_into_groups known_groups (l ++ [(k, v)])%list
  = let result := _organize_into_groups known_groups l in
    let g := group_of known_groups k in
    dict_set result g (dict_set (dict_get_default result g []) k v).
Proof. unfold Grouping._organize_into_groups. now rewrite fold_left_app. Qed.

Lemma lookup2_organize (l : dict V) (g k : string) :
  lookup2 (_organize_into_groups known_groups l) g k
  = if String.eqb g (group_of known_groups k) then last_value l k else None.
Proof.
  induction l as [|[k0 v0] l IH] using rev_ind.
  - unfold lookup2, last_value. simpl. now destruct (String.eqb g (group_of known_groups k)).
  - rewrite organize_snoc. unfold lookup2, last_value in *.
    rewrite dict_get_set, rev_app_distr. simpl.
    destruct (String.eqb_spec g (group_of known_groups k0)) as [->|Hg].
    + rewrite dict_get_set.
      destruct (String.eqb_spec k k0) as [->|Hk].
      * now rewrite String.eqb_refl.
      * rewrite <- IH. unfold dict_get_default.
        now destruct (dict_get (_organize_into_groups known_groups l) (group_of known_groups k0)).
    + rewrite IH.
      destruct (String.eqb_spec k k0) as [->|Hk]; [|reflexivity].
      destruct (String.eqb_spec g (group_of known_groups k0)); [contradiction | reflexivity].
Qed.

Lemma last_value_wf (l : dict V) (k : string) :
  dict_wf l -> last_value l k = dict_get l k.
Proof.
  intros Hwf. unfold last_value.
  assert (Hrev : dict_wf (rev l)).
  { unfold dict_wf, dict_keys in *. rewrite map_rev. now apply NoDup_rev. }
  destruct (dict_get l k) as [v|] eqn:Hget.
  - apply dict_get_in; [exact Hrev|]. apply in_rev. rewrite rev_involutive.
    now apply dict_get_some_in.
  - apply dict_get_none_iff. apply dict_get_none_iff in Hget.
    unfold dict_keys in *. rewrite map_rev. intros H. apply Hget. now apply in_rev.
Qed.

Lemma group_of_fallback (field : string) :
  (forall g, In g known_groups -> snd g field = false) ->
  group_of known_groups field = "Metadata".
Proof.
  intros H. unfold Grouping.group_of.
  destruct (find (fun g => snd g field) known_groups) as [g|] eqn:Hfind; [|reflexivity].
  apply find_some in Hfind as [Hin Hg]. rewrite (H g Hin) in Hg. discriminate.
Qed.

(** C3. The grouping drops no field and places each in exactly one group:
    every field of the flat dict is found, with its value, under the group
    the table assigns to it; whatever is found under a group is a field of
    the flat dict, and that group is the one assigned to it; and a field
    that no known group claims is assigned to [Metadata]. *)
Theorem organize_into_groups_total (flat_dict : dict V) :
  dict_wf flat_dict ->
  (forall field value,
      dict_get flat_dict field = Some value ->
      lookup2 (_organize_into_groups known_groups flat_dict)
              (group_of known_groups field) field = Some value)
  /\ (forall g field value,
         lookup2 (_organize_into_groups known_groups flat_dict) g field = Some value ->
         g = group_of known_groups field /\ dict_get flat_dict field = Some value)
  /\ (forall field,
         (forall g, In g known_groups -> snd g field = false) ->
         group_of known_groups field = "Metadata").
Proof.
  intros Hwf. split; [|split].
  - intros field value H.
    now rewrite lookup2_organize, String.eqb_refl, last_value_wf.
  - intros g field value H. rewrite lookup2_organize in H.
    destruct (String.eqb_spec g (group_of known_groups field)) as [->|_]; [|discriminate].
    now rewrite last_value_wf in H.
  - exact group_of_fallback.
Qed.

End GroupingFacts.

Lemma organize_into_groups_total_witness :
  lookup2 (_organize_into_groups example_groups
             [("First Name", PStr "John"); ("Project ID", PStr "EuTOX");
              ("Random Key", PStr "value2")])
          "Metadata" "Random Key"
  = Some (PStr "value2").
Proof.
  refine (proj1 (organize_into_groups_total example_groups
                   [("First Name", PStr "John"); ("Project ID", PStr "EuTOX");
                    ("Random Key", PStr "value2")] _)
                "Random Key" (PStr "value2") eq_refl).
  unfold dict_wf. simpl. repeat constructor; simpl; intuition discriminate.
Defined.

(* ================================================================== *)
(** ** delete_annotations_from_object *)

Lemma delete_annotations_object_not_found
    (conn : BlitzGateway) (object_type : string) (object_id : Z)
    (namespace : option string) :
  getObject conn object_type object_id = None ->
  delete_annotations_from_object conn object_type object_id namespace = (0%nat, conn).
Proof. intros H. unfold delete_annotations_from_object. now rewrite H. Qed.

(** The count returned is the number of annotations the loop does not skip. *)
Lemma delete_annotations_count
    (conn : BlitzGateway) (object_type : string) (object_id : Z)
    (namespace : option string) (anns : list Annotation) :
  getObject conn object_type object_id = Some anns ->
  fst (delete_annotations_from_object conn object_type object_id namespace)
  = List.length (filter (fun ann => negb (skipped namespace ann)) anns).
Proof.
  intros H. unfold delete_annotations_from_object, annotations_to_delete. rewrite H.
  rewrite <- (length_map getId).
  now destruct (map getId _).
Qed.

(** An annotation with a non-empty namespace is skipped exactly when that
    namespace does not start with the prefix. *)
Lemma skipped_namespaced (prefix : string) (ann : Annotation) (c : ascii) (ns : string) :
  prefix <> "" ->
  getNs ann = Some (Some (String c ns)) ->
  skipped (Some prefix) ann = negb (has_prefix prefix ann).
Proof.
  intros Hp Hns. unfold skipped, has_prefix. rewrite Hns.
  destruct prefix; [contradiction | reflexivity].
Qed.

(** An annotation whose namespace is [None] or empty is never skipped. *)
Lemma skipped_unnamespaced (namespace : option string) (ann : Annotation) :
  getNs ann = Some None \/ getNs ann = Some (Some "") ->
  skipped namespace ann = false.
Proof.
  intros [H | H]; unfold skipped; rewrite H; destruct namespace as [[|]|]; reflexivity.
Qed.

(** C5. On a plate whose only annotation has no namespace, deleting under
    the prefix ["MIHCSME"] finds no annotation whose namespace starts with
    the prefix, yet deletes that annotation and returns 1; next to
    annotations that do match, the one without a namespace goes as well. *)
Theorem delete_annotations_takes_unnamespaced :
  let bare := {| getId := 7; getNs := Some None |} in
  let ours := {| getId := 8; getNs := Some (Some "MIHCSME/AssayConditions") |} in
  let other := {| getId := 9; getNs := Some (Some "openmicroscopy.org/omero") |} in
  filter (has_prefix "MIHCSME") [bare] = []
  /\ delete_annotations_from_object
       {| objects := [(("Plate", 1%Z), [bare])] |} "Plate" 1 (Some "MIHCSME")
     = (1%nat, {| objects := [(("Plate", 1%Z), [])] |})
  /\ filter (has_prefix "MIHCSME") [bare; ours; other] = [ours]
  /\ delete_annotations_from_object
       {| objects := [(("Plate", 1%Z), [bare; ours; other])] |} "Plate" 1 (Some "MIHCSME")
     = (2%nat, {| objects := [(("Plate", 1%Z), [other])] |}).
Proof. repeat split. Qed.

(** When every annotation of the object carries a non-empty namespace, the
    count is the number of annotations under the prefix. *)
Lemma delete_annotations_all_namespaced
    (conn : BlitzGateway) (object_type : string) (object_id : Z)
    (prefix : string) (anns : list Annotation) :
  prefix <> "" ->
  getObject conn object_type object_id = Some anns ->
  Forall (fun ann => exists c ns, getNs ann = Some (Some (String c ns))) anns ->
  fst (delete_annotations_from_object conn object_type object_id (Some prefix))
  = List.length (filter (has_prefix prefix) anns).
Proof.
  intros Hp Hobj Hall.
  rewrite (delete_annotations_count conn object_type object_id (Some prefix) anns Hobj).
  f_equal. apply filter_ext_in. intros ann Hin.
  rewrite Forall_forall in Hall. destruct (Hall ann Hin) as (c & ns & Hns).
  rewrite (skipped_namespaced prefix ann c ns Hp Hns). apply negb_involutive.
Qed.

(* ================================================================== *)
(** * Further properties *)

(** ** normalize_well_name *)

(** X1. Whatever input the validator accepts, the label it returns has the
    form [^[A-P][0-9]{2}$] with its column in 01..48, and the validator
    returns that label unchanged. *)
Theorem accepted_label_is_canonical_fixed_point (v w : string) :
  normalize_well_name v = Ok w ->
  canonical_well w = true /\ normalize_well_name w = Ok w.
Proof. apply normalize_well_name_fixed. Qed.

Lemma accepted_label_is_canonical_fixed_point_witness :
  canonical_well "C07" = true /\ normalize_well_name "C07" = Ok "C07".
Proof.
  apply (accepted_label_is_canonical_fixed_point "  c+0_7 " "C07"). reflexivity.
Defined.

Lemma forall_ascii (P : ascii -> bool) :
  forallb P all_ascii = true -> forall c, P c = true.
Proof.
  intros H c. rewrite forallb_forall in H. apply H, in_all_ascii.
Qed.

Lemma py_isspace_upper_char (c : ascii) : py_isspace (upper_char c) = py_isspace c.
Proof.
  apply Bool.eqb_prop.
  apply (forall_ascii (fun c => Bool.eqb (py_isspace (upper_char c)) (py_isspace c))).
  vm_compute. reflexivity.
Qed.

Lemma upper_char_idempotent (c : ascii) : upper_char (upper_char c) = upper_char c.
Proof.
  apply Ascii.eqb_eq.
  apply (forall_ascii (fun c => Ascii.eqb (upper_char (upper_char c)) (upper_char c))).
  vm_compute. reflexivity.
Qed.

Lemma upper_idempotent (s : string) : upper (upper s) = upper s.
Proof.
  induction s as [|c s IH]; simpl; [reflexivity|].
  now rewrite upper_char_idempotent, IH.
Qed.

Lemma lstrip_upper (s : string) : lstrip (upper s) = upper (lstrip s).
Proof.
  induction s as [|c s IH]; simpl; [reflexivity|].
  rewrite py_isspace_upper_char. destruct (py_isspace c); [exact IH | reflexivity].
Qed.

Lemma rstrip_upper (s : string) : rstrip (upper s) = upper (rstrip s).
Proof.
  induction s as [|c s IH]; simpl; [reflexivity|].
  rewrite IH, py_isspace_upper_char.
  destruct (rstrip s); simpl; [destruct (py_isspace c)|]; reflexivity.
Qed.

Lemma strip_upper (s : string) : strip (upper s) = upper (strip s).
Proof. unfold strip. now rewrite lstrip_upper, rstrip_upper. Qed.

Lemma rstrip_idempotent (s : string) : rstrip (rstrip s) = rstrip s.
Proof.
  induction s as [|c s IH]; simpl; [reflexivity|].
  destruct (rstrip s) as [|c' r] eqn:Hr.
  - destruct (py_isspace c) eqn:Hc; simpl; [reflexivity | now rewrite Hc].
  - transitivity (match rstrip (String c' r) with
                  | EmptyString =>
                      if py_isspace c then EmptyString else String c EmptyString
                  | String c0 r0 => String c (String c0 r0)
                  end); [reflexivity|].
    now rewrite IH.
Qed.

(** A string without a leading blank keeps none when its end is trimmed. *)
Lemma lstrip_rstrip_fixed (s : string) : lstrip s = s -> lstrip (rstrip s) = rstrip s.
Proof.
  destruct s as [|c s]; [reflexivity|]. simpl.
  destruct (py_isspace c) eqn:Hc.
  - intros H. exfalso.
    assert (Hlen : forall t, String.length (lstrip t) <= String.length t).
    { induction t as [|x t IHt]; simpl; [lia|]. destruct (py_isspace x); simpl; lia. }
    specialize (Hlen s). rewrite H in Hlen. simpl in Hlen. lia.
  - intros _. destruct (rstrip s); simpl; now rewrite Hc.
Qed.

Lemma lstrip_idempotent (s : string) : lstrip (lstrip s) = lstrip s.
Proof.
  induction s as [|c s IH]; simpl; [reflexivity|].
  destruct (py_isspace c) eqn:Hc; [exact IH|]. simpl. now rewrite Hc.
Qed.

Lemma strip_idempotent (s : string) : strip (strip s) = strip s.
Proof.
  unfold strip.
  rewrite (lstrip_rstrip_fixed (lstrip s) (lstrip_idempotent s)).
  apply rstrip_idempotent.
Qed.

(** X2. Trimming and upper-casing a well label beforehand changes nothing:
    the validator gives the same label, or the same error with the same
    message. *)
Theorem normalize_well_name_of_trimmed_upper (v : string) :
  normalize_well_name (upper (strip v)) = normalize_well_name v
  /\ normalize_well_name (strip v) = normalize_well_name v
  /\ normalize_well_name (upper v) = normalize_well_name v.
Proof.
  assert (H1 : upper (strip (upper (strip v))) = upper (strip v))
    by now rewrite strip_upper, strip_idempotent, upper_idempotent.
  assert (H2 : upper (strip (strip v)) = upper (strip v))
    by now rewrite strip_idempotent.
  assert (H3 : upper (strip (upper v)) = upper (strip v))
    by now rewrite strip_upper, upper_idempotent.
  unfold normalize_well_name. rewrite H1, H2, H3. auto.
Qed.

(** X3. The validator ends in one of three ways only: a label, the error
    ["Invalid well format: ..."] or the error
    ["Invalid row letter (must be A-P): ..."], both with the trimmed,
    upper-cased input (or its first character) in the message.  The error
    ["Invalid column number ..."] is raised inside the [try] and never
    leaves it. *)
Theorem normalize_well_name_three_outcomes (v : string) :
  ((exists w, normalize_well_name v = Ok w)
   \/ normalize_well_name v
      = Raise (ValueError ("Invalid well format: " ++ upper (strip v)))
   \/ normalize_well_name v
      = Raise (ValueError ("Invalid row letter (must be A-P): "
                           ++ substring 0 1 (upper (strip v)))))
  /\ (forall msg, normalize_well_name v = Raise (ValueError msg) ->
                  startswith msg "Invalid column number" = false).
Proof.
  split; [apply normalize_well_name_outcomes|].
  intros msg. apply normalize_well_name_never_column_message.
Qed.

(** ** The construction of an AssayCondition *)

(** X4. An [AssayCondition] that was constructed holds the plate and the
    conditions it was given, both unchanged, and a canonical well: the
    label the validator returned for the well it was given.  Plate and
    well were strings. *)
Theorem constructed_condition_invariant
    (p w : pyval) (c : dict pyval) (a : AssayCondition) :
  new_AssayCondition p w c = Ok a ->
  p = PStr (plate a)
  /\ (exists ws, w = PStr ws /\ normalize_well_name ws = Ok (well a))
  /\ canonical_well (well a) = true
  /\ normalize_well_name (well a) = Ok (well a)
  /\ conditions a = c.
Proof.
  intros H. apply new_AssayCondition_inv in H as (ps & ws & -> & -> & Hn & <- & Hc).
  destruct (normalize_well_name_fixed ws (well a) Hn) as [Hcan Hfix].
  repeat split; eauto.
Qed.

Lemma constructed_condition_invariant_witness :
  PStr "P1" = PStr "P1"
  /\ (exists ws, PStr "b2" = PStr ws /\ normalize_well_name ws = Ok "B02")
  /\ canonical_well "B02" = true
  /\ normalize_well_name "B02" = Ok "B02"
  /\ [("Drug", PStr "Control")] = [("Drug", PStr "Control")].
Proof.
  apply (constructed_condition_invariant (PStr "P1") (PStr "b2")
           [("Drug", PStr "Control")]
           {| plate := "P1"; well := "B02";
              conditions := [("Drug", PStr "Control")] |}).
  reflexivity.
Defined.

(* ================================================================== *)
(** ** More on to_omero_dict *)

Section MoreDictFacts.
Context {V : Type}.

Lemma dict_set_wf (d : dict V) (k : string) (v : V) :
  dict_wf d -> dict_wf (dict_set d k v).
Proof.
  unfold dict_wf, dict_keys.
  induction d as [|[k' v'] d IH]; simpl; intros Hnd.
  - constructor; [tauto | constructor].
  - inversion Hnd as [|? ? Hnotin Hnd']; subst.
    destruct (String.eqb_spec k k') as [->|Hne]; simpl; [now constructor|].
    constructor; [|now apply IH].
    intros Hin. apply Hnotin.
    assert (Hkeys : forall x, In x (map fst (dict_set d k v)) -> x = k \/ In x (map fst d)).
    { clear. induction d as [|[k0 v0] d IHd]; simpl; intros x Hx.
      - destruct Hx as [<- | []]. now left.
      - destruct (String.eqb k k0); simpl in *; [tauto|].
        destruct Hx as [Hx | Hx]; [tauto|]. apply IHd in Hx. tauto. }
    destruct (Hkeys k' Hin) as [E | Hd]; [congruence | exact Hd].
Qed.

Lemma dict_update_snoc (d e : dict V) (k : string) (v : V) :
  dict_update d (e ++ [(k, v)])%list = dict_set (dict_update d e) k v.
Proof. unfold dict_update. now rewrite fold_left_app. Qed.

(** After [d.update(e)] a key holds what [e] assigned to it last, and
    otherwise what [d] held. *)
Lemma dict_get_update (d e : dict V) (k : string) :
  dict_get (dict_update d e) k
  = match last_value e k with
    | Some v => Some v
    | None => dict_get d k
    end.
Proof.
  induction e as [|[k0 v0] e IH] using rev_ind; [reflexivity|].
  rewrite dict_update_snoc, dict_get_set. unfold last_value in *.
  rewrite rev_app_distr. simpl.
  destruct (String.eqb k k0); [reflexivity | exact IH].
Qed.

End MoreDictFacts.

(** X6. In the entry that [to_omero_dict] writes for a condition, a key of
    its conditions holds the value the conditions give it (the last one);
    only a key that the conditions lack can be the plate under ["Plate"]
    or the well under ["Well"].  So a condition field named ["Plate"] or
    ["Well"] replaces the plate or the well of the entry. *)
Theorem condition_dict_lookup (c : AssayCondition) (k : string) :
  dict_get (condition_dict c) k
  = match last_value (conditions c) k with
    | Some v => Some v
    | None =>
        if String.eqb k "Plate" then Some (PStr (plate c))
        else if String.eqb k "Well" then Some (PStr (well c))
        else None
    end.
Proof. unfold condition_dict. now rewrite dict_get_update. Qed.

Lemma fold_set_reference_snoc (rs : list ReferenceSheet) (r : ReferenceSheet)
    (base : dict pyval) :
  fold_left set_reference (rs ++ [r]) base
  = dict_set (fold_left set_reference rs base) (name r) (PDict (data r)).
Proof. now rewrite fold_left_app. Qed.

(** X7. Under a key that names a reference sheet, the output of
    [to_omero_dict] holds the data of the last sheet so named, also when
    the key is one of the four reserved keys: the tier or the list of
    conditions written before is replaced.  Any other key holds what the
    tiers and conditions put there. *)
Theorem to_omero_dict_lookup (m : MIHCSMEMetadata) (k : string) :
  dict_get (to_omero_dict m) k
  = match last_reference (reference_sheets m) k with
    | Some r => Some (PDict (data r))
    | None => dict_get (base_dict m) k
    end.
Proof.
  rewrite to_omero_dict_base. unfold last_reference.
  induction (reference_sheets m) as [|r rs IH] using rev_ind; [reflexivity|].
  rewrite fold_set_reference_snoc, dict_get_set, rev_app_distr. simpl.
  destruct (String.eqb k (name r)); [reflexivity | exact IH].
Qed.

(* ================================================================== *)
(** ** More on from_omero_dict *)

Lemma dict_get_skip {V : Type} (d1 d2 : dict V) (k k' : string) (v : V) :
  k' <> k ->
  dict_get (d1 ++ (k, v) :: d2)%list k' = dict_get (d1 ++ d2)%list k'.
Proof.
  intros Hne. rewrite !dict_get_app. simpl.
  destruct (String.eqb_spec k' k); [contradiction | reflexivity].
Qed.

Lemma reference_sheets_of_concat (d e : dict pyval) :
  reference_sheets_of (d ++ e)%list
  = (reference_sheets_of d ++ reference_sheets_of e)%list.
Proof.
  induction d as [|[k v] d IH]; simpl; [reflexivity|].
  destruct v; try exact IH.
  destruct (startswith k "_"); simpl; now rewrite IH.
Qed.

(** X8. [from_omero_dict] reads the four reserved keys and the keys that
    start with ['_'] and hold a dict, and nothing else: an entry of any
    other kind can be taken out of the input without changing the result,
    be it the metadata or the error. *)
Theorem from_omero_dict_ignores_other_entries
    (d1 d2 : dict pyval) (k : string) (v : pyval) :
  read_by_from_omero_dict (k, v) = false ->
  from_omero_dict (d1 ++ (k, v) :: d2)%list = from_omero_dict (d1 ++ d2)%list.
Proof.
  unfold read_by_from_omero_dict. cbn [fst snd]. intros H.
  apply orb_false_iff in H as [Hres Href].
  assert (Hne : forall k', In k' reserved_keys -> k' <> k).
  { intros k' Hin ->. apply str_in_In in Hin. congruence. }
  unfold from_omero_dict.
  rewrite !(dict_get_skip d1 d2 k _ v) by (apply Hne; simpl; tauto).
  assert (Hrefs : reference_sheets_of (d1 ++ (k, v) :: d2)%list
                  = reference_sheets_of (d1 ++ d2)%list).
  { rewrite !reference_sheets_of_concat. f_equal. simpl.
    destruct v; try reflexivity. cbn [is_dictb] in Href.
    rewrite andb_true_r in Href. now rewrite Href. }
  now rewrite Hrefs.
Qed.

Lemma from_omero_dict_ignores_other_entries_witness :
  from_omero_dict (firstn 4 flat_dict_of_test
                   ++ ("_note", PStr "draft") :: skipn 4 flat_dict_of_test)%list
  = from_omero_dict (firstn 4 flat_dict_of_test ++ skipn 4 flat_dict_of_test)%list.
Proof.
  apply (from_omero_dict_ignores_other_entries
           (firstn 4 flat_dict_of_test) (skipn 4 flat_dict_of_test)
           "_note" (PStr "draft")).
  reflexivity.
Defined.

(** X9. When [from_omero_dict] returns, its conditions are the entries of
    the ['AssayConditions'] list, one for one and in order: each entry is
    a dict, the plate is its ['Plate'] (the empty string when the key is
    absent), the well is the normalized ['Well'], the conditions are its
    other items.  A value under ['AssayConditions'] that is not a list is
    passed over: no condition, no error. *)
Theorem from_omero_dict_conditions (data : dict pyval) (m : MIHCSMEMetadata) :
  from_omero_dict data = Ok m ->
  match dict_get data "AssayConditions" with
  | Some (PList l) => Forall2 condition_read_from l (assay_conditions m)
  | _ => assay_conditions m = []
  end.
Proof.
  intros H. apply from_omero_dict_inv in H as [H _].
  destruct (dict_get data "AssayConditions") as [[| | |l|]|];
    try (inversion H; reflexivity).
  apply mapM_ok in H. eapply Forall2_impl; [|exact H].
  intros entry c Hc. destruct entry as [| | | |d]; simpl in Hc; try discriminate.
  apply new_AssayCondition_inv in Hc as (ps & ws & Hp & Hw & Hn & Hplate & Hconds).
  exists d. repeat split.
  - now rewrite Hp, Hplate.
  - exists ws. split; assumption.
  - exact Hconds.
Qed.

Lemma from_omero_dict_conditions_witness :
  Forall2 condition_read_from
    [PDict [("Plate", PStr "Plate1"); ("Well", PStr "a1"); ("Compound", PStr "DMSO")];
     PDict [("Plate", PStr "Plate1"); ("Well", PStr "A02"); ("Compound", PStr "Drug1")]]
    (assay_conditions metadata_of_flat_dict).
Proof.
  apply (from_omero_dict_conditions flat_dict_of_test metadata_of_flat_dict).
  reflexivity.
Defined.

Lemma new_InvestigationInformation_inv (v : pyval) (i : InvestigationInformation) :
  new_InvestigationInformation v = Ok i -> groups_value (inv_groups i) = v.
Proof.
  unfold new_InvestigationInformation.
  destruct (validate_groups "groups" v) as [g e] eqn:Hv.
  destruct (finish_cases "InvestigationInformation" {| inv_groups := g |} e)
    as [[-> H] | [_ H]]; rewrite H; intros E; inversion E; subst; clear E.
  destruct v; simpl in Hv; try (inversion Hv; fail).
  apply validate_group_items_inv in Hv. now subst.
Qed.

Lemma new_StudyInformation_inv (v : pyval) (s : StudyInformation) :
  new_StudyInformation v = Ok s -> groups_value (study_groups s) = v.
Proof.
  unfold new_StudyInformation.
  destruct (validate_groups "groups" v) as [g e] eqn:Hv.
  destruct (finish_cases "StudyInformation" {| study_groups := g |} e)
    as [[-> H] | [_ H]]; rewrite H; intros E; inversion E; subst; clear E.
  destruct v; simpl in Hv; try (inversion Hv; fail).
  apply validate_group_items_inv in Hv. now subst.
Qed.

Lemma new_AssayInformation_inv (v : pyval) (a : AssayInformation) :
  new_AssayInformation v = Ok a -> groups_value (assay_groups a) = v.
Proof.
  unfold new_AssayInformation.
  destruct (validate_groups "groups" v) as [g e] eqn:Hv.
  destruct (finish_cases "AssayInformation" {| assay_groups := g |} e)
    as [[-> H] | [_ H]]; rewrite H; intros E; inversion E; subst; clear E.
  destruct v; simpl in Hv; try (inversion Hv; fail).
  apply validate_group_items_inv in Hv. now subst.
Qed.

(** What reading one tier key gives: with [new] the constructor of the
    tier and [value] its groups as a value. *)
Lemma tier_read {T : Type} (new : pyval -> result T) (value : T -> pyval)
    (o : option pyval) (r : option T) :
  (forall v t, new v = Ok t -> value t = v) ->
  match o with
  | Some v => t <- new v ;; Ok (Some t)
  | None => Ok None
  end = Ok r ->
  option_map value r = o.
Proof.
  intros Hnew H. destruct o as [v|]; [|inversion H; reflexivity].
  apply bind_ok in H as (t & Ht & E). inversion E; subst. simpl.
  now rewrite (Hnew v t Ht).
Qed.

Lemma from_omero_dict_tiers_inv (data : dict pyval) (m : MIHCSMEMetadata) :
  from_omero_dict data = Ok m ->
  match dict_get data "InvestigationInformation" with
  | Some v => t <- new_InvestigationInformation v ;; Ok (Some t)
  | None => Ok None
  end = Ok (investigation_information m)
  /\ match dict_get data "StudyInformation" with
     | Some v => t <- new_StudyInformation v ;; Ok (Some t)
     | None => Ok None
     end = Ok (study_information m)
  /\ match dict_get data "AssayInformation" with
     | Some v => t <- new_AssayInformation v ;; Ok (Some t)
     | None => Ok None
     end = Ok (assay_information m).
Proof.
  unfold from_omero_dict. intros H.
  apply bind_ok in H as (inv & Hinv & H).
  apply bind_ok in H as (st & Hst & H).
  apply bind_ok in H as (asy & Hasy & H).
  apply bind_ok in H as (cs & _ & H).
  inversion H; subst; clear H. simpl. auto.
Qed.

(** X10. When [from_omero_dict] returns, each tier is set exactly when its
    key is in the input, and its groups are the value under that key, kept
    as they are: every group, field and value, in the same order. *)
Theorem from_omero_dict_tiers (data : dict pyval) (m : MIHCSMEMetadata) :
  from_omero_dict data = Ok m ->
  option_map (fun i => groups_value (inv_groups i)) (investigation_information m)
  = dict_get data "InvestigationInformation"
  /\ option_map (fun s => groups_value (study_groups s)) (study_information m)
     = dict_get data "StudyInformation"
  /\ option_map (fun a => groups_value (assay_groups a)) (assay_information m)
     = dict_get data "AssayInformation".
Proof.
  intros H. apply from_omero_dict_tiers_inv in H as (Hinv & Hst & Hasy).
  split; [|split].
  - exact (tier_read _ _ _ _ new_InvestigationInformation_inv Hinv).
  - exact (tier_read _ _ _ _ new_StudyInformation_inv Hst).
  - exact (tier_read _ _ _ _ new_AssayInformation_inv Hasy).
Qed.

Lemma from_omero_dict_tiers_witness :
  option_map (fun i => groups_value (inv_groups i))
             (investigation_information metadata_of_flat_dict)
  = dict_get flat_dict_of_test "InvestigationInformation"
  /\ option_map (fun s => groups_value (study_groups s))
                (study_information metadata_of_flat_dict)
     = dict_get flat_dict_of_test "StudyInformation"
  /\ option_map (fun a => groups_value (assay_groups a))
                (assay_information metadata_of_flat_dict)
     = dict_get flat_dict_of_test "AssayInformation".
Proof.
  apply (from_omero_dict_tiers flat_dict_of_test metadata_of_flat_dict).
  reflexivity.
Defined.

Lemma reference_entries_filter (d : dict pyval) :
  map reference_entry (reference_sheets_of d) = filter is_reference_entry d.
Proof.
  unfold is_reference_entry.
  induction d as [|[k v] d IH]; simpl; [reflexivity|].
  destruct v; simpl; rewrite ?andb_false_r; try exact IH.
  rewrite andb_true_r. destruct (startswith k "_"); simpl; now rewrite IH.
Qed.

(** X11. When [from_omero_dict] returns, its reference sheets are the
    entries of the input whose key starts with ['_'] and whose value is a
    dict, each with its key as name and its value as data, in the order of
    the input.  An entry under a ['_'] key that holds anything else is
    passed over. *)
Theorem from_omero_dict_reference_sheets (data : dict pyval) (m : MIHCSMEMetadata) :
  from_omero_dict data = Ok m ->
  map reference_entry (reference_sheets m) = filter is_reference_entry data.
Proof.
  intros H. apply from_omero_dict_inv in H as [_ ->].
  apply reference_entries_filter.
Qed.

Lemma from_omero_dict_reference_sheets_witness :
  map reference_entry (reference_sheets metadata_of_flat_dict)
  = filter is_reference_entry flat_dict_of_test.
Proof.
  apply (from_omero_dict_reference_sheets flat_dict_of_test metadata_of_flat_dict).
  reflexivity.
Defined.

Lemma dict_get_filter {V : Type} (f : string * V -> bool) (d : dict V)
    (k : string) (v : V) :
  dict_wf d -> dict_get d k = Some v -> f (k, v) = true ->
  dict_get (filter f d) k = Some v.
Proof.
  intros Hwf Hget Hf. apply dict_get_in; [now apply dict_wf_filter|].
  apply filter_In. split; [now apply dict_get_some_in | exact Hf].
Qed.

(** X12. Reading a flat dict and writing the result back keeps what was
    read of the tiers and of the reference sheets: under each tier key
    the output holds what the input holds there (or lacks the key as the
    input does), and under every ['_'] key with a dict value it holds that
    dict. *)
Theorem to_from_omero_dict_keeps (data : dict pyval) (m : MIHCSMEMetadata) :
  dict_wf data ->
  from_omero_dict data = Ok m ->
  (forall k, In k tier_keys -> dict_get (to_omero_dict m) k = dict_get data k)
  /\ (forall k d, startswith k "_" = true -> dict_get data k = Some (PDict d) ->
                  dict_get (to_omero_dict m) k = Some (PDict d)).
Proof.
  intros Hwf H.
  destruct (from_omero_dict_tiers_inv data m H) as (Hinv & Hst & Hasy).
  apply (tier_read _ (fun i => groups_value (inv_groups i)) _ _
                   new_InvestigationInformation_inv) in Hinv.
  apply (tier_read _ (fun s => groups_value (study_groups s)) _ _
                   new_StudyInformation_inv) in Hst.
  apply (tier_read _ (fun a => groups_value (assay_groups a)) _ _
                   new_AssayInformation_inv) in Hasy.
  assert (Hrefs : map reference_entry (reference_sheets m)
                  = filter is_reference_entry data).
  { destruct (from_omero_dict_inv data m H) as [_ ->]. apply reference_entries_filter. }
  assert (Hok : references_ok (reference_sheets m)).
  { apply from_omero_dict_inv in H as [_ ->]. now apply reference_sheets_of_ok. }
  rewrite (to_omero_dict_app m Hok). destruct Hok as [_ Hnames].
  split.
  - intros k Hk. rewrite dict_get_app.
    rewrite (reference_entries_get _ k Hnames)
      by (destruct Hk as [<- | [<- | [<- | []]]]; reflexivity).
    rewrite option_match_id.
    destruct Hk as [<- | [<- | [<- | []]]].
    + now rewrite base_dict_investigation.
    + now rewrite base_dict_study.
    + now rewrite base_dict_assay.
  - intros k d Hk Hget. rewrite dict_get_app.
    destruct (dict_get (base_dict m) k) as [v|] eqn:Hbase.
    + exfalso. apply dict_get_some_in in Hbase.
      assert (Hin : In k (dict_keys (base_dict m)))
        by (apply in_map_iff; now exists (k, v)).
      apply base_dict_keys, reserved_not_reference in Hin. congruence.
    + rewrite Hrefs. apply dict_get_filter; [exact Hwf | exact Hget |].
      unfold is_reference_entry. simpl. now rewrite Hk.
Qed.

Lemma to_from_omero_dict_keeps_witness :
  (forall k, In k tier_keys ->
             dict_get (to_omero_dict metadata_of_flat_dict) k
             = dict_get flat_dict_of_test k)
  /\ (forall k d, startswith k "_" = true ->
                  dict_get flat_dict_of_test k = Some (PDict d) ->
                  dict_get (to_omero_dict metadata_of_flat_dict) k = Some (PDict d)).
Proof.
  apply (to_from_omero_dict_keeps flat_dict_of_test metadata_of_flat_dict).
  - exact (proj1 flat_dict_of_test_wf).
  - reflexivity.
Defined.

(* ================================================================== *)
(** ** More on parse_excel_to_model *)

Lemma no_missing_sheets (available : list string) (s : string) :
  missing_sheets available = [] -> In s required_sheets ->
  str_in s available = true.
Proof.
  intros Hm Hs. destruct (str_in s available) eqn:E; [reflexivity|].
  exfalso. assert (Hin : In s (missing_sheets available)).
  { unfold missing_sheets. apply filter_In. split; [exact Hs | now rewrite E]. }
  rewrite Hm in Hin. contradiction.
Qed.

(** What a successful parse consists of. *)
Lemma parse_excel_to_model_inv (p : ExcelPath) (m : MIHCSMEMetadata) :
  parse_excel_to_model p = Ok m ->
  path_exists p = true
  /\ str_in (lower (suffix p)) [".xlsx"; ".xls"] = true
  /\ missing_sheets (dict_keys (workbook p)) = []
  /\ (exists sd i,
         _parse_key_value_sheet (workbook p) SHEET_INVESTIGATION = Ok sd
         /\ tier_of_sheet "InvestigationInformation"
              (fun g => {| inv_groups := g |}) sd = Ok i
         /\ investigation_information m = Some i)
  /\ (exists sd s,
         _parse_key_value_sheet (workbook p) SHEET_STUDY = Ok sd
         /\ tier_of_sheet "StudyInformation"
              (fun g => {| study_groups := g |}) sd = Ok s
         /\ study_information m = Some s)
  /\ (exists sd a,
         _parse_key_value_sheet (workbook p) SHEET_ASSAY = Ok sd
         /\ tier_of_sheet "AssayInformation"
              (fun g => {| assay_groups := g |}) sd = Ok a
         /\ assay_information m = Some a)
  /\ _parse_assay_conditions (workbook p) SHEET_CONDITIONS = Ok (assay_conditions m)
  /\ reference_sheets m
     = parse_reference_sheets (workbook p) (dict_keys (workbook p)).
Proof.
  unfold parse_excel_to_model.
  destruct (path_exists p); cbn [negb]; [|discriminate].
  destruct (str_in (lower (suffix p)) [".xlsx"; ".xls"]); cbn [negb]; [|discriminate].
  destruct (missing_sheets (dict_keys (workbook p))) eqn:Hm; [|discriminate].
  rewrite !(no_missing_sheets _ _ Hm) by (simpl; tauto).
  intros H.
  apply bind_ok in H as (inv & Hinv & H).
  apply bind_ok in H as (st & Hst & H).
  apply bind_ok in H as (asy & Hasy & H).
  apply bind_ok in H as (cs & Hcs & H).
  inversion H; subst; clear H. simpl.
  apply bind_ok in Hinv as (sd1 & Hsd1 & Hinv).
  apply bind_ok in Hinv as (i & Hi & Hinv). inversion Hinv; subst; clear Hinv.
  apply bind_ok in Hst as (sd2 & Hsd2 & Hst).
  apply bind_ok in Hst as (s & Hs & Hst). inversion Hst; subst; clear Hst.
  apply bind_ok in Hasy as (sd3 & Hsd3 & Hasy).
  apply bind_ok in Hasy as (a & Ha & Hasy). inversion Hasy; subst; clear Hasy.
  repeat split; eauto 6.
Qed.

(** X13. A parse that returns stands on a file that exists, has the
    extension [.xlsx] or [.xls] (in any case) and holds all four required
    sheets; and the metadata it returns has all three tiers set, none is
    [None], even for a tier sheet without a single group. *)
Theorem parse_excel_to_model_success (p : ExcelPath) (m : MIHCSMEMetadata) :
  parse_excel_to_model p = Ok m ->
  path_exists p = true
  /\ str_in (lower (suffix p)) [".xlsx"; ".xls"] = true
  /\ (forall s, In s required_sheets -> In s (dict_keys (workbook p)))
  /\ investigation_information m <> None
  /\ study_information m <> None
  /\ assay_information m <> None.
Proof.
  intros H.
  apply parse_excel_to_model_inv in H
    as (He & Hs & Hm & (? & ? & _ & _ & Hi) & (? & ? & _ & _ & Hst)
        & (? & ? & _ & _ & Ha) & _).
  repeat split; try congruence; try assumption.
  intros s Hin. apply str_in_In. now apply no_missing_sheets.
Qed.

Lemma parse_excel_to_model_success_witness :
  path_exists small_workbook = true
  /\ str_in (lower (suffix small_workbook)) [".xlsx"; ".xls"] = true
  /\ (forall s, In s required_sheets -> In s (dict_keys (workbook small_workbook)))
  /\ investigation_information metadata_of_small_workbook <> None
  /\ study_information metadata_of_small_workbook <> None
  /\ assay_information metadata_of_small_workbook <> None.
Proof.
  apply (parse_excel_to_model_success small_workbook metadata_of_small_workbook).
  reflexivity.
Defined.

(* ================================================================== *)
(** ** More on _parse_assay_conditions *)

Lemma Forall_dict_set {V : Type} (Q : string -> V -> Prop) (d : dict V)
    (k : string) (v : V) :
  Forall (fun kv => Q (fst kv) (snd kv)) d -> Q k v ->
  Forall (fun kv => Q (fst kv) (snd kv)) (dict_set d k v).
Proof.
  intros Hd Hk. induction d as [|[k' v'] d IH]; simpl.
  - constructor; [exact Hk | constructor].
  - inversion Hd as [|? ? Hh Ht]; subst.
    destruct (String.eqb_spec k k') as [->|_]; constructor; auto.
Qed.

Lemma label_row_cells (headers cells : list cell) (l : string) (c : cell) :
  In (l, c) (label_row headers cells) -> In c cells.
Proof.
  revert cells. induction headers as [|h hs IH]; intros [|c0 cs]; simpl;
    try contradiction.
  destruct h; simpl; intros H.
  - destruct H as [E | H]; [inversion E; now left | right; now apply IH].
  - right. now apply IH.
Qed.

Lemma row_get_one (row : list (string * cell)) (col : string) (x : scalar) :
  row_get row col = One (Some x) -> In (col, Some x) row.
Proof.
  unfold row_get.
  destruct (filter (fun lc => String.eqb col (fst lc)) row) as [|[l0 c0] [|? ?]] eqn:Hf;
    try discriminate.
  intros E. inversion E; subst.
  assert (Hin : In (l0, Some x) (filter (fun lc => String.eqb col (fst lc)) row))
    by (rewrite Hf; now left).
  apply filter_In in Hin as [Hin Heq]. simpl in Heq.
  apply String.eqb_eq in Heq. now subst.
Qed.

(** The loop over the columns keeps the conditions a dict, never adds a
    ["Plate"] or ["Well"] key, and adds text only when the row holds text. *)
Lemma row_conditions_keeps (columns : list string) (row : list (string * cell))
    (acc conds : dict pyval) :
  (forall l c, In (l, c) row -> textual c) ->
  row_conditions columns row acc = Ok conds ->
  dict_wf acc ->
  Forall (fun kv => is_plate_or_well (fst kv) = false
                    /\ exists s, snd kv = PStr s) acc ->
  dict_wf conds
  /\ Forall (fun kv => is_plate_or_well (fst kv) = false
                       /\ exists s, snd kv = PStr s) conds.
Proof.
  intros Hrow. revert acc.
  induction columns as [|col rest IH]; intros acc H Hwf Hacc; simpl in H.
  - inversion H; subst. auto.
  - destruct (is_plate_or_well col) eqn:Hpw; [now apply (IH acc)|].
    destruct (row_get row col) as [[x|]|] eqn:Hget; try discriminate;
      [|now apply (IH acc)].
    apply (IH _ H); [now apply dict_set_wf|].
    apply (Forall_dict_set
             (fun k v => is_plate_or_well k = false /\ exists s, v = PStr s));
      [exact Hacc|].
    split; [exact Hpw|].
    apply row_get_one, Hrow in Hget. destruct x; simpl in *; [eauto | contradiction].
Qed.

Lemma conditions_of_rows_parsed (headers : list cell)
    (data_rows : list (nat * list cell)) (cs : list AssayCondition) :
  Forall (fun r => Forall textual (snd r)) data_rows ->
  conditions_of_rows headers data_rows = Ok cs ->
  Forall parsed_condition_ok cs.
Proof.
  intros Htext. revert cs.
  induction Htext as [|[i cells] data_rows Hcells _ IH]; intros cs H; simpl in H.
  - inversion H. constructor.
  - destruct (row_get (label_row headers cells) "Plate") as [[p|]|]; try discriminate;
      [|now apply IH].
    destruct (row_get (label_row headers cells) "Well") as [[w|]|]; try discriminate;
      [|now apply IH].
    apply bind_ok in H as (conds & Hconds & H).
    apply bind_ok in H as (c & Hc & H).
    apply bind_ok in H as (cs' & Hcs' & H). inversion H; subst; clear H.
    constructor; [|now apply IH].
    apply new_AssayCondition_inv in Hc as (ps & ws & _ & _ & Hn & _ & Hcond).
    destruct (normalize_well_name_fixed ws (well c) Hn) as [Hcan Hfix].
    destruct (row_conditions_keeps (map fst (label_row headers cells))
                (label_row headers cells) [] conds) as [Hwf Hall];
      [|exact Hconds | constructor | constructor |].
    + intros l c0 Hin. apply label_row_cells in Hin. simpl in Hcells.
      rewrite Forall_forall in Hcells. now apply Hcells.
    + unfold parsed_condition_ok. rewrite Hcond. auto.
Qed.

Lemma str_cell_textual (c : option string) : textual (str_cell c).
Proof. destruct c; exact I. Qed.

Lemma fit_textual (n : nat) (r : list cell) :
  Forall textual r -> Forall textual (fit n r).
Proof.
  revert r. induction n as [|n IH]; intros r Hr; simpl; [constructor|].
  destruct Hr as [|c r Hc Hr]; constructor; try exact I; try exact Hc; now apply IH.
Qed.

Lemma frame_of_text_cells (ws : Worksheet) :
  Forall (fun r => Forall textual (snd r))
         (rows (frame_of (sheet_width ws) (map (map str_cell) (sheet_rows_str ws)))).
Proof.
  apply Forall_forall. intros [i cells] H. simpl.
  cbn [frame_of rows] in H.
  apply in_combine_r in H. apply in_map_iff in H as (r & <- & Hr).
  apply in_map_iff in Hr as (r0 & <- & _).
  apply fit_textual, Forall_forall. intros c Hc.
  apply in_map_iff in Hc as (c0 & <- & _). apply str_cell_textual.
Qed.

(** The conditions come from rows of text below a header row, unless
    there is no row at all. *)
Lemma parse_assay_conditions_text_rows
    (xls : ExcelFile) (sheet_name : string) (cs : list AssayCondition) :
  _parse_assay_conditions xls sheet_name = Ok cs ->
  cs = []
  \/ exists headers data_rows,
       Forall (fun r => Forall textual (snd r)) data_rows
       /\ conditions_of_rows headers data_rows = Ok cs.
Proof.
  unfold _parse_assay_conditions, read_excel_str. intros H.
  apply bind_ok in H as (df & Hdf & H).
  apply bind_ok in Hdf as (ws & _ & Hdf). inversion Hdf; subst; clear Hdf.
  apply bind_ok in H as (df' & Hdrop & H).
  assert (Htext : Forall (fun r => Forall textual (snd r)) (rows df')).
  { unfold drop_comment_rows in Hdrop.
    destruct (ncols (frame_of _ _) =? 0)%nat; [discriminate|].
    inversion Hdrop; subst; clear Hdrop. simpl.
    pose proof (frame_of_text_cells ws) as Hall.
    rewrite Forall_forall in *. intros r Hr. apply filter_In in Hr as [Hr _]. auto. }
  destruct (rows df') as [|[i headers] data_rows]; [inversion H; now left|].
  destruct (negb (in_headers "Plate" headers) || negb (in_headers "Well" headers));
    [discriminate|].
  inversion Htext; subst. right. now exists headers, data_rows.
Qed.

(** X14. Every condition that [_parse_assay_conditions] returns has a
    canonical well, which the validator leaves unchanged; its conditions
    have pairwise distinct keys, none of them ["Plate"] or ["Well"], and
    every value is text. *)
Theorem parsed_conditions_invariant
    (xls : ExcelFile) (sheet_name : string) (cs : list AssayCondition) :
  _parse_assay_conditions xls sheet_name = Ok cs ->
  Forall parsed_condition_ok cs.
Proof.
  intros H.
  apply parse_assay_conditions_text_rows in H
    as [-> | (headers & data_rows & Htext & H)]; [constructor|].
  now apply (conditions_of_rows_parsed headers data_rows).
Qed.

Lemma parsed_conditions_invariant_witness :
  Forall parsed_condition_ok
    [{| plate := "PlateA"; well := "A01"; conditions := [("Compound", PStr "DMSO")] |}].
Proof.
  apply (parsed_conditions_invariant example_conditions "AssayConditions").
  reflexivity.
Defined.

Lemma parse_reference_sheets_names (xls : ExcelFile) (names : list string) (n : string) :
  In n (map name (parse_reference_sheets xls names)) -> In n names.
Proof.
  induction names as [|s names IH]; simpl; [tauto|].
  destruct (startswith s "_"); [|intros H; right; now apply IH].
  destruct (_parse_reference_sheet xls s); [intros H; right; now apply IH|].
  simpl. intros [<- | H]; [now left | right; now apply IH].
Qed.

Lemma parse_reference_sheets_nodup (xls : ExcelFile) (names : list string) :
  NoDup names -> NoDup (map name (parse_reference_sheets xls names)).
Proof.
  induction 1 as [|s names Hnotin _ IH]; simpl; [constructor|].
  destruct (startswith s "_"); [|exact IH].
  destruct (_parse_reference_sheet xls s); [exact IH|].
  simpl. constructor; [|exact IH].
  intros Hin. apply Hnotin. now apply (parse_reference_sheets_names xls).
Qed.

(** X15. The metadata parsed from a workbook whose sheet names are
    pairwise distinct survives the flat dict: [from_omero_dict] applied
    to its [to_omero_dict] returns the same metadata. *)
Theorem parsed_metadata_round_trip (p : ExcelPath) (m : MIHCSMEMetadata) :
  dict_wf (workbook p) ->
  parse_excel_to_model p = Ok m ->
  from_omero_dict (to_omero_dict m) = Ok m.
Proof.
  intros Hwf H.
  apply parse_excel_to_model_inv in H as (_ & _ & _ & _ & _ & _ & Hcs & Hrs).
  apply from_to_omero_dict.
  - assert (Hok : Forall parsed_condition_ok (assay_conditions m)).
    { apply parse_assay_conditions_text_rows in Hcs
        as [-> | (headers & data_rows & Htext & Hcs)]; [constructor|].
      now apply (conditions_of_rows_parsed headers data_rows). }
    eapply Forall_impl; [|exact Hok].
    intros c (_ & Hfix & Hd & Hkeys). repeat split; [exact Hfix | exact Hd |].
    eapply Forall_impl; [|exact Hkeys]. now intros kv [Hk _].
  - rewrite Hrs. split.
    + now apply parse_reference_sheets_nodup.
    + apply parse_reference_sheets_prefixed.
Qed.

Lemma parsed_metadata_round_trip_witness :
  from_omero_dict (to_omero_dict metadata_of_small_workbook)
  = Ok metadata_of_small_workbook.
Proof.
  apply (parsed_metadata_round_trip small_workbook metadata_of_small_workbook).
  - unfold dict_wf. simpl. repeat constructor; simpl; intuition discriminate.
  - reflexivity.
Defined.

(* ================================================================== *)
(** ** _parse_key_value_sheet *)

Lemma scalar_eqb_spec (x y : scalar) : reflect (x = y) (scalar_eqb x y).
Proof.
  destruct x as [a|a], y as [b|b]; simpl; try (constructor; discriminate).
  - destruct (String.eqb_spec a b); constructor; congruence.
  - destruct (Z.eqb_spec a b); constructor; congruence.
Qed.

Lemma sdict_get_set {V : Type} (d : sdict V) (k k' : scalar) (v : V) :
  sdict_get (sdict_set d k v) k'
  = if scalar_eqb k' k then Some v else sdict_get d k'.
Proof.
  induction d as [|[k0 v0] d IH]; simpl.
  - destruct (scalar_eqb k' k); reflexivity.
  - destruct (scalar_eqb_spec k k0) as [->|Hne]; simpl.
    + destruct (scalar_eqb k' k0); reflexivity.
    + destruct (scalar_eqb_spec k' k0) as [->|Hne'].
      * destruct (scalar_eqb_spec k0 k); [congruence | reflexivity].
      * exact IH.
Qed.

Lemma key_value_row_entry (n : nat) (sd : sdict (sdict pyval)) (row : nat * list cell) :
  key_value_row n sd row
  = match entry_of_row n (snd row) with
    | Some e => put_entry sd e
    | None => sd
    end.
Proof.
  unfold key_value_row, entry_of_row, group_allowed.
  destruct (iloc (snd row) 0) as [g|]; [|reflexivity].
  destruct (scalar_eqb g (SStr "Annotation_groups")); [reflexivity|].
  destruct (startswith (str_of_scalar g) "#"); [reflexivity|]. simpl.
  destruct (2 <? n)%nat; [|reflexivity].
  destruct (iloc (snd row) 1); reflexivity.
Qed.

Lemma fold_key_value_rows (n : nat) (rs : list (nat * list cell))
    (sd : sdict (sdict pyval)) :
  fold_left (key_value_row n) rs sd
  = fold_left put_entry
      (flat_map (fun cells => match entry_of_row n cells with
                              | Some e => [e]
                              | None => []
                              end) (map snd rs)) sd.
Proof.
  revert sd. induction rs as [|r rs IH]; intros sd; simpl; [reflexivity|].
  rewrite fold_left_app, IH, key_value_row_entry.
  now destruct (entry_of_row n (snd r)).
Qed.

Lemma plain_frame_cells (ws : Worksheet) :
  map snd (filter (fun r => negb (is_comment_row (snd r)))
                  (rows (frame_of (sheet_width ws) (sheet_rows ws))))
  = tier_rows ws.
Proof.
  rewrite (map_snd_filter (fun r => negb (is_comment_row r))).
  now rewrite frame_of_cells.
Qed.

Lemma frame_ncols (n : nat) (rs : list (list cell)) : ncols (frame_of n rs) = n.
Proof. reflexivity. Qed.

(** The sheet data is the entries of the sheet, put one after the other. *)
Lemma parse_key_value_sheet_entries (xls : ExcelFile) (sheet_name : string)
    (ws : Worksheet) :
  dict_get xls sheet_name = Some ws ->
  sheet_width ws <> 0%nat ->
  _parse_key_value_sheet xls sheet_name
  = Ok (fold_left put_entry (tier_entries ws) []).
Proof.
  intros Hget Hw. unfold _parse_key_value_sheet, read_excel, sheet_named.
  rewrite Hget. cbn [bind]. unfold drop_comment_rows.
  rewrite frame_ncols.
  destruct (Nat.eqb_spec (sheet_width ws) 0); [contradiction|]. cbn [bind ncols rows].
  rewrite fold_key_value_rows, plain_frame_cells. reflexivity.
Qed.

Lemma parse_key_value_sheet_ok (xls : ExcelFile) (sheet_name : string)
    (sd : sdict (sdict pyval)) :
  _parse_key_value_sheet xls sheet_name = Ok sd ->
  exists ws, dict_get xls sheet_name = Some ws
             /\ sheet_width ws <> 0%nat
             /\ sd = fold_left put_entry (tier_entries ws) [].
Proof.
  intros H.
  destruct (dict_get xls sheet_name) as [ws|] eqn:Hget.
  - exists ws. destruct (Nat.eq_dec (sheet_width ws) 0) as [E|Hw].
    + unfold _parse_key_value_sheet, read_excel, sheet_named in H.
      rewrite Hget in H. cbn [bind] in H. unfold drop_comment_rows in H.
      rewrite frame_ncols, E in H. discriminate.
    + rewrite (parse_key_value_sheet_entries xls sheet_name ws Hget Hw) in H.
      inversion H. auto.
  - unfold _parse_key_value_sheet, read_excel, sheet_named in H.
    rewrite Hget in H. discriminate.
Qed.

Lemma slookup2_put_entries (entries : list (scalar * scalar * pyval)) (g k : scalar) :
  slookup2 (fold_left put_entry entries []) g k = last_entry entries g k.
Proof.
  unfold last_entry.
  induction entries as [|[[g0 k0] v0] entries IH] using rev_ind; [reflexivity|].
  rewrite fold_left_app, rev_app_distr. simpl. unfold slookup2 in *.
  rewrite sdict_get_set.
  destruct (scalar_eqb_spec g g0) as [->|Hg]; simpl.
  - rewrite sdict_get_set.
    destruct (scalar_eqb_spec k k0) as [->|Hk]; [reflexivity|].
    rewrite <- IH.
    now destruct (sdict_get (fold_left put_entry entries []) g0).
  - exact IH.
Qed.

(** X16. Take the frame that [read_excel] returns for a tier sheet, with
    at least one column.  In the data of the sheet, a group and a key hold
    the value of the last row that gives them (a NaN value cell is
    recorded as [None]); a pair that no row gives is absent.  The rows
    that count are the rows of the frame that are no comments, whose group
    is neither NaN nor ["Annotation_groups"] and whose key is not NaN, in
    a frame of more than two columns. *)
Theorem parse_key_value_sheet_lookup (xls : ExcelFile) (sheet_name : string)
    (ws : Worksheet) :
  dict_get xls sheet_name = Some ws ->
  sheet_width ws <> 0%nat ->
  exists sd,
    _parse_key_value_sheet xls sheet_name = Ok sd
    /\ forall g k, slookup2 sd g k = last_entry (tier_entries ws) g k.
Proof.
  intros Hget Hw. eexists. split.
  - apply (parse_key_value_sheet_entries xls sheet_name ws Hget Hw).
  - apply slookup2_put_entries.
Qed.

Lemma parse_key_value_sheet_lookup_witness :
  exists sd,
    _parse_key_value_sheet (workbook small_workbook) "InvestigationInformation" = Ok sd
    /\ forall g k,
         slookup2 sd g k
         = last_entry [(SStr "DataOwner", SStr "First Name", PStr "Jane");
                       (SStr "DataOwner", SStr "Last Name", PNone);
                       (SStr "InvestigationInfo", SStr "Project ID", PInt 7)] g k.
Proof.
  refine (parse_key_value_sheet_lookup (workbook small_workbook)
            "InvestigationInformation" _ eq_refl _).
  vm_compute. discriminate.
Defined.

Lemma Forall_sdict_set {V : Type} (Q : scalar -> V -> Prop) (d : sdict V)
    (k : scalar) (v : V) :
  Forall (fun kv => Q (fst kv) (snd kv)) d -> Q k v ->
  Forall (fun kv => Q (fst kv) (snd kv)) (sdict_set d k v).
Proof.
  intros Hd Hk. induction d as [|[k' v'] d IH]; simpl.
  - constructor; [exact Hk | constructor].
  - inversion Hd as [|? ? Hh Ht]; subst.
    destruct (scalar_eqb_spec k k') as [->|_]; constructor; auto.
Qed.

Lemma sdict_set_not_nil {V : Type} (d : sdict V) (k : scalar) (v : V) :
  sdict_set d k v <> [].
Proof.
  destruct d as [|[k' v'] d]; simpl; [discriminate|].
  destruct (scalar_eqb k k'); discriminate.
Qed.

Lemma entry_of_row_group (n : nat) (cells : list cell) (g k : scalar) (v : pyval) :
  entry_of_row n cells = Some (g, k, v) ->
  group_allowed g = true /\ (2 < n)%nat.
Proof.
  unfold entry_of_row. destruct (iloc cells 0) as [g0|]; [|discriminate].
  destruct (group_allowed g0 && (2 <? n)%nat) eqn:E; [|discriminate].
  destruct (iloc cells 1); [|discriminate]. intros H. inversion H; subst.
  apply andb_true_iff in E as [Hg Hn]. apply Nat.ltb_lt in Hn. auto.
Qed.

Lemma tier_entries_allowed (ws : Worksheet) :
  Forall (fun e => group_allowed (fst (fst e)) = true) (tier_entries ws).
Proof.
  apply Forall_forall. intros [[g k] v] Hin. unfold tier_entries in Hin.
  apply in_flat_map in Hin as (cells & _ & Hin).
  destruct (entry_of_row (sheet_width ws) cells) as [e|] eqn:He; [|contradiction].
  destruct Hin as [-> | []]. now apply entry_of_row_group in He.
Qed.

Lemma put_entries_groups (entries : list (scalar * scalar * pyval)) :
  Forall (fun e => group_allowed (fst (fst e)) = true) entries ->
  Forall (fun g => group_allowed (fst g) = true /\ snd g <> [])
         (fold_left put_entry entries []).
Proof.
  induction entries as [|[[g k] v] entries IH] using rev_ind; intros Hentries;
    [constructor|].
  rewrite fold_left_app. simpl.
  apply Forall_app in Hentries as [Hes He]. inversion He as [|? ? Hg _]; subst.
  apply (Forall_sdict_set (fun g fields => group_allowed g = true /\ fields <> []));
    [now apply IH|].
  split; [exact Hg | apply sdict_set_not_nil].
Qed.

(** X17. The data of a tier sheet never has a group named
    ["Annotation_groups"] or one whose name starts with ['#'], and never a
    group without a field. *)
Theorem parse_key_value_sheet_groups (xls : ExcelFile) (sheet_name : string)
    (sd : sdict (sdict pyval)) :
  _parse_key_value_sheet xls sheet_name = Ok sd ->
  Forall (fun g => group_allowed (fst g) = true /\ snd g <> []) sd.
Proof.
  intros H. apply parse_key_value_sheet_ok in H as (ws & _ & _ & ->).
  apply put_entries_groups, tier_entries_allowed.
Qed.

Lemma parse_key_value_sheet_groups_witness :
  Forall (fun g => group_allowed (fst g) = true /\ snd g <> [])
         [(SStr "Assay", [(SStr "Assay Title", PStr "HCS")])].
Proof.
  apply (parse_key_value_sheet_groups (workbook small_workbook) "AssayInformation").
  reflexivity.
Defined.

(** X18. A tier sheet whose frame has one or two columns gives no data at
    all, without an error: key and value are taken only from rows of more
    than two cells.  A frame without any column fails with [IndexError]. *)
Theorem parse_key_value_sheet_narrow (xls : ExcelFile) (sheet_name : string)
    (ws : Worksheet) :
  dict_get xls sheet_name = Some ws ->
  (sheet_width ws < 3)%nat ->
  _parse_key_value_sheet xls sheet_name
  = if (sheet_width ws =? 0)%nat
    then Raise (IndexError "single positional indexer is out-of-bounds")
    else Ok [].
Proof.
  intros Hget Hw. destruct (Nat.eqb_spec (sheet_width ws) 0) as [E|Hne].
  - unfold _parse_key_value_sheet, read_excel, sheet_named. rewrite Hget.
    cbn [bind]. unfold drop_comment_rows. now rewrite frame_ncols, E.
  - rewrite (parse_key_value_sheet_entries xls sheet_name ws Hget Hne).
    assert (Hnone : tier_entries ws = []).
    { unfold tier_entries. induction (tier_rows ws) as [|cells rs IH]; [reflexivity|].
      simpl. rewrite IH.
      destruct (entry_of_row (sheet_width ws) cells) as [[[g k] v]|] eqn:He;
        [|reflexivity].
      apply entry_of_row_group in He as [_ Hn]. lia. }
    now rewrite Hnone.
Qed.

Lemma parse_key_value_sheet_narrow_witness :
  _parse_key_value_sheet
    [("StudyInformation", text_only 2 [[Some "Study"; Some "Study Title"]])]
    "StudyInformation"
  = Ok [].
Proof.
  apply (parse_key_value_sheet_narrow
           [("StudyInformation", text_only 2 [[Some "Study"; Some "Study Title"]])]
           "StudyInformation" _ eq_refl).
  vm_compute. lia.
Defined.

(* ================================================================== *)
(** ** The tiers built from the sheet data *)

Lemma validate_fields_spec (loc : string) (d : sdict pyval) :
  fst (validate_fields loc d) = map (fun f => (str_of_scalar (fst f), snd f)) d
  /\ (snd (validate_fields loc d) = []
      <-> forallb (fun f => is_text (fst f)) d = true).
Proof.
  induction d as [|[k v] d [IHf IHe]]; simpl; [now split|].
  destruct (validate_fields loc d) as [fs es]. simpl in IHf, IHe.
  destruct k as [s|n]; simpl.
  - split; [now rewrite IHf | exact IHe].
  - split; [now rewrite IHf | split; discriminate].
Qed.

Lemma validate_sheet_data_spec (loc : string) (d : sdict (sdict pyval)) :
  fst (validate_sheet_data loc d) = text_groups d
  /\ (snd (validate_sheet_data loc d) = [] <-> all_text_keys d = true).
Proof.
  unfold text_groups.
  induction d as [|[k fields] d [IHf IHe]]; simpl; [now split|].
  destruct (validate_sheet_data loc d) as [gs es]. simpl in IHf, IHe.
  destruct k as [s|n]; cbn [validate_key is_text fst snd str_of_scalar andb].
  - match goal with
    | |- context [validate_fields ?l fields] =>
        destruct (validate_fields_spec l fields) as [Hf He];
        destruct (validate_fields l fields) as [fs e2]
    end.
    simpl in Hf, He. simpl. split; [now rewrite Hf, IHf|].
    rewrite andb_true_iff, <- He, <- IHe. split.
    + intros H. now apply app_eq_nil in H.
    + intros [-> ->]. reflexivity.
  - match goal with
    | |- context [validate_fields ?l fields] =>
        destruct (validate_fields_spec l fields) as [Hf _];
        destruct (validate_fields l fields) as [fs e2]
    end.
    simpl in Hf. simpl. split; [now rewrite Hf, IHf | split; discriminate].
Qed.

Lemma tier_of_sheet_cases {M : Type} (title : string)
    (make : dict (dict pyval) -> M) (sd : sdict (sdict pyval)) :
  (all_text_keys sd = true
   /\ tier_of_sheet title make sd = Ok (make (text_groups sd)))
  \/ (all_text_keys sd = false
      /\ exists errors, errors <> []
           /\ tier_of_sheet title make sd = Raise (ValidationError title errors)).
Proof.
  destruct sd as [|g sd]; [left; now split|].
  unfold tier_of_sheet.
  destruct (validate_sheet_data_spec "groups" (g :: sd)) as [Hf He].
  destruct (validate_sheet_data "groups" (g :: sd)) as [gs es].
  cbn [fst snd] in Hf, He. subst gs.
  destruct es as [|e es].
  - left. split; [now apply He | reflexivity].
  - right. split.
    + destruct (all_text_keys (g :: sd)); [|reflexivity].
      destruct He as [_ He]. now specialize (He eq_refl).
    + exists (e :: es). split; [discriminate | reflexivity].
Qed.

(** X19. The data of a tier sheet becomes the tier exactly when every group
    and every key in it is text, and then with the same groups, keys and
    values in the same order.  A numeric group or key cell (a year, an
    identifier) makes the constructor fail with a [ValidationError] named
    after the tier. *)
Theorem tier_of_sheet_outcomes {M : Type} (title : string)
    (make : dict (dict pyval) -> M) (sd : sdict (sdict pyval)) :
  match tier_of_sheet title make sd with
  | Ok t => all_text_keys sd = true /\ t = make (text_groups sd)
  | Raise e =>
      all_text_keys sd = false
      /\ exists errors, errors <> [] /\ e = ValidationError title errors
  end.
Proof.
  destruct (tier_of_sheet_cases title make sd) as [[Ht ->] | [Ht (errors & Hne & ->)]].
  - now split.
  - split; [exact Ht | now exists errors].
Qed.

Lemma text_groups_ok (sd : sdict (sdict pyval)) :
  all_text_keys sd = true ->
  Forall (fun g => group_allowed (fst g) = true /\ snd g <> []) sd ->
  Forall tier_group_ok (text_groups sd).
Proof.
  intros Ht Hg. unfold text_groups. apply Forall_map.
  induction Hg as [|[g fields] sd [Ha Hn] _ IH]; [constructor|].
  simpl in Ht. apply andb_true_iff in Ht as [Hg' Ht].
  apply andb_true_iff in Hg' as [Hg' _].
  constructor; [|now apply IH].
  destruct g as [s|n]; [|discriminate]. unfold tier_group_ok. cbn [fst snd] in *.
  unfold group_allowed in Ha. apply andb_true_iff in Ha as [Ha1 Ha2].
  apply negb_true_iff in Ha1, Ha2. cbn [scalar_eqb str_of_scalar] in *.
  split; [|split].
  - intros ->. discriminate.
  - exact Ha2.
  - destruct fields; [now contradiction Hn | discriminate].
Qed.

Lemma parsed_tier_ok {M : Type} (title : string)
    (make : dict (dict pyval) -> M) (xls : ExcelFile) (sheet_name : string)
    (sd : sdict (sdict pyval)) (t : M) :
  _parse_key_value_sheet xls sheet_name = Ok sd ->
  tier_of_sheet title make sd = Ok t ->
  exists gs, t = make gs /\ Forall tier_group_ok gs.
Proof.
  intros Hsd Ht. exists (text_groups sd).
  destruct (tier_of_sheet_cases title make sd) as [[Htext E] | [_ (errors & _ & E)]];
    rewrite E in Ht; [|discriminate].
  inversion Ht. split; [reflexivity|].
  apply text_groups_ok; [exact Htext|].
  apply parse_key_value_sheet_ok in Hsd as (ws & _ & _ & ->).
  apply put_entries_groups, tier_entries_allowed.
Qed.

(** X20. In the metadata that a parse returns, no tier has a group named
    ["Annotation_groups"], a group whose name starts with ['#'], or a
    group without a field. *)
Theorem parsed_tiers_groups (p : ExcelPath) (m : MIHCSMEMetadata) :
  parse_excel_to_model p = Ok m ->
  tier_groups_ok (option_map inv_groups (investigation_information m))
  /\ tier_groups_ok (option_map study_groups (study_information m))
  /\ tier_groups_ok (option_map assay_groups (assay_information m)).
Proof.
  intros H.
  apply parse_excel_to_model_inv in H
    as (_ & _ & _ & (sd1 & i & Hsd1 & Hi & Ei) & (sd2 & s & Hsd2 & Hs & Es)
        & (sd3 & a & Hsd3 & Ha & Ea) & _).
  rewrite Ei, Es, Ea. cbn [option_map tier_groups_ok].
  destruct (parsed_tier_ok _ _ _ _ _ _ Hsd1 Hi) as (g1 & -> & H1).
  destruct (parsed_tier_ok _ _ _ _ _ _ Hsd2 Hs) as (g2 & -> & H2).
  destruct (parsed_tier_ok _ _ _ _ _ _ Hsd3 Ha) as (g3 & -> & H3).
  now repeat split.
Qed.

Lemma parsed_tiers_groups_witness :
  tier_groups_ok (option_map inv_groups
                    (investigation_information metadata_of_small_workbook))
  /\ tier_groups_ok (option_map study_groups
                       (study_information metadata_of_small_workbook))
  /\ tier_groups_ok (option_map assay_groups
                       (assay_information metadata_of_small_workbook)).
Proof.
  apply (parsed_tiers_groups small_workbook metadata_of_small_workbook).
  reflexivity.
Defined.

(* ================================================================== *)
(** ** _parse_reference_sheet *)




(** X21. A reference sheet that is absent from the workbook, or whose
    frame has fewer than two columns, gives no data, and no error. *)
Theorem parse_reference_sheet_narrow (xls : ExcelFile) (sheet_name : string) :
  match dict_get xls sheet_name with
  | Some ws => (sheet_width ws < 2)%nat
  | None => True
  end ->
  _parse_reference_sheet xls sheet_name = [].
Proof.
  intros H.
  unfold _parse_reference_sheet, reference_sheet_body, read_excel, sheet_named.
  destruct (dict_get xls sheet_name) as [ws|]; [|reflexivity].
  cbn [bind]. unfold drop_comment_rows.
  destruct (Nat.eq_dec (sheet_width ws) 0) as [E|Hne].
  - now rewrite frame_ncols, E.
  - rewrite frame_ncols.
    destruct (Nat.eqb_spec (sheet_width ws) 0) as [|_]; [contradiction|].
    cbn [bind]. unfold dropna_all. cbn [rows ncols].
    destruct (filter _ (filter _ _)) as [|r rs]; [reflexivity|].
    destruct (map fst _) as [|i idxs]; [reflexivity|].
    destruct (nth_error _ i); [|reflexivity].
    destruct (Nat.ltb_spec (sheet_width ws) 2); [reflexivity | lia].
Qed.

Lemma parse_reference_sheet_narrow_witness :
  _parse_reference_sheet
    [("_Organisms", text_only 1 [[Some "Key"]; [Some "Human"]])]
    "_Organisms"
  = [].
Proof.
  apply (parse_reference_sheet_narrow
           [("_Organisms", text_only 1 [[Some "Key"]; [Some "Human"]])]
           "_Organisms").
  vm_compute. lia.
Defined.





Lemma parse_reference_sheets_sound (xls : ExcelFile) (names : list string) :
  Forall (fun r => In (name r) names
                   /\ data r = _parse_reference_sheet xls (name r)
                   /\ data r <> [])
         (parse_reference_sheets xls names).
Proof.
  induction names as [|s names IH]; simpl; [constructor|].
  assert (IH' : Forall (fun r => In (name r) (s :: names)
                                 /\ data r = _parse_reference_sheet xls (name r)
                                 /\ data r <> [])
                       (parse_reference_sheets xls names)).
  { eapply Forall_impl; [|exact IH]. intros r (Hin & Hd & Hn).
    split; [now right | now split]. }
  destruct (startswith s "_"); [|exact IH'].
  destruct (_parse_reference_sheet xls s) as [|e d] eqn:E; [exact IH'|].
  constructor; [|exact IH']. cbn [name data].
  split; [now left | split; [now rewrite E | discriminate]].
Qed.

Lemma parse_reference_sheets_complete (xls : ExcelFile) (names : list string)
    (n : string) :
  In n names -> startswith n "_" = true -> _parse_reference_sheet xls n <> [] ->
  In n (map name (parse_reference_sheets xls names)).
Proof.
  intros Hin Hp Hd. induction names as [|s names IH]; [contradiction|].
  simpl. destruct Hin as [-> | Hin].
  - rewrite Hp. destruct (_parse_reference_sheet xls n) as [|e d];
      [now contradiction Hd | now left].
  - destruct (startswith s "_"); [|now apply IH].
    destruct (_parse_reference_sheet xls s); [now apply IH | right; now apply IH].
Qed.

(** X24. The reference sheets of the metadata that a parse returns are
    the sheets of the workbook whose name starts with ['_'] and that give
    data: each holds what [_parse_reference_sheet] makes of the sheet of
    its name, none is empty, and every such sheet of the workbook is among
    them. *)
Theorem parsed_reference_sheets (p : ExcelPath) (m : MIHCSMEMetadata) :
  parse_excel_to_model p = Ok m ->
  Forall (fun r => In (name r) (dict_keys (workbook p))
                   /\ data r = _parse_reference_sheet (workbook p) (name r)
                   /\ data r <> [])
         (reference_sheets m)
  /\ forall n, In n (dict_keys (workbook p)) ->
               startswith n "_" = true ->
               _parse_reference_sheet (workbook p) n <> [] ->
               In n (map name (reference_sheets m)).
Proof.
  intros H.
  apply parse_excel_to_model_inv in H as (_ & _ & _ & _ & _ & _ & _ & ->).
  split; [apply parse_reference_sheets_sound|].
  intros n. apply parse_reference_sheets_complete.
Qed.

Lemma parsed_reference_sheets_witness :
  Forall (fun r => In (name r) (dict_keys (workbook small_workbook))
                   /\ data r = _parse_reference_sheet (workbook small_workbook) (name r)
                   /\ data r <> [])
         (reference_sheets metadata_of_small_workbook)
  /\ forall n, In n (dict_keys (workbook small_workbook)) ->
               startswith n "_" = true ->
               _parse_reference_sheet (workbook small_workbook) n <> [] ->
               In n (map name (reference_sheets metadata_of_small_workbook)).
Proof.
  apply (parsed_reference_sheets small_workbook metadata_of_small_workbook).
  reflexivity.
Defined.

(* ================================================================== *)
(** ** delete_annotations_from_object and create_map_annotation *)

Lemma skipped_foreign (namespace : option string) (ann : Annotation) :
  skipped namespace ann = foreign namespace ann.
Proof.
  unfold skipped, foreign.
  destruct namespace as [[|c p]|], (getNs ann) as [[[|c' ns]|]|]; reflexivity.
Qed.

Lemma getObject_deleteObjects (conn : BlitzGateway) (ids : list Z)
    (object_type : string) (object_id : Z) :
  getObject (deleteObjects conn ids) object_type object_id
  = option_map (filter (fun a => negb (existsb (Z.eqb (getId a)) ids)))
               (getObject conn object_type object_id).
Proof.
  unfold getObject, deleteObjects. cbn [objects].
  induction (objects conn) as [|o objs IH]; simpl; [reflexivity|].
  destruct (same_object (fst o) (object_type, object_id)); [reflexivity | exact IH].
Qed.

Lemma remaining_skipped (namespace : option string) (anns : list Annotation) :
  Forall (fun a => In a anns /\ skipped namespace a = true)
         (filter (fun a => negb (existsb (Z.eqb (getId a))
                                         (annotations_to_delete namespace anns)))
                 anns).
Proof.
  apply Forall_forall. intros a Hin. apply filter_In in Hin as [Hin Hid].
  split; [exact Hin|].
  destruct (skipped namespace a) eqn:Hs; [reflexivity|].
  apply negb_true_iff in Hid.
  assert (Hex : existsb (Z.eqb (getId a)) (annotations_to_delete namespace anns) = true).
  { apply existsb_exists. exists (getId a). split; [|apply Z.eqb_refl].
    unfold annotations_to_delete. apply in_map. apply filter_In.
    split; [exact Hin | now rewrite Hs]. }
  congruence.
Qed.

Lemma nothing_to_delete (namespace : option string) (anns : list Annotation) :
  Forall (fun a => skipped namespace a = true) anns ->
  annotations_to_delete namespace anns = [].
Proof.
  unfold annotations_to_delete.
  induction 1 as [|a anns Ha _ IH]; simpl; [reflexivity|]. now rewrite Ha.
Qed.

Lemma delete_annotations_left (conn : BlitzGateway) (object_type : string)
    (object_id : Z) (namespace : option string) (anns : list Annotation) :
  getObject conn object_type object_id = Some anns ->
  getObject (snd (delete_annotations_from_object conn object_type object_id namespace))
            object_type object_id
  = Some (filter (fun a => negb (existsb (Z.eqb (getId a))
                                         (annotations_to_delete namespace anns)))
                 anns).
Proof.
  intros E. unfold delete_annotations_from_object. rewrite E.
  destruct (annotations_to_delete namespace anns) eqn:Ed; cbn [snd].
  - rewrite E. f_equal. symmetry. apply filter_all, Forall_forall. reflexivity.
  - rewrite getObject_deleteObjects, E. reflexivity.
Qed.

(** X25. Deleting twice is deleting once: a second call with the same
    arguments, on the server the first call leaves, deletes nothing,
    returns 0 and leaves the server as it is. *)
Theorem delete_annotations_twice (conn : BlitzGateway) (object_type : string)
    (object_id : Z) (namespace : option string) :
  delete_annotations_from_object
    (snd (delete_annotations_from_object conn object_type object_id namespace))
    object_type object_id namespace
  = (0%nat, snd (delete_annotations_from_object conn object_type object_id namespace)).
Proof.
  destruct (getObject conn object_type object_id) as [anns|] eqn:E.
  - pose proof (delete_annotations_left conn object_type object_id namespace anns E)
      as Hleft.
    set (conn' := snd (delete_annotations_from_object conn object_type object_id
                                                      namespace)) in *.
    unfold delete_annotations_from_object at 1. rewrite Hleft.
    rewrite nothing_to_delete; [reflexivity|].
    eapply Forall_impl; [|apply remaining_skipped]. now intros a [_ Ha].
  - unfold delete_annotations_from_object. rewrite E. cbn [snd]. now rewrite E.
Qed.

(** X26. Without a namespace, or with the empty one, every annotation of
    the object is deleted: the count is the number of its annotations and
    none is left on it. *)
Theorem delete_annotations_without_namespace (conn : BlitzGateway)
    (object_type : string) (object_id : Z) (namespace : option string)
    (anns : list Annotation) :
  truthy namespace = false ->
  getObject conn object_type object_id = Some anns ->
  fst (delete_annotations_from_object conn object_type object_id namespace)
  = List.length anns
  /\ getObject (snd (delete_annotations_from_object conn object_type object_id
                                                    namespace))
               object_type object_id
     = Some [].
Proof.
  intros Hns E.
  assert (Hnone : forall a, skipped namespace a = false).
  { intros a. rewrite skipped_foreign. unfold foreign.
    destruct namespace as [[|c p]|]; [reflexivity | discriminate | reflexivity]. }
  split.
  - rewrite (delete_annotations_count _ _ _ _ anns E).
    f_equal. apply filter_all, Forall_forall. intros a _. now rewrite Hnone.
  - rewrite (delete_annotations_left _ _ _ _ anns E). f_equal.
    pose proof (remaining_skipped namespace anns) as Hrem.
    destruct (filter _ anns) as [|a l]; [reflexivity|].
    inversion Hrem as [|? ? [_ Ha] _]; subst. rewrite Hnone in Ha. discriminate.
Qed.

Lemma delete_annotations_without_namespace_witness :
  fst (delete_annotations_from_object
         {| objects := [(("Plate", 5%Z),
                         [{| getId := 1; getNs := Some (Some "MIHCSME/Study") |};
                          {| getId := 2; getNs := Some (Some "other") |};
                          {| getId := 3; getNs := None |}])] |}
         "Plate" 5 (Some ""))
  = 3%nat
  /\ getObject
       (snd (delete_annotations_from_object
               {| objects := [(("Plate", 5%Z),
                               [{| getId := 1; getNs := Some (Some "MIHCSME/Study") |};
                                {| getId := 2; getNs := Some (Some "other") |};
                                {| getId := 3; getNs := None |}])] |}
               "Plate" 5 (Some "")))
       "Plate" 5
     = Some [].
Proof.
  apply (delete_annotations_without_namespace
           {| objects := [(("Plate", 5%Z),
                           [{| getId := 1; getNs := Some (Some "MIHCSME/Study") |};
                            {| getId := 2; getNs := Some (Some "other") |};
                            {| getId := 3; getNs := None |}])] |}
           "Plate" 5 (Some "")
           [{| getId := 1; getNs := Some (Some "MIHCSME/Study") |};
            {| getId := 2; getNs := Some (Some "other") |};
            {| getId := 3; getNs := None |}]);
    reflexivity.
Defined.

Lemma filter_length_le {A : Type} (f g : A -> bool) (l : list A) :
  (forall x, In x l -> f x = true -> g x = true) ->
  (List.length (filter f l) <= List.length (filter g l))%nat.
Proof.
  induction l as [|x l IH]; intros H; simpl; [lia|].
  assert (IH' := IH (fun y Hy => H y (or_intror Hy))).
  destruct (f x) eqn:Ef.
  - rewrite (H x (or_introl eq_refl) Ef). simpl. lia.
  - destruct (g x); simpl; lia.
Qed.

Lemma filter_length_split {A : Type} (f : A -> bool) (l : list A) :
  (List.length (filter f l) + List.length (filter (fun x => negb (f x)) l))%nat
  = List.length l.
Proof.
  induction l as [|x l IH]; simpl; [reflexivity|].
  destruct (f x); simpl; lia.
Qed.

(** X27. What a delete leaves on the object: only annotations that were on
    it, each carrying a non-empty namespace that does not start with the
    non-empty prefix.  The count returned and the number left never exceed
    together the number of annotations the object had. *)
Theorem delete_annotations_leaves_foreign (conn : BlitzGateway)
    (object_type : string) (object_id : Z) (namespace : option string)
    (anns : list Annotation) :
  getObject conn object_type object_id = Some anns ->
  exists left,
    getObject (snd (delete_annotations_from_object conn object_type object_id
                                                   namespace))
              object_type object_id
    = Some left
    /\ Forall (fun a => In a anns /\ foreign namespace a = true) left
    /\ (fst (delete_annotations_from_object conn object_type object_id namespace)
        + List.length left <= List.length anns)%nat.
Proof.
  intros E. eexists. split; [apply (delete_annotations_left _ _ _ _ anns E)|].
  split.
  - eapply Forall_impl; [|apply remaining_skipped].
    intros a [Hin Ha]. now rewrite <- skipped_foreign.
  - rewrite (delete_annotations_count _ _ _ _ anns E).
    rewrite <- (filter_length_split (fun a => negb (skipped namespace a)) anns).
    apply Nat.add_le_mono_l. apply filter_length_le.
    intros a Hin Hid.
    pose proof (remaining_skipped namespace anns) as Hrem.
    rewrite Forall_forall in Hrem.
    destruct (Hrem a) as [_ Hs]; [now apply filter_In|].
    now rewrite Hs.
Qed.

Lemma delete_annotations_leaves_foreign_witness :
  exists left,
    getObject
      (snd (delete_annotations_from_object
              {| objects := [(("Plate", 5%Z),
                              [{| getId := 1; getNs := Some (Some "MIHCSME/Study") |};
                               {| getId := 2; getNs := Some (Some "other") |};
                               {| getId := 3; getNs := None |}])] |}
              "Plate" 5 (Some "MIHCSME")))
      "Plate" 5
    = Some left
    /\ Forall (fun a =>
                 In a [{| getId := 1; getNs := Some (Some "MIHCSME/Study") |};
                       {| getId := 2; getNs := Some (Some "other") |};
                       {| getId := 3; getNs := None |}]
                 /\ foreign (Some "MIHCSME") a = true) left
    /\ (fst (delete_annotations_from_object
               {| objects := [(("Plate", 5%Z),
                               [{| getId := 1; getNs := Some (Some "MIHCSME/Study") |};
                                {| getId := 2; getNs := Some (Some "other") |};
                                {| getId := 3; getNs := None |}])] |}
               "Plate" 5 (Some "MIHCSME"))
        + List.length left <= 3)%nat.
Proof.
  apply (delete_annotations_leaves_foreign
           {| objects := [(("Plate", 5%Z),
                           [{| getId := 1; getNs := Some (Some "MIHCSME/Study") |};
                            {| getId := 2; getNs := Some (Some "other") |};
                            {| getId := 3; getNs := None |}])] |}
           "Plate" 5 (Some "MIHCSME")
           [{| getId := 1; getNs := Some (Some "MIHCSME/Study") |};
            {| getId := 2; getNs := Some (Some "other") |};
            {| getId := 3; getNs := None |}]).
  reflexivity.
Defined.

Lemma same_object_spec (a b : string * Z) : reflect (a = b) (same_object a b).
Proof.
  destruct a as [t i], b as [t' i']. unfold same_object. cbn [fst snd].
  destruct (String.eqb_spec t t') as [->|Ht]; simpl.
  - destruct (Z.eqb_spec i i') as [->|Hi]; constructor; congruence.
  - constructor. congruence.
Qed.

Lemma find_linkAnnotation (objs : list ((string * Z) * list Annotation))
    (key key' : string * Z) (map_ann : Annotation) :
  find (fun o => same_object (fst o) key') (linkAnnotation objs key map_ann)
  = if same_object key' key
    then option_map (fun o => (fst o, (snd o ++ [map_ann])%list))
                    (find (fun o => same_object (fst o) key) objs)
    else find (fun o => same_object (fst o) key') objs.
Proof.
  induction objs as [|o objs IH]; simpl.
  - now destruct (same_object key' key).
  - destruct (same_object_spec (fst o) key) as [Ek|Nk]; simpl.
    + destruct (same_object_spec (fst o) key') as [Ek'|Nk'].
      * destruct (same_object_spec key' key) as [_|N]; [reflexivity | congruence].
      * destruct (same_object_spec key' key) as [E|_]; [congruence | reflexivity].
    + destruct (same_object_spec (fst o) key') as [Ek'|Nk'].
      * destruct (same_object_spec key' key) as [E|_]; [congruence | reflexivity].
      * exact IH.
Qed.

Lemma create_map_annotation_ok (str_of_value : pyval -> string) (srv : Server)
    (new_id : Z) (object_type : string) (object_id : Z)
    (key_value_pairs : dict pyval) (namespace : string) (anns : list Annotation) :
  key_value_pairs <> [] ->
  getObject (gateway srv) object_type object_id = Some anns ->
  create_map_annotation str_of_value srv new_id object_type object_id
                        key_value_pairs namespace
  = (Ok (Some new_id),
     {| gateway :=
          {| objects :=
               linkAnnotation (objects (gateway srv)) (object_type, object_id)
                              {| getId := new_id; getNs := Some (Some namespace) |} |};
        saved := (saved srv
                  ++ [(new_id, (namespace,
                                key_value_list str_of_value key_value_pairs))])%list |}).
Proof.
  intros Hkv E. unfold create_map_annotation. rewrite E.
  destruct key_value_pairs; [now contradiction Hkv | reflexivity].
Qed.

(** X28. With key-value pairs and an object that exists, the call returns
    the id of the new annotation; afterwards the object has the
    annotations it had, followed by the new one under the given namespace;
    every other object has the annotations it had; and one map annotation
    is saved, with one pair per key, in the order of the dict. *)
Theorem create_map_annotation_links (str_of_value : pyval -> string)
    (srv : Server) (new_id : Z) (object_type : string) (object_id : Z)
    (key_value_pairs : dict pyval) (namespace : string) (anns : list Annotation) :
  key_value_pairs <> [] ->
  getObject (gateway srv) object_type object_id = Some anns ->
  let r := create_map_annotation str_of_value srv new_id object_type object_id
                                 key_value_pairs namespace in
  fst r = Ok (Some new_id)
  /\ getObject (gateway (snd r)) object_type object_id
     = Some (anns ++ [{| getId := new_id; getNs := Some (Some namespace) |}])%list
  /\ (forall t i, (t, i) <> (object_type, object_id) ->
                  getObject (gateway (snd r)) t i = getObject (gateway srv) t i)
  /\ exists pairs,
       saved (snd r) = (saved srv ++ [(new_id, (namespace, pairs))])%list
       /\ map fst pairs = dict_keys key_value_pairs.
Proof.
  intros Hkv E r. subst r.
  rewrite (create_map_annotation_ok _ _ _ _ _ _ _ anns Hkv E). cbn [fst snd gateway saved].
  split; [reflexivity|]. split; [|split].
  - unfold getObject in *. cbn [objects]. rewrite find_linkAnnotation.
    destruct (same_object_spec (object_type, object_id) (object_type, object_id))
      as [_|N]; [|congruence].
    destruct (find _ (objects (gateway srv))) as [o|]; [|discriminate].
    cbn [option_map snd] in *. now inversion E.
  - intros t i Hne. unfold getObject. cbn [objects]. rewrite find_linkAnnotation.
    destruct (same_object_spec (t, i) (object_type, object_id)); [contradiction|].
    reflexivity.
  - eexists. split; [reflexivity|].
    unfold key_value_list, dict_keys. rewrite map_map. reflexivity.
Qed.

Lemma create_map_annotation_links_witness :
  let srv := {| gateway := {| objects := [(("Plate", 5%Z),
                                           [{| getId := 1; getNs := None |}]);
                                          (("Well", 9%Z), [])] |};
                saved := [] |} in
  let r := create_map_annotation (fun _ => "DMSO") srv 2 "Well" 9
                                 [("Compound", PStr "DMSO")] "MIHCSME/AssayConditions" in
  fst r = Ok (Some 2%Z)
  /\ getObject (gateway (snd r)) "Well" 9
     = Some ([] ++ [{| getId := 2; getNs := Some (Some "MIHCSME/AssayConditions") |}])%list
  /\ (forall t i, (t, i) <> ("Well", 9%Z) ->
                  getObject (gateway (snd r)) t i = getObject (gateway srv) t i)
  /\ exists pairs,
       saved (snd r)
       = (saved srv ++ [(2%Z, ("MIHCSME/AssayConditions", pairs))])%list
       /\ map fst pairs = dict_keys [("Compound", PStr "DMSO")].
Proof.
  apply (create_map_annotation_links (fun _ => "DMSO")
           {| gateway := {| objects := [(("Plate", 5%Z),
                                         [{| getId := 1; getNs := None |}]);
                                        (("Well", 9%Z), [])] |};
              saved := [] |}
           2 "Well" 9 [("Compound", PStr "DMSO")] "MIHCSME/AssayConditions" []).
  - discriminate.
  - reflexivity.
Defined.

Lemma startswith_refl (s : string) : startswith s s = true.
Proof.
  unfold startswith. induction s as [|c s IH]; simpl; [reflexivity|].
  destruct (ascii_dec c c); [exact IH | congruence].
Qed.

(** X29. An annotation made by [create_map_annotation] under a namespace
    is within the reach of [delete_annotations_from_object] with that
    namespace as prefix: after the creation, the delete counts one
    annotation more than it would have before. *)
Theorem delete_counts_created_annotation (str_of_value : pyval -> string)
    (srv : Server) (new_id : Z) (object_type : string) (object_id : Z)
    (key_value_pairs : dict pyval) (namespace : string) (anns : list Annotation) :
  key_value_pairs <> [] ->
  getObject (gateway srv) object_type object_id = Some anns ->
  fst (delete_annotations_from_object
         (gateway (snd (create_map_annotation str_of_value srv new_id object_type
                                              object_id key_value_pairs namespace)))
         object_type object_id (Some namespace))
  = S (fst (delete_annotations_from_object (gateway srv) object_type object_id
                                           (Some namespace))).
Proof.
  intros Hkv E.
  rewrite (delete_annotations_count _ _ _ _ anns E).
  rewrite (create_map_annotation_ok _ _ _ _ _ _ _ anns Hkv E). cbn [snd gateway].
  rewrite (delete_annotations_count _ _ _ _
             (anns ++ [{| getId := new_id; getNs := Some (Some namespace) |}])%list).
  - rewrite filter_app, length_app. cbn [filter].
    assert (Hs : skipped (Some namespace)
                         {| getId := new_id; getNs := Some (Some namespace) |} = false).
    { unfold skipped. cbn [getNs]. destruct namespace as [|c ns]; [reflexivity|].
      cbn [truthy andb]. now rewrite startswith_refl. }
    rewrite Hs. cbn [negb List.length]. lia.
  - unfold getObject in *. cbn [objects]. rewrite find_linkAnnotation.
    destruct (same_object_spec (object_type, object_id) (object_type, object_id))
      as [_|N]; [|congruence].
    destruct (find _ (objects (gateway srv))) as [o|]; [|discriminate].
    cbn [option_map snd] in *. now inversion E.
Qed.

Lemma delete_counts_created_annotation_witness :
  fst (delete_annotations_from_object
         (gateway (snd (create_map_annotation (fun _ => "DMSO")
                          {| gateway := {| objects := [(("Well", 9%Z),
                                             [{| getId := 1;
                                                 getNs := Some (Some "other") |}])] |};
                             saved := [] |}
                          2 "Well" 9 [("Compound", PStr "DMSO")] "MIHCSME")))
         "Well" 9 (Some "MIHCSME"))
  = S (fst (delete_annotations_from_object
              {| objects := [(("Well", 9%Z),
                              [{| getId := 1; getNs := Some (Some "other") |}])] |}
              "Well" 9 (Some "MIHCSME"))).
Proof.
  apply (delete_counts_created_annotation (fun _ => "DMSO")
           {| gateway := {| objects := [(("Well", 9%Z),
                                         [{| getId := 1;
                                             getNs := Some (Some "other") |}])] |};
              saved := [] |}
           2 "Well" 9 [("Compound", PStr "DMSO")] "MIHCSME"
           [{| getId := 1; getNs := Some (Some "other") |}]).
  - discriminate.
  - reflexivity.
Defined.

(* ================================================================== *)
(** ** OMEROFormsClient *)

Lemma rstrip_slash_no_slash (s : string) : ends_with_slash (rstrip_slash s) = false.
Proof.
  induction s as [|c s IH]; [reflexivity|]. simpl.
  destruct (rstrip_slash s) as [|c' r] eqn:E.
  - destruct (Ascii.eqb c "/") eqn:Ec; [reflexivity|]. simpl. exact Ec.
  - exact IH.
Qed.

Lemma rstrip_slash_slashes (s : string) :
  exists n, s = rstrip_slash s ++ slashes n.
Proof.
  induction s as [|c s [n IH]]; [now exists 0%nat|]. simpl.
  destruct (rstrip_slash s) as [|c' r] eqn:E.
  - destruct (Ascii.eqb_spec c "/") as [->|Hc].
    + exists (S n). simpl. now rewrite IH at 1.
    + exists n. simpl. now rewrite IH at 1.
  - exists n. simpl. now rewrite IH at 1.
Qed.

Lemma rstrip_slash_of_slashes (n : nat) : rstrip_slash (slashes n) = "".
Proof. induction n as [|n IH]; simpl; [reflexivity | now rewrite IH]. Qed.

Lemma rstrip_slash_app_slashes (s : string) (n : nat) :
  rstrip_slash (s ++ slashes n) = rstrip_slash s.
Proof.
  induction s as [|c s IH]; simpl; [apply rstrip_slash_of_slashes | now rewrite IH].
Qed.

(** X30. The client keeps its base URL without the slashes at its end: the
    URL given is the one kept followed by slashes only, the one kept does
    not end with a slash, and a base URL given with more slashes at its
    end makes the same client. *)
Theorem forms_client_base_url (url user pass : string) (id : Z) :
  (exists n, url = base_url (__init__ url user pass id) ++ slashes n)
  /\ ends_with_slash (base_url (__init__ url user pass id)) = false
  /\ forall n, __init__ (url ++ slashes n) user pass id = __init__ url user pass id.
Proof.
  unfold __init__. cbn [base_url].
  split; [apply rstrip_slash_slashes|]. split; [apply rstrip_slash_no_slash|].
  intros n. now rewrite rstrip_slash_app_slashes.
Qed.
